(** * Health IA Tracker: retry wrappers, request builders and change-feed
      projections of the three application variants

    The development embeds the logic of [HealthTrackerApp.jsx],
    [unnamed/part_000] and [index.jsx] as Rocq functions and states the
    properties of the specification over them.

    Conventions of the embedding:
    - a JavaScript number is a [JS.number]: NaN, an infinity, or a finite
      value carried by the rational it denotes;
    - a value read out of a parsed JSON body is a [JS.Value];
    - asynchronous code is written in direct style: an [await] is a call, a
      rejected promise is a [Throw];
    - the network, [Math.random], the clock and the store's verdict on a
      write are inputs of the functions that use them; the calls issued and
      the delays slept are returned as a trace of [Event]s;
    - a React state setter is the new value of its field in the state the
      handler returns; console output is left out. *)

From Stdlib Require Import ZArith QArith Qabs Lqa Lia String Ascii List Bool.
From Stdlib Require Import Sorting.Sorted Sorting.Permutation.
From stdpp Require Import base gmap strings pretty.

Open Scope string_scope.

(** ** Outcomes of a call: a value, or a thrown [Error] *)

Record Error := mkError { name : string; message : string }.

Inductive Result (A : Type) :=
| Return (a : A)
| Throw (e : Error).
Arguments Return {A} a.
Arguments Throw {A} e.

(** [new Error(msg)], and the two built-in errors the code can meet. *)
Definition new_Error (msg : string) : Error := mkError "Error" msg.
Definition TypeError (msg : string) : Error := mkError "TypeError" msg.
Definition SyntaxError (msg : string) : Error := mkError "SyntaxError" msg.

(** [error.message], for the scopes where [message] names a state field. *)
Definition message_of (e : Error) : string := message e.

Definition is_Throw {A} (r : Result A) : bool :=
  match r with Throw _ => true | Return _ => false end.

(** ** The JavaScript values the code manipulates *)

Module JS.

(** *** Numbers *)

Inductive number :=
| NaN
| Infinity (negative : bool)
| Fin (q : Q).

(** Magnitudes at or above [2^1024 - 2^970] round to an infinity, magnitudes
    at or below [2^-1075] round to zero.  Between the two a finite value
    keeps its exact rational (rounding to 53 bits changes neither the sign
    nor the finiteness, which is all the embedded code looks at). *)
Definition overflow_bound : Q := inject_Z (2 ^ 1024 - 2 ^ 970).
Definition underflow_bound : Q := 1 # (2 ^ 1075).

Definition of_Q (q : Q) : number :=
  if Qle_bool overflow_bound (Qabs q) then Infinity (negb (Qle_bool 0 q))
  else if Qle_bool (Qabs q) underflow_bound then Fin 0
  else Fin (Qred q).

Definition of_Z (z : Z) : number := of_Q (inject_Z z).

Definition isNaN (n : number) : bool :=
  match n with NaN => true | _ => false end.

Definition isFinite (n : number) : bool :=
  match n with Fin _ => true | _ => false end.

(** [a < b]; every comparison with NaN is false. *)
Definition ltb (a b : number) : bool :=
  match a, b with
  | NaN, _ | _, NaN => false
  | Infinity true, Infinity true => false
  | Infinity true, _ => true
  | _, Infinity true => false
  | Infinity false, _ => false
  | Fin _, Infinity false => true
  | Fin x, Fin y => negb (Qle_bool y x)
  end.

(** [a <= b] *)
Definition leb (a b : number) : bool :=
  match a, b with
  | NaN, _ | _, NaN => false
  | Infinity true, _ => true
  | _, Infinity true => false
  | _, Infinity false => true
  | Infinity false, Fin _ => false
  | Fin x, Fin y => Qle_bool x y
  end.

Definition gtb (a b : number) : bool := ltb b a.

Definition zero : number := Fin 0.

(** [a - b] *)
Definition sub (a b : number) : number :=
  match a, b with
  | NaN, _ | _, NaN => NaN
  | Infinity s, Infinity t => if Bool.eqb s t then NaN else Infinity s
  | Infinity s, Fin _ => Infinity s
  | Fin _, Infinity t => Infinity (negb t)
  | Fin x, Fin y => of_Q (x - y)
  end.

(** *** Strings *)

Definition is_digit (c : ascii) : bool :=
  let n := nat_of_ascii c in (48 <=? n)%nat && (n <=? 57)%nat.

Definition digit_value (c : ascii) : Z := Z.of_nat (nat_of_ascii c) - 48.

(** White space and line terminators skipped by [parseFloat].  Strings are
    sequences of UTF-8 bytes.  The one-byte ones: TAB, LF, VT, FF, CR, SP. *)
Definition is_space (c : ascii) : bool :=
  let n := nat_of_ascii c in
  ((9 <=? n)%nat && (n <=? 13)%nat) || (n =? 32)%nat.

(** U+00A0, encoded on two bytes. *)
Definition is_space2 (c1 c2 : ascii) : bool :=
  (nat_of_ascii c1 =? 194)%nat && (nat_of_ascii c2 =? 160)%nat.

(** The ones encoded on three bytes: U+1680, U+2000 to U+200A, U+2028,
    U+2029, U+202F, U+205F, U+3000 and U+FEFF. *)
Definition is_space3 (c1 c2 c3 : ascii) : bool :=
  let n1 := nat_of_ascii c1 in
  let n2 := nat_of_ascii c2 in
  let n3 := nat_of_ascii c3 in
  ((n1 =? 225) && (n2 =? 154) && (n3 =? 128))%nat
  || ((n1 =? 226) && (n2 =? 128)
      && (((128 <=? n3) && (n3 <=? 138)) || (n3 =? 168) || (n3 =? 169) || (n3 =? 175)))%nat
  || ((n1 =? 226) && (n2 =? 129) && (n3 =? 159))%nat
  || ((n1 =? 227) && (n2 =? 128) && (n3 =? 128))%nat
  || ((n1 =? 239) && (n2 =? 187) && (n3 =? 191))%nat.

Fixpoint trim_start (s : string) : string :=
  match s with
  | EmptyString => EmptyString
  | String c1 r1 =>
      if is_space c1 then trim_start r1
      else
        match r1 with
        | String c2 r2 =>
            if is_space2 c1 c2 then trim_start r2
            else
              match r2 with
              | String c3 r3 => if is_space3 c1 c2 c3 then trim_start r3 else s
              | EmptyString => s
              end
        | EmptyString => s
        end
  end.

(** The longest run of decimal digits at the head of [s], and the rest. *)
Fixpoint span_digits (s : string) : list ascii * string :=
  match s with
  | String c s' =>
      if is_digit c then let '(ds, r) := span_digits s' in (c :: ds, r)
      else (nil, s)
  | EmptyString => (nil, EmptyString)
  end.

Definition digits_value (ds : list ascii) : Z :=
  fold_left (fun acc c => 10 * acc + digit_value c)%Z ds 0%Z.

(** [ExponentPart]: [e] or [E], an optional sign, at least one digit.  An
    incomplete exponent is not part of the literal. *)
Definition exponent_part (s : string) : Z :=
  match s with
  | String c r =>
      if (Ascii.eqb c "e" || Ascii.eqb c "E")%bool then
        match r with
        | String "-" r' =>
            match span_digits r' with
            | (nil, _) => 0
            | (ds, _) => - digits_value ds
            end
        | String "+" r' => digits_value (fst (span_digits r'))
        | _ => digits_value (fst (span_digits r))
        end%Z
      else 0%Z
  | EmptyString => 0%Z
  end.

(** [StrUnsignedDecimalLiteral]: [Infinity], or digits with an optional
    fraction and exponent; [None] when no prefix of [s] is a literal. *)
Definition unsigned_literal (s : string) : option number :=
  if String.prefix "Infinity" s then Some (Infinity false)
  else
    let '(ip, r1) := span_digits s in
    let '(fp, r2) :=
      match r1 with
      | String "." r => span_digits r
      | _ => (nil, r1)
      end in
    match (ip ++ fp)%list with
    | nil => None
    | ds =>
        let e := (exponent_part r2 - Z.of_nat (List.length fp))%Z in
        Some (of_Q (inject_Z (digits_value ds) * Qpower 10 e))
    end.

Definition neg (n : number) : number :=
  match n with
  | NaN => NaN
  | Infinity s => Infinity (negb s)
  | Fin q => Fin (Qred (- q))
  end.

(** [parseFloat(string)] *)
Definition parseFloat (s : string) : number :=
  let t := trim_start s in
  let r :=
    match t with
    | String "-" t' => option_map neg (unsigned_literal t')
    | String "+" t' => unsigned_literal t'
    | _ => unsigned_literal t
    end in
  match r with
  | Some n => n
  | None => NaN
  end.

(** [hay.includes(needle)] *)
Fixpoint includes (needle hay : string) : bool :=
  String.prefix needle hay ||
  match hay with
  | String _ hay' => includes needle hay'
  | EmptyString => false
  end.

(** [s.split(sep)] for a one-character separator. *)
Fixpoint split (sep : ascii) (s : string) : list string :=
  match s with
  | EmptyString => EmptyString :: nil
  | String c s' =>
      if Ascii.eqb c sep then EmptyString :: split sep s'
      else
        match split sep s' with
        | hd :: tl => String c hd :: tl
        | nil => String c EmptyString :: nil
        end
  end.

(** [Number::toString] in plain decimal notation (the notation JavaScript
    uses between 1e-6 and 1e21): the integer part, then the fraction digit
    by digit while a remainder is left.  Outside that range JavaScript
    writes an exponent, which is not modelled; the embedded code uses the
    result only inside the text of a prompt. *)
Fixpoint fraction_digits (fuel : nat) (r d : Z) : string :=
  match fuel with
  | O => EmptyString
  | S fuel' =>
      if (r =? 0)%Z then EmptyString
      else pretty ((10 * r) / d)%Z +:+ fraction_digits fuel' ((10 * r) mod d)%Z d
  end.

Definition Number_toString (n : number) : string :=
  match n with
  | NaN => "NaN"
  | Infinity false => "Infinity"
  | Infinity true => "-Infinity"
  | Fin q =>
      let a := Z.abs (Qnum q) in
      let d := Z.pos (Qden q) in
      let sign := if (Qnum q <? 0)%Z then "-" else "" in
      let frac := fraction_digits 20 (a mod d)%Z d in
      sign +:+ pretty (a / d)%Z +:+
      (if String.eqb frac "" then "" else "." +:+ frac)
  end.

(** *** Values *)

#[local] Set Warnings "-register-all".

Inductive Value :=
| VUndefined
| VNull
| VBool (b : bool)
| VNum (n : number)
| VStr (s : string)
| VArr (items : list Value)
| VObj (fields : list (string * Value)).

(** Truthiness: [undefined], [null], [false], [0], [NaN] and [""] are falsy. *)
Definition truthy (v : Value) : bool :=
  match v with
  | VUndefined | VNull => false
  | VBool b => b
  | VNum NaN => false
  | VNum (Infinity _) => true
  | VNum (Fin q) => negb (Qeq_bool q 0)
  | VStr s => negb (String.eqb s "")
  | VArr _ | VObj _ => true
  end.

(** The own property [k] of a parsed object. *)
Fixpoint own (k : string) (fields : list (string * Value)) : Value :=
  match fields with
  | nil => VUndefined
  | (k', v) :: rest => if String.eqb k k' then v else own k rest
  end.

Definition nullish (v : Value) : bool :=
  match v with VUndefined | VNull => true | _ => false end.

Definition describe_nullish (v : Value) : string :=
  match v with VNull => "null" | _ => "undefined" end.

(** [v.k] for the keys the code reads ([candidates], [content], [parts],
    [text], [error], [message]): no array, string, number or boolean has a
    property of one of these names.  Reading a property of [null] or
    [undefined] throws. *)
Definition get (v : Value) (k : string) : Result Value :=
  match v with
  | VUndefined | VNull =>
      Throw (TypeError ("Cannot read properties of " +:+ describe_nullish v +:+
                        " (reading '" +:+ k +:+ "')"))
  | VObj fields => Return (own k fields)
  | _ => Return VUndefined
  end.

(** [v?.k] *)
Definition get_opt (v : Value) (k : string) : Value :=
  match v with
  | VObj fields => own k fields
  | _ => VUndefined
  end.

(** [v?.[0]] *)
Definition first_opt (v : Value) : Value :=
  match v with
  | VArr items => List.hd VUndefined items
  | VStr (String c _) => VStr (String c EmptyString)
  | VObj fields => own "0" fields
  | _ => VUndefined
  end.

Definition join (sep : string) (l : list string) : string :=
  match l with
  | nil => ""
  | x :: rest => fold_left (fun acc y => acc +:+ sep +:+ y) rest x
  end.

(** [String(v)], as the [Error] constructor and template literals apply it. *)
Fixpoint ToString (v : Value) : string :=
  match v with
  | VUndefined => "undefined"
  | VNull => "null"
  | VBool true => "true"
  | VBool false => "false"
  | VNum n => Number_toString n
  | VStr s => s
  | VArr items =>
      join "," (List.map (fun x => if nullish x then "" else ToString x) items)
  | VObj _ => "[object Object]"
  end.

(** [JSON.stringify(v)] of a parsed body: strings are quoted and escaped,
    a number that is not finite prints as [null], an [undefined] field is
    left out and an [undefined] item prints as [null]. *)
Definition hex_digit (n : nat) : ascii :=
  ascii_of_nat (if (n <? 10)%nat then 48 + n else 87 + n).

Definition backslash : ascii := ascii_of_nat 92.
Definition dquote : ascii := ascii_of_nat 34.

Definition escaped (c : ascii) : string := String backslash (String c "").

Definition escape_char (c : ascii) : string :=
  let n := nat_of_ascii c in
  if (n =? 34)%nat then escaped dquote
  else if (n =? 92)%nat then escaped backslash
  else if (n =? 8)%nat then escaped "b"
  else if (n =? 9)%nat then escaped "t"
  else if (n =? 10)%nat then escaped "n"
  else if (n =? 12)%nat then escaped "f"
  else if (n =? 13)%nat then escaped "r"
  else if (n <? 32)%nat then
    escaped "u" +:+ "00" +:+
    String (hex_digit (n / 16)) (String (hex_digit (n mod 16)) "")
  else String c "".

Fixpoint escape (s : string) : string :=
  match s with
  | EmptyString => ""
  | String c s' => escape_char c +:+ escape s'
  end.

Definition quote (s : string) : string :=
  String dquote (escape s) +:+ String dquote "".

Fixpoint stringify (v : Value) : option string :=
  match v with
  | VUndefined => None
  | VNull => Some "null"
  | VBool true => Some "true"
  | VBool false => Some "false"
  | VNum (Fin q) => Some (Number_toString (Fin q))
  | VNum _ => Some "null"
  | VStr s => Some (quote s)
  | VArr items =>
      Some ("[" +:+ join "," (List.map (fun x => default "null" (stringify x)) items)
            +:+ "]")
  | VObj fields =>
      Some ("{" +:+
            join ","
              ((fix members (fs : list (string * Value)) : list string :=
                  match fs with
                  | nil => nil
                  | (k, x) :: rest =>
                      match stringify x with
                      | Some t => (quote k +:+ ":" +:+ t) :: members rest
                      | None => members rest
                      end
                  end) fields)
            +:+ "}")
  end.

(** [JSON.stringify(v)] inside a template literal. *)
Definition JSON_stringify (v : Value) : string := default "undefined" (stringify v).

(** *** Dates *)

(** The time value of a [Date]: milliseconds since the epoch, or [None] for
    an Invalid Date (whose time value is NaN). *)
Definition Date : Type := option Z.

(** [a - b] on two dates: a number, NaN when either date is invalid. *)
Definition Date_sub (a b : Date) : option Z :=
  match a, b with
  | Some x, Some y => Some (x - y)%Z
  | _, _ => None
  end.

(** *** Arrays *)

(** [Array.prototype.sort(comparefn)].  The sort is stable and a NaN from
    the comparator counts as [+0]; for a consistent comparator the result
    is the stable sorted order, which this insertion sort computes: an
    element moves past exactly the elements that compare strictly before
    it.  For a comparator that is not consistent (here: one that meets an
    invalid date, whose difference is NaN) ECMAScript leaves the order to
    the engine, and the order computed here need not be the engine's: the
    theorems below that speak of an order assume valid timestamps. *)
Definition negative (v : option Z) : bool :=
  match v with Some z => (z <? 0)%Z | None => false end.

Fixpoint insert {A} (comparefn : A -> A -> option Z) (x : A) (l : list A) : list A :=
  match l with
  | nil => x :: nil
  | y :: l' =>
      if negative (comparefn y x) then y :: insert comparefn x l'
      else x :: y :: l'
  end.

Definition sort {A} (comparefn : A -> A -> option Z) (l : list A) : list A :=
  fold_right (insert comparefn) nil l.

(** *** The regular expression [/data:(.*?);base64/] *)

Definition is_line_terminator (c : ascii) : bool :=
  let n := nat_of_ascii c in (n =? 10)%nat || (n =? 13)%nat.

Fixpoint skip (n : nat) (s : string) : string :=
  match n, s with
  | S n', String _ s' => skip n' s'
  | _, _ => s
  end.

(** [(.*?)stop] anchored at the head of [s]: the shortest run of characters
    other than line terminators that is followed by [stop]. *)
Fixpoint lazy_until (stop s : string) : option string :=
  if String.prefix stop s then Some ""
  else
    match s with
    | String c s' =>
        if is_line_terminator c then None
        else option_map (String c) (lazy_until stop s')
    | EmptyString => None
    end.

(** [s.match(/data:(.*?);base64/)]: the first capture group of the leftmost
    match, [None] when the expression does not match. *)
Fixpoint match_data_base64 (s : string) : option string :=
  match (if String.prefix "data:" s then lazy_until ";base64" (skip 5 s) else None) with
  | Some m => Some m
  | None =>
      match s with
      | String _ s' => match_data_base64 s'
      | EmptyString => None
      end
  end.

End JS.

(** ** The generation API as the wrappers see it *)

(** A content part of a request: [{ text }] or [{ inlineData: { mimeType, data } }];
    a [data] that is [undefined] is [None]. *)
Inductive Part :=
| TextPart (text : string)
| InlineData (mimeType : string) (data : option string).

(** The request body before [JSON.stringify]: the parts of [contents[0]],
    the text of [systemInstruction] ([None] for [undefined]) and whether
    [tools] holds the [google_search] entry. *)
Record Payload := mkPayload {
  parts : list Part;
  systemInstruction : option string;
  tools : bool
}.

(** What [response.json()] resolves to, or the message of the [SyntaxError]
    it rejects with. *)
Inductive Parsed :=
| ParseOk (v : JS.Value)
| ParseFail (msg : string).

Record Response := mkResponse {
  status : Z;
  body_text : string;   (* response.text() *)
  body_json : Parsed    (* response.json() *)
}.

(** [response.ok] *)
Definition ok (r : Response) : bool := (200 <=? status r)%Z && (status r <=? 299)%Z.

Definition response_json (r : Response) : Result JS.Value :=
  match body_json r with
  | ParseOk v => Return v
  | ParseFail msg => Throw (SyntaxError msg)
  end.

(** The outcome of one [fetch]: the promise rejects (transport failure) or
    resolves to a response. *)
Inductive FetchResult :=
| Rejected (e : Error)
| Responded (r : Response).

(** What an invocation does to the outside world, in order. *)
Inductive Event :=
| Fetch (url : string) (p : Payload)
| Sleep (ms : Q).

Definition is_Fetch (e : Event) : bool :=
  match e with Fetch _ _ => true | Sleep _ => false end.

(** Number of network calls in a trace. *)
Definition calls (t : list Event) : nat := List.length (List.filter is_Fetch t).

(** The delays slept in a trace, in order. *)
Fixpoint sleeps (t : list Event) : list Q :=
  match t with
  | nil => nil
  | Sleep ms :: t' => ms :: sleeps t'
  | Fetch _ _ :: t' => sleeps t'
  end.

Definition sumQ (l : list Q) : Q := fold_right Qplus 0%Q l.

Definition total_delay (t : list Event) : Q := sumQ (sleeps t).

Definition API_MODEL_TEXT : string := "gemini-2.5-flash-preview-09-2025".
Definition API_URL_TEXT : string :=
  "https://generativelanguage.googleapis.com/v1beta/models/" +:+ API_MODEL_TEXT +:+
  ":generateContent?key=".

(** [response.candidates?.[0]?.content?.parts?.[0]?.text] *)
Definition candidate_text (response : JS.Value) : Result JS.Value :=
  match JS.get response "candidates" with
  | Throw e => Throw e
  | Return candidates =>
      Return (JS.get_opt
                (JS.first_opt (JS.get_opt (JS.get_opt (JS.first_opt candidates) "content") "parts"))
                "text")
  end.

(** ** Records of the store *)

(** A document of the [weights] collection. *)
Record WeightDoc := mkWeightDoc {
  weight : JS.number;
  timestamp : string;   (* ISO timestamp, also the document id *)
  date : string         (* locale-formatted date *)
}.

(** A document as a snapshot delivers it: [doc.id] and [doc.data()]. *)
Record Doc (A : Type) := mkDoc { id : string; data : A }.
Arguments mkDoc {A} id data.
Arguments id {A} d.
Arguments data {A} d.

(** What a subscription delivers: a full snapshot, or an error. *)
Inductive FeedEvent (A : Type) :=
| Next (snapshot : list (Doc A))
| Failed (error : Error).
Arguments Next {A} snapshot.
Arguments Failed {A} error.

(** The clock at the time of a write: [new Date()] as an ISO string and as
    a locale date. *)
Record Clock := mkClock {
  toISOString : string;
  toLocaleDateString : string
}.

(** A file picked by the user: what [FileReader.readAsDataURL] produces for
    it, a data URL or a read error. *)
Record File := mkFile { readAsDataURL : Result string }.

(** [setDoc(doc(db, collection, id), data)]: the store accepts the write and
    holds the document under its path, or rejects it with an error. *)
Definition setDoc {A} (collection id : string) (value : A) (verdict : option Error)
    (store : gmap string A) : Result unit * gmap string A :=
  match verdict with
  | None => (Return tt, <[collection +:+ "/" +:+ id := value]> store)
  | Some e => (Throw e, store)
  end.

(** [!s] on a string that may be [null]. *)
Definition blank (s : option string) : bool :=
  match s with
  | None => true
  | Some t => String.eqb t ""
  end.

(** * HealthTrackerApp.jsx *)

Module HealthTrackerApp.

Section Environment.

(** The outcome of the k-th [fetch] of the invocation, the k-th value of
    [Math.random()] (in [0, 1)), [Date.parse], and the application id. *)
Variable net : nat -> FetchResult.
Variable random : nat -> Q.
Variable Date_parse : string -> JS.Date.
Variable appId : string.

(** [fileToBase64]: [reader.result.split(',')[1]], rejected on a read error. *)
Definition fileToBase64 (file : File) : Result (option string) :=
  match readAsDataURL file with
  | Return result => Return (List.nth_error (JS.split "," result) 1)
  | Throw error => Throw error
  end.

(** The [try] block of one iteration of [fetchWithRetry], from the outcome
    of its [fetch]: the response when it is ok (its [json()] promise is
    returned, not awaited, so the block is left before it settles),
    otherwise the error thrown. *)
Definition attempt (f : FetchResult) : Result Response :=
  match f with
  | Rejected e => Throw e
  | Responded response =>
      if negb (ok response) then
        if (status response =? 429)%Z || (status response >=? 500)%Z then
          Throw (new_Error ("Server or Rate Limit Error: " +:+ pretty (status response)))
        else
          match response_json response with
          | Throw e => Throw e
          | Return errorBody =>
              match JS.get errorBody "error" with
              | Throw e => Throw e
              | Return err =>
                  let m := JS.get_opt err "message" in
                  Throw (new_Error (if JS.truthy m then JS.ToString m
                                    else "HTTP Error: " +:+ pretty (status response)))
              end
          end
      else Return response
  end.

(** [Math.pow(2, i) * 1000 + Math.random() * 1000] *)
Definition backoffTime (i : nat) : Q :=
  (inject_Z (2 ^ Z.of_nat i) * 1000 + random i * 1000)%Q.

(** The [for] loop of [fetchWithRetry] from index [i], with [n] iterations
    left; iteration [i] issues call [i] and draws random value [i]. *)
Fixpoint fetchWithRetry_from (url : string) (options : Payload) (maxRetries : nat)
    (n i : nat) : Result JS.Value * list Event :=
  match n with
  | O => (Return JS.VUndefined, nil)
  | S n' =>
      match attempt (net i) with
      | Return response => (response_json response, Fetch url options :: nil)
      | Throw error =>
          if (i =? maxRetries - 1)%nat then (Throw error, Fetch url options :: nil)
          else
            let '(r, t) := fetchWithRetry_from url options maxRetries n' (S i) in
            (r, Fetch url options :: Sleep (backoffTime i) :: t)
      end
  end.

Definition fetchWithRetry (url : string) (options : Payload) (maxRetries : nat)
    : Result JS.Value * list Event :=
  fetchWithRetry_from url options maxRetries maxRetries 0.

(** The check shared by the two generation functions. *)
Definition text_or_throw (response : JS.Value) : Result JS.Value :=
  match candidate_text response with
  | Throw e => Throw e
  | Return text =>
      if negb (JS.truthy text) then
        Throw (new_Error "No se pudo obtener la respuesta de la IA.")
      else Return text
  end.

Definition generate (payload : Payload) : Result JS.Value * list Event :=
  let '(r, t) := fetchWithRetry API_URL_TEXT payload 3 in
  match r with
  | Throw e => (Throw e, t)
  | Return response => (text_or_throw response, t)
  end.

Definition generateContent (systemPrompt userQuery : string)
    : Result JS.Value * list Event :=
  generate {| parts := TextPart userQuery :: nil;
              systemInstruction := Some systemPrompt;
              tools := false |}.

Definition multimodal_payload (systemPrompt userQuery : string)
    (base64Image : option string) : Payload :=
  {| parts := TextPart userQuery :: InlineData "image/png" base64Image :: nil;
     systemInstruction := Some systemPrompt;
     tools := false |}.

Definition generateMultimodalContent (systemPrompt userQuery : string)
    (base64Image : option string) : Result JS.Value * list Event :=
  generate (multimodal_payload systemPrompt userQuery base64Image).

(** *** RecordWeight *)

Record RecordWeightState := mkRecordWeight {
  rw_weight : string;     (* the input field *)
  rw_loading : bool;
  rw_message : string
}.

Definition weights_collection (userId : string) : string :=
  "artifacts/" +:+ appId +:+ "/users/" +:+ userId +:+ "/weights".

(** [handleRecord], with the props [db] (is the handle set) and [userId],
    the clock, and the store's verdict on the write. *)
Definition handleRecord (db : bool) (userId : option string) (now : Clock)
    (verdict : option Error) (st : RecordWeightState) (store : gmap string WeightDoc)
    : RecordWeightState * gmap string WeightDoc :=
  if negb db || blank userId then
    (mkRecordWeight (rw_weight st) (rw_loading st)
       "Error: Autenticación no lista. Espera a que cargue el ID de usuario.", store)
  else
    let numericWeight := JS.parseFloat (rw_weight st) in
    if JS.isNaN numericWeight || JS.leb numericWeight JS.zero then
      (mkRecordWeight (rw_weight st) (rw_loading st) "Por favor, ingresa un peso válido.",
       store)
    else
      let timestamp := toISOString now in
      let weightData :=
        {| weight := numericWeight; timestamp := timestamp;
           date := toLocaleDateString now |} in
      match setDoc (weights_collection (default "" userId)) timestamp weightData
                   verdict store with
      | (Return _, store') =>
          (mkRecordWeight "" false "Peso registrado con éxito.", store')
      | (Throw error, store') =>
          (mkRecordWeight (rw_weight st) false
             ("Error al registrar: " +:+ message error), store')
      end.

(** *** WeightHistory *)

(** [new Date(a.timestamp) - new Date(b.timestamp)] *)
Definition ascending (a b : WeightDoc) : option Z :=
  JS.Date_sub (Date_parse (timestamp a)) (Date_parse (timestamp b)).

(** [new Date(b.timestamp) - new Date(a.timestamp)] *)
Definition descending (a b : WeightDoc) : option Z :=
  JS.Date_sub (Date_parse (timestamp b)) (Date_parse (timestamp a)).

Record WeightHistoryView := mkWeightHistory {
  sortedData : list WeightDoc;     (* the rows of the table *)
  initialWeight : JS.number;
  currentWeight : JS.number;
  difference : JS.number;
  progress_status : string
}.

(** [WeightHistory]: [None] is the "no records yet" paragraph. *)
Definition WeightHistory (weightData : list WeightDoc) : option WeightHistoryView :=
  match weightData with
  | nil => None
  | first :: _ =>
      let initialWeight := weight first in
      let currentWeight := weight (List.last weightData first) in
      let difference := JS.sub currentWeight initialWeight in
      Some {| sortedData := JS.sort descending weightData;
              initialWeight := initialWeight;
              currentWeight := currentWeight;
              difference := difference;
              progress_status :=
                if JS.gtb difference JS.zero then "Ganancia"
                else if JS.ltb difference JS.zero then "Pérdida"
                else "Sin cambios" |}
  end.

(** *** AiTools and SkinAnalysisTool *)

(** The state both tools write: [loading], [result] ([null] or the text)
    and [error] ([null] or a message). *)
Record ToolState := mkTool {
  loading : bool;
  result : JS.Value;
  error : option string
}.

(** The end of a handler that reached its [try]: the result or the error is
    set, and [finally] clears [loading]. *)
Definition settle (label : string) (r : Result JS.Value * list Event)
    : ToolState * list Event :=
  match r with
  | (Return response, t) => (mkTool false response None, t)
  | (Throw e, t) => (mkTool false JS.VNull (Some (label +:+ message e)), t)
  end.

Definition handleAnalyzeFood (foodImageFile : option File) (st : ToolState)
    : ToolState * list Event :=
  match foodImageFile with
  | None => (mkTool (loading st) (result st) (Some "Por favor, sube una foto de tu comida."), nil)
  | Some file =>
      settle "Error al analizar la comida: "
        match fileToBase64 file with
        | Throw e => (Throw e, nil)
        | Return base64Image =>
            generateMultimodalContent
              "Eres un nutricionista experto. Analiza la foto de la comida. Estima el tipo de plato, los ingredientes principales, y proporciona una estimación de calorías y un desglose macro. Responde en español y en formato Markdown."
              "Analiza esta comida para obtener información nutricional (calorías, macros)."
              base64Image
        end
  end.

Definition handleGetAdvice (weightData : list WeightDoc) (st : ToolState)
    : ToolState * list Event :=
  if (List.length weightData <? 2)%nat then
    (mkTool false JS.VNull
       (Some "Necesitas al menos dos registros de peso para generar un consejo de progreso significativo."),
     nil)
  else
    let dataSummary :=
      JS.join " | "
        (List.map (fun d => date d +:+ ": " +:+ JS.Number_toString (weight d)) weightData) in
    settle "Error al obtener consejos: "
      (generateContent
         "Eres un coach de salud y fitness. Analiza los datos de peso proporcionados y ofrece un mensaje de motivación o un consejo actionable (una acción específica) para el usuario. El tono debe ser positivo y alentador. Responde en español y en un párrafo corto."
         ("Historial de peso (Fecha: Peso): " +:+ dataSummary)).

Definition analyzeSkinImage (imageFile : option File) (notes : string) (st : ToolState)
    : ToolState * list Event :=
  match imageFile with
  | None => (mkTool (loading st) (result st) (Some "Por favor, sube una imagen de tu rostro."), nil)
  | Some file =>
      settle "Error al analizar la piel: "
        match fileToBase64 file with
        | Throw e => (Throw e, nil)
        | Return base64Image =>
            generateMultimodalContent
              "Eres un dermoconsejero experto. Analiza la imagen del rostro proporcionada por el usuario. Evalúa la textura, luminosidad y el tipo de rostro (ej. óvalo, cuadrado). Proporciona consejos específicos de cuidado de la piel y maquillaje que se adapten a las mejoras visibles o a las áreas de enfoque, y al tipo de rostro. Considera las notas del usuario si existen. Responde en español y en formato Markdown."
              ("Analiza esta imagen de mi rostro para mejoras en la piel y consejos de belleza. " +:+
               (if negb (String.eqb notes "") then "Notas adicionales: " +:+ notes +:+ "."
                else "No hay notas adicionales."))
              base64Image
        end
  end.

(** *** App: the weights listener *)

Record AppState := mkApp { weightData : list WeightDoc }.

(** The two callbacks given to [onSnapshot]. *)
Definition onSnapshot_next (snapshot : list (Doc WeightDoc)) (st : AppState) : AppState :=
  {| weightData := JS.sort ascending (List.map data snapshot) |}.

Definition onSnapshot_error (error : Error) (st : AppState) : AppState :=
  {| weightData := nil |}.

(** One delivery of the subscription. *)
Definition deliver (ev : FeedEvent WeightDoc) (st : AppState) : Result AppState :=
  match ev with
  | Next snapshot => Return (onSnapshot_next snapshot st)
  | Failed error => Return (onSnapshot_error error st)
  end.

(** *** AiTools: the two text tools *)

Definition handlePlanMeal (goal ingredients : string) (st : ToolState)
    : ToolState * list Event :=
  if String.eqb goal "" then
    (mkTool (loading st) (result st) (Some "Por favor, describe tu objetivo nutricional."),
     nil)
  else
    settle "Error al generar el plan: "
      (generateContent
         "Eres un nutricionista experto y motivador. Genera un plan de comidas (desayuno, almuerzo, cena) en formato Markdown para un día basado en el objetivo del usuario. Sé detallado con los ingredientes y las macros estimadas. Responde únicamente con el plan de comidas."
         ("Mi objetivo es: " +:+ goal +:+ "." +:+
          (if negb (String.eqb ingredients "")
           then " Además, prioriza el uso de estos ingredientes: " +:+ ingredients +:+ "."
           else ""))).

Definition handleAnalyzeSymptom (symptom : string) (st : ToolState)
    : ToolState * list Event :=
  if String.eqb symptom "" then
    (mkTool (loading st) (result st) (Some "Por favor, describe tu síntoma."), nil)
  else
    settle "Error al analizar el síntoma: "
      (generateContent
         "Eres un asistente de bienestar que ofrece sugerencias nutricionales basadas en síntomas reportados. Siempre incluye una advertencia de que NO eres un médico. Sugiere vitaminas, minerales o alimentos específicos que podrían ayudar con el síntoma reportado. Responde en español y en formato Markdown."
         ("Estoy experimentando: " +:+ symptom +:+
          ". ¿Qué nutrientes y alimentos podrían ayudar?")).

(** *** App: authentication and the subscription *)

(** A sign-in request sent to the authentication service. *)
Inductive SignIn :=
| WithCustomToken (token : string)
| Anonymously.

(** [authenticate]: the custom token when there is one, else an anonymous
    session; any failure falls back to one (more) anonymous sign-in.
    [withToken] is the verdict of the service on the token, [anonymous k] its
    verdict on the k-th anonymous request ([None] is success). *)
Definition authenticate (initialAuthToken : option string) (withToken : option Error)
    (anonymous : nat -> option Error) : Result unit * list SignIn :=
  let first :=
    if negb (blank initialAuthToken)
    then (withToken, WithCustomToken (default "" initialAuthToken), 0%nat)
    else (anonymous 0%nat, Anonymously, 1%nat) in
  match first with
  | (None, request, _) => (Return tt, request :: nil)
  | (Some _, request, used) =>
      match anonymous used with
      | None => (Return tt, request :: Anonymously :: nil)
      | Some e => (Throw e, request :: Anonymously :: nil)
      end
  end.

Record AuthState := mkAuth {
  userId : option string;
  isAuthReady : bool
}.

(** The callback given to [onAuthStateChanged]: [user] is the uid of the
    signed-in user or [None]; [randomUUID] is what [crypto.randomUUID()]
    returns. *)
Definition onAuthStateChanged_callback (user : option string) (randomUUID : string)
    (st : AuthState) : AuthState :=
  {| userId := Some (match user with
                     | Some uid => uid
                     | None => randomUUID
                     end);
     isAuthReady := true |}.

(** The first effect of [App], as far as the state goes: without an API key
    in the configuration, or when the Firebase set-up throws ([setup] is its
    error), the UI is released at once and nobody signs in; otherwise
    [authenticate] runs, and its rejection releases the UI too. *)
Definition initialize (apiKey : bool) (setup : option Error)
    (initialAuthToken : option string) (withToken : option Error)
    (anonymous : nat -> option Error) (st : AuthState) : AuthState * list SignIn :=
  if negb apiKey then (mkAuth (userId st) true, nil)
  else
    match setup with
    | Some _ => (mkAuth (userId st) true, nil)
    | None =>
        match authenticate initialAuthToken withToken anonymous with
        | (Return _, requests) => (st, requests)
        | (Throw _, requests) => (mkAuth (userId st) true, requests)
        end
    end.

(** The effect that sets the listener up: the collection it subscribes to,
    or [None] when it skips.  [auth] says whether the handle is set,
    [currentUser] whether [auth.currentUser] is. *)
Definition weights_subscription (db : bool) (st : AuthState) (auth currentUser : bool)
    : option string :=
  if negb db || blank (userId st) || negb (isAuthReady st) || negb auth || negb currentUser
  then None
  else Some (weights_collection (default "" (userId st))).

End Environment.

End HealthTrackerApp.

(** * unnamed/part_000 *)

Module Part000.

Section Environment.

Variable net : nat -> FetchResult.
Variable Date_parse : string -> JS.Date.
(** [new Date(timestamp).toLocaleDateString('es-ES')] *)
Variable localeDate : string -> string.
Variable appId : string.

(** The [try] block of one iteration of [fetchWithBackoff]. *)
Definition attempt (f : FetchResult) : Result Response :=
  match f with
  | Rejected e => Throw e
  | Responded response =>
      if negb (ok response) then
        match response_json response with
        | Throw e => Throw e
        | Return errorBody =>
            Throw (new_Error ("HTTP error! status: " +:+ pretty (status response) +:+
                              ". Details: " +:+ JS.JSON_stringify errorBody))
        end
      else Return response
  end.

(** [lastError.message]; [lastError] is [null] until an attempt has failed. *)
Definition lastError_message (lastError : option Error) : Result string :=
  match lastError with
  | Some e => Return (message e)
  | None => Throw (TypeError "Cannot read properties of null (reading 'message')")
  end.

(** The [for] loop of [fetchWithBackoff] from index [i] with [n] iterations
    left, and the [throw] that follows it. *)
Fixpoint fetchWithBackoff_from (url : string) (options : Payload) (n i : nat)
    (lastError : option Error) : Result Response * list Event :=
  match n with
  | O =>
      match lastError_message lastError with
      | Return m => (Throw (new_Error ("Failed after multiple retries: " +:+ m)), nil)
      | Throw e => (Throw e, nil)
      end
  | S n' =>
      match attempt (net i) with
      | Return response => (Return response, Fetch url options :: nil)
      | Throw error =>
          let '(r, t) := fetchWithBackoff_from url options n' (S i) (Some error) in
          (r, Fetch url options ::
              (if (i <? 2)%nat then Sleep (inject_Z (2 ^ Z.of_nat i) * 1000) :: nil else nil)
              ++ t)%list
      end
  end.

Definition fetchWithBackoff (url : string) (options : Payload)
    : Result Response * list Event :=
  fetchWithBackoff_from url options 3 0 None.

(** *** WeightTracker *)

Record WeightTrackerState := mkWeightTracker {
  currentWeight : string;   (* the input field *)
  saveMessage : string
}.

Definition weights_collection (userId : string) : string :=
  "artifacts/" +:+ appId +:+ "/users/" +:+ userId +:+ "/weights".

(** [handleSaveWeight]; the timer that clears the message three seconds
    after a successful save is not part of the handler's own run. *)
Definition handleSaveWeight (db : bool) (userId : option string) (now : Clock)
    (verdict : option Error) (st : WeightTrackerState) (store : gmap string WeightDoc)
    : WeightTrackerState * gmap string WeightDoc :=
  if negb db || blank userId || String.eqb (currentWeight st) "" then
    (mkWeightTracker (currentWeight st) "Error: Faltan datos de usuario o peso.", store)
  else
    let weightValue := JS.parseFloat (currentWeight st) in
    if JS.isNaN weightValue || JS.leb weightValue JS.zero then
      (mkWeightTracker (currentWeight st) "Por favor, ingresa un peso válido.", store)
    else
      let timestamp := toISOString now in
      match setDoc (weights_collection (default "" userId)) timestamp
                   {| weight := weightValue; timestamp := timestamp;
                      date := toLocaleDateString now |}
                   verdict store with
      | (Return _, store') => (mkWeightTracker "" "¡Peso guardado con éxito!", store')
      | (Throw error, store') =>
          (mkWeightTracker (currentWeight st) ("Error al guardar: " +:+ message error),
           store')
      end.

Record Progress := mkProgress {
  totalEntries : nat;
  initialWeight : JS.number;
  latestWeight : JS.number;
  change : JS.number
}.

(** The progress figures [WeightTracker] renders from [weightData]. *)
Definition WeightTracker (weightData : list (Doc WeightDoc)) : Progress :=
  let initialWeight :=
    match weightData with
    | first :: _ => weight (data first)
    | nil => JS.zero
    end in
  let latestWeight :=
    match List.last (List.map Some weightData) None with
    | Some entry => weight (data entry)
    | None => JS.zero
    end in
  {| totalEntries := List.length weightData;
     initialWeight := initialWeight;
     latestWeight := latestWeight;
     change := JS.sub latestWeight initialWeight |}.

(** *** generateAIResponse *)

(** The state the generation writes: [aiResponse] and [isLoading]. *)
Record AIState := mkAI {
  aiResponse : JS.Value;
  isLoading : bool
}.

Definition request_payload (currentPrompt : string) (imageBase64 : option string)
    (systemInstruction : string) (enableSearch : bool) : Payload :=
  {| parts :=
       TextPart currentPrompt ::
       (if negb (blank imageBase64) then InlineData "image/png" imageBase64 :: nil
        else nil);
     systemInstruction :=
       if negb (String.eqb systemInstruction "") then Some systemInstruction else None;
     tools := enableSearch |}.

(** The body of the [try]: the text to display, or the error caught. *)
Definition generation (payload : Payload) : Result JS.Value * list Event :=
  let '(r, t) := fetchWithBackoff API_URL_TEXT payload in
  match r with
  | Throw e => (Throw e, t)
  | Return response =>
      match response_json response with
      | Throw e => (Throw e, t)
      | Return result =>
          match candidate_text result with
          | Throw e => (Throw e, t)
          | Return text =>
              (Return (if JS.truthy text then text
                       else JS.VStr "Error: No se pudo obtener respuesta de la IA."), t)
          end
      end
  end.

Definition generateAIResponse (currentPrompt : string) (imageBase64 : option string)
    (systemInstruction : string) (enableSearch : bool) : AIState * list Event :=
  match generation (request_payload currentPrompt imageBase64 systemInstruction enableSearch) with
  | (Return text, t) => (mkAI text false, t)
  | (Throw error, t) =>
      (mkAI (JS.VStr ("Error al procesar la solicitud: " +:+ message error)) false, t)
  end.

(** *** AITools *)

Definition progressSummary (prompt : string) (weightData : list (Doc WeightDoc)) : string :=
  match weightData, List.last (List.map Some weightData) None with
  | first :: _, Some latest =>
      "El usuario tiene " +:+ pretty (List.length weightData) +:+
      " registros. Su peso inicial fue " +:+ JS.Number_toString (weight (data first)) +:+
      "kg (en " +:+ localeDate (timestamp (data first)) +:+
      ") y el último peso es " +:+ JS.Number_toString (weight (data latest)) +:+
      "kg (en " +:+ localeDate (timestamp (data latest)) +:+ ")."
  | _, _ => "No hay historial de peso disponible. La meta es: " +:+ prompt
  end.

(** [handleSubmit] of [AITools]: the [switch] over [currentTool]. *)
Definition handleSubmit (currentTool prompt : string) (base64Image : option string)
    (weightData : list (Doc WeightDoc)) (st : AIState) : AIState * list Event :=
  if String.eqb currentTool "mealPlan" then
    generateAIResponse
      ("Genera un plan de comidas de 7 días (desayuno, almuerzo, cena) para esta meta: " +:+
       prompt +:+ ".")
      None
      "Actúa como un dietista y planificador de comidas profesional. Genera un plan semanal conciso basado en la meta proporcionada. La respuesta debe ser solo texto Markdown, sin preámbulo."
      false
  else if String.eqb currentTool "photoAnalysis" then
    if blank base64Image then
      (mkAI (JS.VStr "Por favor, sube una imagen de tu plato para el análisis nutricional.")
            (isLoading st), nil)
    else
      generateAIResponse
        "Analiza esta comida y proporciona una estimación nutricional."
        base64Image
        "Actúa como un analista nutricional. Basándote en la imagen de la comida, haz una estimación de los ingredientes principales, calorías aproximadas y una breve nota sobre su balance nutricional. Responde con un formato de lista en Markdown."
        false
  else if String.eqb currentTool "symptomCheck" then
    generateAIResponse
      ("Analiza los siguientes síntomas: " +:+ prompt)
      None
      "Actúa como un asistente de salud informativa. Analiza los síntomas proporcionados y ofrece información general sobre posibles causas comunes y recomendaciones de estilo de vida. ADVERTENCIA: Nunca proporciones diagnósticos médicos. La respuesta debe ser cautelosa y en formato de lista en Markdown."
      true
  else if String.eqb currentTool "progressTips" then
    generateAIResponse
      ("Analiza este historial y proporciona consejos de progreso basados en la meta: " +:+
       prompt +:+ ". Historial: " +:+ progressSummary prompt weightData)
      None
      "Actúa como un entrenador personal y motivador. Analiza el historial de peso proporcionado y la meta del usuario para dar 3 consejos de progreso personalizados y un mensaje de motivación. La respuesta debe ser en formato de lista Markdown."
      false
  else (st, nil).

(** *** SkinJournal *)

Definition SkinJournal_handleSubmit (prompt : string) (base64Image : option string)
    (st : AIState) : AIState * list Event :=
  if blank base64Image then
    (mkAI (JS.VStr "Por favor, sube una foto de tu rostro para el análisis.") (isLoading st),
     nil)
  else
    generateAIResponse
      ("Analiza la imagen del rostro. El usuario proporciona la siguiente información adicional: " +:+
       (if negb (String.eqb prompt "") then prompt else "Ninguna") +:+
       ". Genera el análisis de la piel.")
      base64Image
      "Actúa como un experto en cuidado de la piel (skincare). Analiza la imagen del rostro proporcionada, identifica problemas comunes (como acné, enrojecimiento, sequedad o brillo) y ofrece una rutina básica de cuidado con sugerencias de ingredientes clave. La respuesta debe ser estructurada en Markdown (Análisis, Rutina Sugerida, Ingredientes Clave)."
      false.

(** *** App: the weights listener *)

(** A materialized entry is [{ id: doc.id, ...doc.data() }]. *)
Record AppState := mkApp { weightData : list (Doc WeightDoc) }.

Definition ascending (a b : Doc WeightDoc) : option Z :=
  JS.Date_sub (Date_parse (timestamp (data a))) (Date_parse (timestamp (data b))).

Definition onSnapshot_next (snapshot : list (Doc WeightDoc)) (st : AppState) : AppState :=
  {| weightData := JS.sort ascending snapshot |}.

(** The error callback only logs. *)
Definition onSnapshot_error (error : Error) (st : AppState) : AppState := st.

Definition deliver (ev : FeedEvent WeightDoc) (st : AppState) : Result AppState :=
  match ev with
  | Next snapshot => Return (onSnapshot_next snapshot st)
  | Failed error => Return (onSnapshot_error error st)
  end.

(** *** App: authentication and the subscription *)

Record AuthState := mkAuth {
  userId : option string;
  isAuthReady : bool
}.

(** The callback given to [onAuthStateChanged].  [withToken] and
    [anonymous] are what [signInWithCustomToken] and [signInAnonymously]
    resolve to (the uid of the credential) or reject with.  The second
    component is the error the callback lets escape, if any. *)
Definition onAuthStateChanged_callback (user : option string)
    (initialAuthToken : option string) (withToken anonymous : Result string)
    (st : AuthState) : AuthState * option Error :=
  match user with
  | Some uid => (mkAuth (Some uid) true, None)
  | None =>
      if negb (blank initialAuthToken) then
        match withToken with
        | Return uid => (mkAuth (Some uid) true, None)
        | Throw _ =>
            match anonymous with
            | Return _ => (mkAuth (userId st) true, None)
            | Throw e => (mkAuth (userId st) true, Some e)
            end
        end
      else
        match anonymous with
        | Return uid => (mkAuth (Some uid) true, None)
        | Throw _ => (mkAuth (Some "anonymous-error") true, None)
        end
  end.

(** The effect that sets the listener up: the collection it subscribes to,
    or [None] when it returns early.  [currentUser] says whether
    [authInstance?.currentUser] is set. *)
Definition weights_subscription (dbInstance : bool) (st : AuthState) (currentUser : bool)
    : option string :=
  if negb dbInstance || blank (userId st) || negb (isAuthReady st) || negb currentUser
  then None
  else Some (weights_collection (default "" (userId st))).

End Environment.

End Part000.

(** * index.jsx *)

Module IndexJsx.

Section Environment.

Variable net : nat -> FetchResult.
Variable Date_parse : string -> JS.Date.

(** [fetchWithBackoff(url, options, retries, delay)], where [k] calls have
    been issued so far.  Both recursive calls are returned without [await],
    so a rejection of theirs does not come back to this frame's [catch]. *)
Fixpoint fetchWithBackoff_from (url : string) (options : Payload) (retries : nat)
    (delay : Q) (k : nat) : Result Response * list Event :=
  let retry :=
    match retries with
    | O => None
    | S retries' =>
        Some (let '(r, t) := fetchWithBackoff_from url options retries' (delay * 2)%Q (S k) in
              (r, Fetch url options :: Sleep delay :: t))
    end in
  let catch (error : Error) :=
    match retry with
    | Some again =>
        if JS.includes "API call failed: 5" (message error) then again
        else (Throw error, Fetch url options :: nil)
    | None => (Throw error, Fetch url options :: nil)
    end in
  match net k with
  | Rejected e => catch e
  | Responded response =>
      match (status response =? 429)%Z, retry with
      | true, Some again => again
      | _, _ =>
          if negb (ok response) then
            catch (new_Error ("API call failed: " +:+ pretty (status response) +:+
                              " - " +:+ body_text response))
          else (Return response, Fetch url options :: nil)
      end
  end.

Definition fetchWithBackoff (url : string) (options : Payload)
    : Result Response * list Event :=
  fetchWithBackoff_from url options 3 1000 0.

(** *** useGeminiGenerator *)

(** The state of a view: the two fields of the generator hook, the inline
    message, and the materialized history. *)
Record HistoryItem := mkItem {
  item_id : string;
  item_text : string;        (* description or notes *)
  item_analysis : string;
  item_timestamp : JS.Date;
  item_hasImage : bool
}.

Record ViewState := mkView {
  aiResponse : JS.Value;
  isLoading : bool;
  message : string;
  messageType : string;
  history : list HistoryItem
}.

(** The parts of the request: the prompt, and the image when there is one,
    its type read off the data-URL prefix. *)
Definition request_parts (prompt : string) (base64Image : option string) : list Part :=
  TextPart prompt ::
  (if negb (blank base64Image) then
     let pieces := JS.split "," (default "" base64Image) in
     let mimeTypePrefix := List.hd "" pieces in
     let base64Data := List.nth_error pieces 1 in
     let mimeType :=
       match JS.match_data_base64 mimeTypePrefix with
       | Some m => m
       | None => "image/jpeg"
       end in
     InlineData mimeType base64Data :: nil
   else nil).

Definition request_payload (prompt : string) (base64Image : option string)
    (systemInstruction : string) (enableSearch : bool) : Payload :=
  {| parts := request_parts prompt base64Image;
     systemInstruction :=
       if negb (String.eqb systemInstruction "") then Some systemInstruction else None;
     tools := enableSearch |}.

(** The body of the [try] of [runGeneration]. *)
Definition generation (payload : Payload) : Result JS.Value * list Event :=
  let '(r, t) := fetchWithBackoff API_URL_TEXT payload in
  match r with
  | Throw e => (Throw e, t)
  | Return response =>
      match response_json response with
      | Throw e => (Throw e, t)
      | Return result =>
          match candidate_text result with
          | Throw e => (Throw e, t)
          | Return text =>
              (Return (if JS.truthy text then text
                       else JS.VStr "Error: No se pudo obtener respuesta de la IA."), t)
          end
      end
  end.

Definition runGeneration (prompt : string) (base64Image : option string)
    (systemInstruction : string) (enableSearch : bool) (st : ViewState)
    : ViewState * list Event :=
  if String.eqb prompt "" then (st, nil)
  else
    match generation (request_payload prompt base64Image systemInstruction enableSearch) with
    | (Return text, t) =>
        (mkView text false (message st) (messageType st) (history st), t)
    | (Throw error, t) =>
        (mkView (JS.VStr ("Error al procesar la solicitud: " +:+ message_of error)) false
                (message st) (messageType st) (history st), t)
    end.

Definition set_message (type msg : string) (st : ViewState) : ViewState :=
  mkView (aiResponse st) (isLoading st) msg type (history st).

(** *** HomeTracker *)

Definition analyzeMeal (mealDescription : string) (base64Image : option string)
    (st : ViewState) : ViewState * list Event :=
  if String.eqb mealDescription "" && blank base64Image then
    (set_message "error"
       "Por favor, describe tu comida o sube una imagen antes de analizar." st, nil)
  else
    let prompt :=
      if negb (String.eqb mealDescription "") then mealDescription
      else "Analiza los alimentos en esta imagen y proporciona un resumen nutricional, incluyendo macronutrientes, calorías estimadas y sugerencias de mejora dietética." in
    let '(st', t) :=
      runGeneration prompt base64Image
        "Eres un nutricionista IA experto. Tu tarea es analizar la descripción de la comida o la imagen provista por el usuario. Responde de forma amigable y concisa, utilizando viñetas (formato Markdown) para el desglose de nutrientes y calorías. Proporciona siempre sugerencias de mejora o un comentario positivo."
        false (set_message "info" "Generando análisis nutricional. Esto puede tardar unos segundos..." st) in
    (set_message "info" "" st', t).

(** A document of the [nutrition_history] collection; [timestamp] is
    [None] when the field is missing. *)
Record NutritionDoc := mkNutrition {
  description : string;
  analysis : string;
  nd_timestamp : option string;
  hasImage : bool
}.

(** [{ id, ...doc.data(), timestamp: ts ? new Date(ts) : new Date() }] *)
Definition materialize (now : Z) (doc : Doc NutritionDoc) : HistoryItem :=
  {| item_id := id doc;
     item_text := description (data doc);
     item_analysis := analysis (data doc);
     item_timestamp :=
       if negb (blank (nd_timestamp (data doc)))
       then Date_parse (default "" (nd_timestamp (data doc)))
       else Some now;
     item_hasImage := hasImage (data doc) |}.

(** [b.timestamp - a.timestamp] *)
Definition descending (a b : HistoryItem) : option Z :=
  JS.Date_sub (item_timestamp b) (item_timestamp a).

(** The two callbacks given to [onSnapshot]; [now] is the clock at the
    time of the delivery. *)
Definition onSnapshot_next (now : Z) (snapshot : list (Doc NutritionDoc)) (st : ViewState)
    : ViewState :=
  mkView (aiResponse st) (isLoading st) (message st) (messageType st)
         (JS.sort descending (List.map (materialize now) snapshot)).

Definition onSnapshot_error (error : Error) (st : ViewState) : ViewState :=
  set_message "error" ("Error al cargar historial: " +:+ message_of error) st.

Definition deliver (now : Z) (ev : FeedEvent NutritionDoc) (st : ViewState)
    : Result ViewState :=
  match ev with
  | Next snapshot => Return (onSnapshot_next now snapshot st)
  | Failed error => Return (onSnapshot_error error st)
  end.

(** *** SkinJournal *)

Definition analyzeSkin (notes : string) (base64Image : option string) (st : ViewState)
    : ViewState * list Event :=
  if blank base64Image then
    (set_message "error" "Por favor, sube una imagen de tu piel para analizar." st, nil)
  else
    let prompt :=
      "Analiza la condición de la piel en esta imagen. Evalúa el nivel de hidratación, presencia de acné, enrojecimiento, o cualquier otra condición notable. " +:+
      (if negb (String.eqb notes "") then "Nota adicional del usuario: " +:+ notes else "") +:+
      ". Proporciona un breve resumen de la condición actual y una sugerencia de rutina de cuidado o ingrediente clave a considerar." in
    let st1 :=
      set_message "info"
        "Analizando la condición de la piel. Esto puede tardar unos segundos..." st in
    let '(st', t) :=
      runGeneration prompt base64Image
        "Eres un dermatólogo IA experto. Tu tarea es analizar la imagen de la piel provista por el usuario. Responde de forma profesional, concisa y utiliza viñetas (formato Markdown) para el desglose de hallazgos. Nunca diagnostiques o reemplaces a un médico; siempre incluye una advertencia al final de que solo son sugerencias cosméticas/rutinas."
        false
        (mkView JS.VNull (isLoading st1) (message st1) (messageType st1) (history st1)) in
    (set_message "info" "" st', t).

(** A document of the [skin_journal] collection; [sd_timestamp] is [None]
    when the field is missing. *)
Record SkinDoc := mkSkin {
  notes : string;
  sd_analysis : string;
  sd_timestamp : option string;
  sd_hasImage : bool
}.

Definition materialize_skin (now : Z) (doc : Doc SkinDoc) : HistoryItem :=
  {| item_id := id doc;
     item_text := notes (data doc);
     item_analysis := sd_analysis (data doc);
     item_timestamp :=
       if negb (blank (sd_timestamp (data doc)))
       then Date_parse (default "" (sd_timestamp (data doc)))
       else Some now;
     item_hasImage := sd_hasImage (data doc) |}.

(** The snapshot callback of the [SkinJournal] listener. *)
Definition SkinJournal_onSnapshot_next (now : Z) (snapshot : list (Doc SkinDoc))
    (st : ViewState) : ViewState :=
  mkView (aiResponse st) (isLoading st) (message st) (messageType st)
         (JS.sort descending (List.map (materialize_skin now) snapshot)).

(** *** Saving a record *)

Variable appId : string.

(** What [saveRecord] and [saveSkinRecord] write. *)
Record SavedRecord := mkSaved {
  saved_text : string;         (* description, or notes *)
  saved_analysis : JS.Value;
  saved_timestamp : string;
  saved_hasImage : bool
}.

(** The form of a view: the text field and the image read as a data URL. *)
Record Form := mkForm {
  form_text : string;
  image : option File;
  base64Image : option string
}.

(** The part of a view a save touches. *)
Record SaveState := mkSave {
  form : Form;
  view : ViewState;
  isSaving : bool
}.

Definition clear_form (st : SaveState) (type msg : string) : SaveState :=
  {| form := mkForm "" None None;
     view := mkView JS.VNull (isLoading (view st)) msg type (history (view st));
     isSaving := false |}.

Definition report (st : SaveState) (type msg : string) (saving : bool) : SaveState :=
  {| form := form st; view := set_message type msg (view st); isSaving := saving |}.

(** [aiResponse || "Análisis pendiente"] *)
Definition analysis_to_save (aiResponse : JS.Value) : JS.Value :=
  if JS.truthy aiResponse then aiResponse else JS.VStr "Análisis pendiente".

(** [saveRecord]; [newId] is the identifier [doc(collection)] generates.
    The timer that clears the message five seconds later is not part of the
    handler's own run. *)
Definition saveRecord (db : bool) (userId : option string) (now : Clock) (newId : string)
    (verdict : option Error) (st : SaveState) (store : gmap string SavedRecord)
    : SaveState * gmap string SavedRecord :=
  if negb db || blank userId then (st, store)
  else if String.eqb (form_text (form st)) "" && blank (base64Image (form st)) then
    (report st "error" "Necesitas una descripción o una imagen para guardar el registro."
       (isSaving st), store)
  else
    let dataToSave :=
      {| saved_text := form_text (form st);
         saved_analysis := analysis_to_save (aiResponse (view st));
         saved_timestamp := toISOString now;
         saved_hasImage := negb (blank (base64Image (form st))) |} in
    match setDoc ("artifacts/" +:+ appId +:+ "/users/" +:+ default "" userId +:+
                  "/nutrition_history") newId dataToSave verdict store with
    | (Return _, store') =>
        (clear_form st "success" "¡Registro guardado exitosamente!", store')
    | (Throw error, store') =>
        (report st "error" ("Error al guardar: " +:+ message_of error) false, store')
    end.

(** [saveSkinRecord] *)
Definition saveSkinRecord (db : bool) (userId : option string) (now : Clock) (newId : string)
    (verdict : option Error) (st : SaveState) (store : gmap string SavedRecord)
    : SaveState * gmap string SavedRecord :=
  if negb db || blank userId then (st, store)
  else if blank (base64Image (form st)) then
    (report st "error" "Necesitas una imagen para guardar el registro de la piel."
       (isSaving st), store)
  else
    let dataToSave :=
      {| saved_text := form_text (form st);
         saved_analysis := analysis_to_save (aiResponse (view st));
         saved_timestamp := toISOString now;
         saved_hasImage := true |} in
    match setDoc ("artifacts/" +:+ appId +:+ "/users/" +:+ default "" userId +:+
                  "/skin_journal") newId dataToSave verdict store with
    | (Return _, store') =>
        (clear_form st "success" "¡Registro de piel guardado exitosamente!", store')
    | (Throw error, store') =>
        (report st "error" ("Error al guardar: " +:+ message_of error) false, store')
    end.

(** *** useFirebase *)

Record AuthState := mkAuth {
  userId : option string;
  isAuthReady : bool
}.

(** [firebaseAuth.currentUser?.uid || crypto.randomUUID()] *)
Definition uid_or_random (currentUser : option string) (randomUUID : string) : string :=
  if negb (blank currentUser) then default "" currentUser else randomUUID.

(** The callback given to [onAuthStateChanged].  [withToken] and
    [anonymous] are the verdicts of the two sign-ins ([None] is success),
    [currentUser] is the uid of [firebaseAuth.currentUser] after a sign-in.
    The second component is the error the callback lets escape, if any. *)
Definition onAuthStateChanged_callback (user : option string)
    (initialAuthToken : option string) (withToken anonymous : option Error)
    (currentUser : option string) (randomUUID : string) (st : AuthState)
    : AuthState * option Error :=
  match user with
  | Some uid => (mkAuth (Some uid) true, None)
  | None =>
      if negb (blank initialAuthToken) then
        match withToken with
        | None => (st, None)
        | Some _ =>
            match anonymous with
            | None => (mkAuth (Some (uid_or_random currentUser randomUUID)) true, None)
            | Some e => (st, Some e)
            end
        end
      else
        match anonymous with
        | None => (mkAuth (Some (uid_or_random currentUser randomUUID)) true, None)
        | Some _ => (mkAuth (Some randomUUID) true, None)
        end
  end.

(** The effect of [useFirebase], as far as the authentication state goes:
    when the Firebase set-up throws ([setup] is its error) the [catch] sets
    [isAuthReady] and nothing else; otherwise the callback above is
    registered and the state waits for it. *)
Definition initialize (setup : option Error) (st : AuthState) : AuthState :=
  match setup with
  | Some _ => mkAuth (userId st) true
  | None => st
  end.

(** The effect that sets a history listener up: the collection it
    subscribes to, or [None] when it returns early. *)
Definition subscription (collectionName : string) (db : bool) (st : AuthState)
    : option string :=
  if negb db || negb (isAuthReady st) || blank (userId st) then None
  else Some ("artifacts/" +:+ appId +:+ "/users/" +:+ default "" (userId st) +:+ "/" +:+
             collectionName).

End Environment.

End IndexJsx.

(** * A concrete platform, for running the functions *)

Module Platform.

(** Exactly [n] decimal digits at the head of [s]. *)
Fixpoint digits (n : nat) (acc : Z) (s : string) : option (Z * string) :=
  match n with
  | O => Some (acc, s)
  | S n' =>
      match s with
      | String c s' =>
          if JS.is_digit c then digits n' (10 * acc + JS.digit_value c)%Z s' else None
      | EmptyString => None
      end
  end.

Definition expect (c : ascii) (s : string) : option string :=
  match s with
  | String c' s' => if Ascii.eqb c c' then Some s' else None
  | EmptyString => None
  end.

(** Days from 1970-01-01 to the civil date [y]-[m]-[d]. *)
Definition days_from_civil (y m d : Z) : Z :=
  let y' := if (m <=? 2)%Z then (y - 1)%Z else y in
  let era := (y' / 400)%Z in
  let yoe := (y' - era * 400)%Z in
  let doy := ((153 * (if (m >? 2)%Z then m - 3 else m + 9) + 2) / 5 + d - 1)%Z in
  let doe := (yoe * 365 + yoe / 4 - yoe / 100 + doy)%Z in
  (era * 146097 + doe - 719468)%Z.

(** [Date.parse] on the format [toISOString] writes,
    [YYYY-MM-DDTHH:mm:ss.sssZ]; any other string is an Invalid Date. *)
Definition Date_parse (s : string) : JS.Date :=
  '(y, s) ← digits 4 0 s; s ← expect "-" s;
  '(mo, s) ← digits 2 0 s; s ← expect "-" s;
  '(d, s) ← digits 2 0 s; s ← expect "T" s;
  '(h, s) ← digits 2 0 s; s ← expect ":" s;
  '(mi, s) ← digits 2 0 s; s ← expect ":" s;
  '(sec, s) ← digits 2 0 s; s ← expect "." s;
  '(ms, s) ← digits 3 0 s; s ← expect "Z" s;
  if String.eqb s "" && (1 <=? mo)%Z && (mo <=? 12)%Z && (1 <=? d)%Z && (d <=? 31)%Z
     && (h <? 24)%Z && (mi <? 60)%Z && (sec <? 60)%Z
  then Some ((((days_from_civil y mo d * 24 + h) * 60 + mi) * 60 + sec) * 1000 + ms)%Z
  else None.

(** A locale rendering of a timestamp: its date part. *)
Definition localeDate (s : string) : string := String.substring 0 10 s.

(** A network that answers every call with the same result. *)
Definition always (f : FetchResult) : nat -> FetchResult := fun _ => f.

(** A response with the given status whose body is the JSON value [v]. *)
Definition json_response (st : Z) (v : JS.Value) : Response :=
  {| status := st; body_text := JS.JSON_stringify v; body_json := ParseOk v |}.

End Platform.

(** * Vocabulary of the properties *)

(** A run that stopped at its first call: one call, no delay, a failure. *)
Definition fails_immediately {A} (run : Result A * list Event) : Prop :=
  calls (snd run) = 1%nat /\ sleeps (snd run) = nil /\ is_Throw (fst run) = true.

(** The status classes of the specification: transient is 429 or 5xx;
    a permanent failure is any other three-digit status outside 2xx. *)
Definition transient_status (st : Z) : bool :=
  (st =? 429)%Z || ((500 <=? st)%Z && (st <=? 599)%Z).

Definition permanent_status (st : Z) : bool :=
  (100 <=? st)%Z && (st <? 500)%Z && negb ((200 <=? st)%Z && (st <=? 299)%Z)
  && negb (st =? 429)%Z.

(** A transient failure of one call: the transport fails, or the response
    has a transient status. *)
Definition transient_failure (f : FetchResult) : bool :=
  match f with
  | Rejected _ => true
  | Responded r => transient_status (status r)
  end.

(** The delays [delay], [2 * delay], [4 * delay], ... of [n] retries. *)
Fixpoint doubling (delay : Q) (n : nat) : list Q :=
  match n with
  | O => nil
  | S n' => delay :: doubling (delay * 2)%Q n'
  end.

(** The marker [index.jsx] looks for in an error message. *)
Definition marker_5xx : string := "API call failed: 5".

(** The first character of [s] is not [c]. *)
Definition head_is_not (c : ascii) (s : string) : bool :=
  match s with
  | String c' _ => negb (Ascii.eqb c c')
  | EmptyString => true
  end.

(** [c] does not occur in [s]. *)
Fixpoint free_of (c : ascii) (s : string) : bool :=
  match s with
  | String c' s' => negb (Ascii.eqb c c') && free_of c s'
  | EmptyString => true
  end.

(** [s] holds no line terminator. *)
Fixpoint single_line (s : string) : bool :=
  match s with
  | String c s' => negb (JS.is_line_terminator c) && single_line s'
  | EmptyString => true
  end.

(** Every call of the trace sends [payload]. *)
Definition sends_only (payload : Payload) (t : list Event) : Prop :=
  forall url p, In (Fetch url p) t -> p = payload.

(** The total delay is within one second per attempt of [1000 * (2^N - 1)]. *)
Definition within_jitter_tolerance (N : nat) (total : Q) : Prop :=
  (Qabs (total - 1000 * (inject_Z (2 ^ Z.of_nat N) - 1)) <= 1000 * inject_Z (Z.of_nat N))%Q.

(** The comparator that orders by an integer key. *)
Definition by_key {A} (key : A -> Z) (a b : A) : option Z := Some (key a - key b)%Z.

(** [output] is [input] in the stable sorted order of [key]: the same
    records, in ascending key order, records of equal key in the order they
    have in [input]. *)
Definition sorted_stably_by {A} (key : A -> Z) (input output : list A) : Prop :=
  Permutation input output /\
  StronglySorted (fun a b => (key a <= key b)%Z) output /\
  forall k, List.filter (fun a => (key a =? k)%Z) output
            = List.filter (fun a => (key a =? k)%Z) input.

(** The time value of a timestamp ([0] stands in for an invalid one). *)
Definition time_of (Date_parse : string -> JS.Date) (ts : string) : Z :=
  default 0%Z (Date_parse ts).

Definition item_time (i : IndexJsx.HistoryItem) : Z :=
  default 0%Z (IndexJsx.item_timestamp i).

(** A document of [nutrition_history] whose timestamp is present and valid. *)
Definition timestamped (Date_parse : string -> JS.Date) (d : IndexJsx.NutritionDoc) : Prop :=
  exists ts, IndexJsx.nd_timestamp d = Some ts /\ ts <> "" /\ is_Some (Date_parse ts).


(** The trace [t] of an invocation begins with a call to the generation
    endpoint that carries [payload], and every call of [t] carries it. *)
Definition requests (payload : Payload) (t : list Event) : Prop :=
  List.head t = Some (Fetch API_URL_TEXT payload) /\ sends_only payload t.

(** Every call of the trace goes to the generation endpoint. *)
Definition calls_only (url : string) (t : list Event) : Prop :=
  forall u p, In (Fetch u p) t -> u = url.

(** A document of [skin_journal] whose timestamp is present and valid. *)
Definition skin_timestamped (Date_parse : string -> JS.Date) (d : IndexJsx.SkinDoc) : Prop :=
  exists ts, IndexJsx.sd_timestamp d = Some ts /\ ts <> "" /\ is_Some (Date_parse ts).

(** [first] and [last] are records of [l] of least and of greatest key. *)
Definition spans {A} (key : A -> Z) (l : list A) (first last : A) : Prop :=
  In first l /\ In last l /\ forall d, In d l -> (key first <= key d <= key last)%Z.

(** What every record written by a save of index.jsx at time [now]
    satisfies: it has a text or an image, an analysis that is not empty, and
    the timestamp of the clock. *)
Definition well_formed_record (now : Clock) (r : IndexJsx.SavedRecord) : Prop :=
  (IndexJsx.saved_text r <> "" \/ IndexJsx.saved_hasImage r = true) /\
  JS.truthy (IndexJsx.saved_analysis r) = true /\
  IndexJsx.saved_timestamp r = toISOString now.

(** The form (text and image) and the analysis of a view are as the user
    left them. *)
Definition input_kept (before after : IndexJsx.SaveState) : Prop :=
  IndexJsx.form after = IndexJsx.form before /\
  IndexJsx.aiResponse (IndexJsx.view after) = IndexJsx.aiResponse (IndexJsx.view before).

(** The form and the analysis of a view are empty again. *)
Definition input_cleared (after : IndexJsx.SaveState) : Prop :=
  IndexJsx.form after = IndexJsx.mkForm "" None None /\
  IndexJsx.aiResponse (IndexJsx.view after) = JS.VNull /\
  IndexJsx.messageType (IndexJsx.view after) = "success" /\
  IndexJsx.isSaving after = false.


(** Reading the generated text off a response: [json()], then the path
    [candidates[0].content.parts[0].text]. *)
Definition response_text (r : Response) : Result JS.Value :=
  match response_json r with
  | Return v => candidate_text v
  | Throw e => Throw e
  end.

(** * Strings: facts about [includes] *)

Lemma prefix_cons (c a : ascii) (needle hay : string) :
  String.prefix (String c needle) (String a hay)
  = Ascii.eqb c a && String.prefix needle hay.
Proof.
  cbn [String.prefix]. destruct (Ascii.ascii_dec c a) as [->|Hne].
  - rewrite Ascii.eqb_refl. reflexivity.
  - apply Ascii.eqb_neq in Hne. rewrite Hne. reflexivity.
Qed.

Lemma prefix_head_differs (c a : ascii) (needle hay : string) :
  Ascii.eqb c a = false -> String.prefix (String c needle) (String a hay) = false.
Proof. intros H. rewrite prefix_cons, H. reflexivity. Qed.

(** A needle cannot start inside a string that is free of its first
    character. *)
Lemma includes_skip (c : ascii) (needle s1 s2 : string) :
  free_of c s1 = true ->
  JS.includes (String c needle) (s1 +:+ s2) = JS.includes (String c needle) s2.
Proof.
  induction s1 as [|a s1 IH]; intros Hfree; [reflexivity|].
  simpl in Hfree. apply andb_prop in Hfree as [Ha Hrest].
  apply negb_true_iff in Ha.
  change (String a s1 +:+ s2) with (String a (s1 +:+ s2)).
  cbn [JS.includes]. rewrite (prefix_head_differs c a needle _ Ha).
  simpl. apply IH, Hrest.
Qed.

Lemma prefix_app (s hay : string) : String.prefix s (s +:+ hay) = true.
Proof.
  induction s as [|a s IH]; [destruct hay; reflexivity|].
  change (String a s +:+ hay) with (String a (s +:+ hay)).
  rewrite prefix_cons, Ascii.eqb_refl. exact IH.
Qed.

Lemma prefix_app_cancel (s needle hay : string) :
  String.prefix (s +:+ needle) (s +:+ hay) = String.prefix needle hay.
Proof.
  induction s as [|a s IH]; [reflexivity|].
  change (String a s +:+ needle) with (String a (s +:+ needle)).
  change (String a s +:+ hay) with (String a (s +:+ hay)).
  rewrite prefix_cons, Ascii.eqb_refl. exact IH.
Qed.

(** The decimal rendering of a status between 100 and 499 does not start
    with 5 and holds no letter A; between 500 and 599 it starts with 5. *)
Lemma status_rendering_below_500 (st : Z) :
  (100 <= st < 500)%Z ->
  head_is_not "5" (pretty st) = true /\ free_of "A" (pretty st) = true.
Proof.
  intros Hst.
  assert (Hall : forallb (fun n => head_is_not "5" (pretty (100 + Z.of_nat n)%Z)
                                   && free_of "A" (pretty (100 + Z.of_nat n)%Z))
                         (seq 0 400) = true) by (vm_compute; reflexivity).
  rewrite forallb_forall in Hall.
  specialize (Hall (Z.to_nat (st - 100))).
  replace (100 + Z.of_nat (Z.to_nat (st - 100)))%Z with st in Hall by lia.
  apply andb_prop, Hall, in_seq. lia.
Qed.

Lemma status_rendering_5xx (st : Z) :
  (500 <= st <= 599)%Z -> String.prefix "5" (pretty st) = true.
Proof.
  intros Hst.
  assert (Hall : forallb (fun n => String.prefix "5" (pretty (500 + Z.of_nat n)%Z))
                         (seq 0 100) = true) by (vm_compute; reflexivity).
  rewrite forallb_forall in Hall.
  specialize (Hall (Z.to_nat (st - 500))).
  replace (500 + Z.of_nat (Z.to_nat (st - 500)))%Z with st in Hall by lia.
  apply Hall, in_seq. lia.
Qed.

(** The message [index.jsx] builds for a status below 500 carries the 5xx
    marker only if the body does. *)
Lemma message_marker_below_500 (st : Z) (body : string) :
  (100 <= st < 500)%Z ->
  JS.includes marker_5xx ("API call failed: " +:+ pretty st +:+ " - " +:+ body)
  = JS.includes marker_5xx body.
Proof.
  intros Hst. destruct (status_rendering_below_500 st Hst) as [Hhead Hfree].
  unfold marker_5xx.
  change ("API call failed: " +:+ pretty st +:+ " - " +:+ body)
    with (String "A" ("PI call failed: " +:+ (pretty st +:+ (" - " +:+ body)))).
  cbn [JS.includes].
  change (String "A" ("PI call failed: " +:+ (pretty st +:+ (" - " +:+ body))))
    with ("API call failed: " +:+ (pretty st +:+ (" - " +:+ body))).
  change "API call failed: 5" with ("API call failed: " +:+ "5").
  rewrite prefix_app_cancel.
  assert (Hp : String.prefix "5" (pretty st +:+ (" - " +:+ body)) = false).
  { destruct (pretty st) as [|a s]; [reflexivity|].
    simpl in Hhead. apply negb_true_iff in Hhead.
    apply (prefix_head_differs "5" a "" _ Hhead). }
  rewrite Hp, orb_false_l.
  change ("API call failed: " +:+ "5") with (String "A" "PI call failed: 5").
  rewrite (includes_skip "A" _ "PI call failed: ") by reflexivity.
  rewrite (includes_skip "A" _ (pretty st)) by exact Hfree.
  rewrite (includes_skip "A" _ " - ") by reflexivity.
  reflexivity.
Qed.

Lemma message_marker_5xx (st : Z) (body : string) :
  (500 <= st <= 599)%Z ->
  JS.includes marker_5xx ("API call failed: " +:+ pretty st +:+ " - " +:+ body) = true.
Proof.
  intros Hst. unfold marker_5xx.
  assert (Hp : String.prefix ("API call failed: " +:+ "5")
                 ("API call failed: " +:+ (pretty st +:+ (" - " +:+ body))) = true).
  { rewrite prefix_app_cancel.
    pose proof (status_rendering_5xx st Hst) as H5.
    destruct (pretty st) as [|a s]; [discriminate|].
    change (String a s +:+ (" - " +:+ body)) with (String a (s +:+ (" - " +:+ body))).
    rewrite prefix_cons in H5 |- *.
    apply andb_prop in H5 as [-> _]. destruct (s +:+ (" - " +:+ body)); reflexivity. }
  change ("API call failed: " +:+ "5") with "API call failed: 5" in Hp.
  destruct ("API call failed: " +:+ pretty st +:+ " - " +:+ body) eqn:E;
    cbn [JS.includes]; rewrite Hp; reflexivity.
Qed.

(** * The retry wrappers *)

Lemma permanent_status_spec (st : Z) :
  permanent_status st = true ->
  (100 <= st < 500)%Z /\ (st =? 429)%Z = false
  /\ (200 <=? st)%Z && (st <=? 299)%Z = false.
Proof.
  unfold permanent_status. intros H.
  repeat (apply andb_prop in H as [H ?]).
  repeat match goal with
         | h : negb _ = true |- _ => apply negb_true_iff in h
         end.
  repeat split; try assumption; lia.
Qed.

(** [fetchWithRetry] in HealthTrackerApp.jsx throws its error for a 400 or
    403 inside the [try] of the loop, so the [catch] of the same iteration
    receives it and the loop goes on: three calls and two delays. *)
Lemma fetchWithRetry_retries_a_403 :
  let forbidden := Responded (Platform.json_response 403 (JS.VObj nil)) in
  let run := HealthTrackerApp.fetchWithRetry (Platform.always forbidden) (fun _ => 0%Q)
               API_URL_TEXT (mkPayload nil None false) 3 in
  calls (snd run) = 3%nat /\ sleeps (snd run) = [1000%Q; 2000%Q]
  /\ fst run = Throw (new_Error "HTTP Error: 403").
Proof. vm_compute. repeat split. Qed.

(** C1, as stated, fails: the wrapper of unnamed/part_000 answers a 403 (a
    permanent failure) with three calls and two delays. *)
Lemma C1_part000_retries_a_403 :
  permanent_status 403 = true /\
  ~ fails_immediately
      (Part000.fetchWithBackoff
         (Platform.always (Responded (Platform.json_response 403 (JS.VObj nil))))
         API_URL_TEXT (mkPayload nil None false)).
Proof.
  split; [reflexivity|].
  unfold fails_immediately. vm_compute. intros [H _]. discriminate H.
Qed.

(** C1 (amended): in index.jsx a response with a permanent failure status
    whose body does not hold the text "API call failed: 5" ends
    [fetchWithBackoff] at once, with one call, no delay and an error that
    carries the status and the body; the wrapper of unnamed/part_000 does
    not look at the status and retries every failure: three failed responses
    give three calls, delays of 1000 and 2000, and the error
    "Failed after multiple retries: ..." of the last attempt, which carries
    the status and the body of the last response when that body is JSON, and
    the error of [json()] when it is not. *)
Theorem C1_permanent_failure_handling
    (net : nat -> FetchResult) (url : string) (options : Payload) :
  (forall (retries : nat) (delay : Q) (k : nat) (r : Response),
      net k = Responded r ->
      permanent_status (status r) = true ->
      JS.includes marker_5xx (body_text r) = false ->
      let run := IndexJsx.fetchWithBackoff_from net url options retries delay k in
      fails_immediately run /\
      fst run = Throw (new_Error ("API call failed: " +:+ pretty (status r) +:+
                                  " - " +:+ body_text r)))
  /\
  (forall (r0 r1 r2 : Response),
      net 0%nat = Responded r0 -> net 1%nat = Responded r1 -> net 2%nat = Responded r2 ->
      ok r0 = false -> ok r1 = false -> ok r2 = false ->
      Part000.fetchWithBackoff net url options =
        (Throw (new_Error
                  ("Failed after multiple retries: " +:+
                   match body_json r2 with
                   | ParseOk errorBody =>
                       "HTTP error! status: " +:+ pretty (status r2) +:+ ". Details: " +:+
                       JS.JSON_stringify errorBody
                   | ParseFail msg => msg
                   end)),
         [Fetch url options; Sleep 1000; Fetch url options; Sleep 2000;
          Fetch url options])).
Proof.
  split.
  - intros retries delay k r Hnet Hperm Hbody.
    destruct (permanent_status_spec _ Hperm) as (Hrange & H429 & Hok).
    assert (Hmsg : JS.includes "API call failed: 5"
                     ("API call failed: " +:+ pretty (status r) +:+ " - " +:+ body_text r)
                   = false).
    { etransitivity; [apply (message_marker_below_500 _ _ Hrange)|exact Hbody]. }
    assert (Hrun : IndexJsx.fetchWithBackoff_from net url options retries delay k =
                   (Throw (new_Error ("API call failed: " +:+ pretty (status r) +:+
                                      " - " +:+ body_text r)),
                    [Fetch url options])).
    { destruct retries; cbn [IndexJsx.fetchWithBackoff_from];
        rewrite Hnet, H429; unfold ok; rewrite Hok; cbn [negb message new_Error];
        [|rewrite Hmsg]; reflexivity. }
    cbv zeta. rewrite Hrun. repeat split.
  - intros r0 r1 r2 H0 H1 H2 Hok0 Hok1 Hok2.
    unfold Part000.fetchWithBackoff. cbn [Part000.fetchWithBackoff_from].
    assert (Hthrows : forall r, ok r = false -> exists e, Part000.attempt (Responded r) = Throw e).
    { intros r Hr. unfold Part000.attempt. rewrite Hr. cbn [negb].
      destruct (response_json r); eauto. }
    destruct (Hthrows r0 Hok0) as [e0 He0]. destruct (Hthrows r1 Hok1) as [e1 He1].
    rewrite H0, He0, H1, He1, H2.
    unfold Part000.attempt at 1. rewrite Hok2. cbn [negb].
    unfold response_json. destruct (body_json r2) as [errorBody|msg]; reflexivity.
Qed.

Lemma C1_permanent_failure_handling_witness :
  let forbidden := Platform.json_response 403 (JS.VObj nil) in
  let net := Platform.always (Responded forbidden) in
  let options := mkPayload [TextPart "hola"] None false in
  fails_immediately (IndexJsx.fetchWithBackoff net API_URL_TEXT options)
  /\ calls (snd (Part000.fetchWithBackoff net API_URL_TEXT options)) = 3%nat.
Proof.
  intros forbidden net options.
  destruct (C1_permanent_failure_handling net API_URL_TEXT options) as [Hindex Hpart].
  split.
  - apply (Hindex 3%nat 1000%Q 0%nat forbidden); reflexivity.
  - rewrite (Hpart forbidden forbidden forbidden); reflexivity.
Defined.

(** ** The loop of [fetchWithRetry] *)

Section FetchWithRetry.

Variable net : nat -> FetchResult.
Variable random : nat -> Q.
Variable url : string.
Variable options : Payload.

Lemma fetchWithRetry_from_calls (maxRetries n i : nat) :
  (calls (snd (HealthTrackerApp.fetchWithRetry_from net random url options maxRetries n i))
   <= n)%nat.
Proof.
  revert i. induction n as [|n IH]; intros i; cbn [HealthTrackerApp.fetchWithRetry_from].
  - apply Nat.le_refl.
  - destruct (HealthTrackerApp.attempt (net i)); [cbn; lia|].
    destruct (i =? maxRetries - 1)%nat; [cbn; lia|].
    specialize (IH (S i)).
    destruct (HealthTrackerApp.fetchWithRetry_from net random url options maxRetries n (S i))
      as [r t].
    cbn in *. unfold calls in *. cbn. lia.
Qed.

(** When every remaining attempt throws, the loop runs to its last
    iteration: [n] calls, a delay after each but the last, and the error of
    the last attempt. *)
Lemma fetchWithRetry_from_all_fail (maxRetries n i : nat) :
  (i + S n = maxRetries)%nat ->
  (forall j, (i <= j < maxRetries)%nat ->
             is_Throw (HealthTrackerApp.attempt (net j)) = true) ->
  exists e t,
    HealthTrackerApp.attempt (net (maxRetries - 1)) = Throw e /\
    HealthTrackerApp.fetchWithRetry_from net random url options maxRetries (S n) i
    = (Throw e, t) /\
    calls t = S n /\
    sleeps t = List.map (HealthTrackerApp.backoffTime random) (seq i n).
Proof.
  revert i. induction n as [|n IH]; intros i Hsum Hall.
  - cbn [HealthTrackerApp.fetchWithRetry_from].
    assert (Hi : i = (maxRetries - 1)%nat) by lia.
    pose proof (Hall i ltac:(lia)) as Hthrow.
    destruct (HealthTrackerApp.attempt (net i)) as [|e] eqn:E; [discriminate|].
    rewrite (proj2 (Nat.eqb_eq _ _) Hi).
    exists e, [Fetch url options]. rewrite <- Hi. repeat split. exact E.
  - pose proof (Hall i ltac:(lia)) as Hthrow.
    destruct (IH (S i) ltac:(lia) ltac:(intros; apply Hall; lia)) as (e & t & He & Hrun & Hc & Hs).
    remember (S n) as m eqn:Hm.
    cbn [HealthTrackerApp.fetchWithRetry_from].
    destruct (HealthTrackerApp.attempt (net i)) as [|e0]; [discriminate|].
    rewrite (proj2 (Nat.eqb_neq i (maxRetries - 1)) ltac:(lia)).
    rewrite Hrun.
    exists e, (Fetch url options :: Sleep (HealthTrackerApp.backoffTime random i) :: t).
    repeat split; [exact He| |].
    + unfold calls in *. cbn. rewrite Hc. reflexivity.
    + cbn. rewrite Hs, Hm. reflexivity.
Qed.

End FetchWithRetry.

Lemma transient_failure_throws_HealthTrackerApp (f : FetchResult) :
  transient_failure f = true -> is_Throw (HealthTrackerApp.attempt f) = true.
Proof.
  destruct f as [e|r]; [reflexivity|]. cbn [transient_failure HealthTrackerApp.attempt].
  unfold transient_status, ok. intros H.
  destruct (Z.eqb_spec (status r) 429) as [->|Hne]; [reflexivity|].
  cbn [orb] in H. apply andb_prop in H as [H5 _]. apply Z.leb_le in H5.
  replace ((200 <=? status r)%Z && (status r <=? 299)%Z) with false
    by (symmetry; apply andb_false_iff; right; apply Z.leb_gt; lia).
  cbn [negb orb].
  replace (status r >=? 500)%Z with true by (symmetry; apply Z.geb_le; lia).
  reflexivity.
Qed.

Lemma transient_failure_throws_Part000 (f : FetchResult) :
  transient_failure f = true -> is_Throw (Part000.attempt f) = true.
Proof.
  destruct f as [e|r]; [reflexivity|]. cbn [transient_failure Part000.attempt].
  unfold transient_status, ok. intros H.
  replace ((200 <=? status r)%Z && (status r <=? 299)%Z) with false.
  - cbn [negb]. destruct (response_json r); reflexivity.
  - symmetry. apply andb_false_iff.
    destruct (Z.eqb_spec (status r) 429) as [->|Hne]; [right; reflexivity|].
    cbn [orb] in H. apply andb_prop in H as [H5 _]. apply Z.leb_le in H5.
    right. apply Z.leb_gt. lia.
Qed.

(** ** The loop of unnamed/part_000 *)

Lemma Part000_fetchWithBackoff_calls (net : nat -> FetchResult) (url : string)
    (options : Payload) :
  (calls (snd (Part000.fetchWithBackoff net url options)) <= 3)%nat.
Proof.
  unfold Part000.fetchWithBackoff. cbn [Part000.fetchWithBackoff_from].
  destruct (Part000.attempt (net 0%nat)); [cbn; lia|].
  destruct (Part000.attempt (net 1%nat)); [cbn; lia|].
  destruct (Part000.attempt (net 2%nat)); cbn; lia.
Qed.

Lemma Part000_fetchWithBackoff_all_fail (net : nat -> FetchResult) (url : string)
    (options : Payload) :
  (forall j, (j < 3)%nat -> is_Throw (Part000.attempt (net j)) = true) ->
  exists e,
    Part000.attempt (net 2%nat) = Throw e /\
    Part000.fetchWithBackoff net url options =
      (Throw (new_Error ("Failed after multiple retries: " +:+ message e)),
       [Fetch url options; Sleep 1000; Fetch url options; Sleep 2000; Fetch url options]).
Proof.
  intros Hall.
  pose proof (Hall 0%nat ltac:(lia)) as H0.
  pose proof (Hall 1%nat ltac:(lia)) as H1.
  pose proof (Hall 2%nat ltac:(lia)) as H2.
  unfold Part000.fetchWithBackoff. cbn [Part000.fetchWithBackoff_from].
  destruct (Part000.attempt (net 0%nat)) as [|e0]; [discriminate|].
  destruct (Part000.attempt (net 1%nat)) as [|e1]; [discriminate|].
  destruct (Part000.attempt (net 2%nat)) as [|e]; [discriminate|].
  exists e. split; reflexivity.
Qed.

(** ** The recursion of index.jsx *)

Section IndexFetchWithBackoff.

Variable net : nat -> FetchResult.
Variable url : string.
Variable options : Payload.

Lemma Index_fetchWithBackoff_from_calls (retries : nat) (delay : Q) (k : nat) :
  (calls (snd (IndexJsx.fetchWithBackoff_from net url options retries delay k))
   <= S retries)%nat.
Proof.
  revert delay k. induction retries as [|retries IH]; intros delay k;
    cbn [IndexJsx.fetchWithBackoff_from].
  - destruct (net k) as [e|r]; [cbn; lia|].
    destruct (status r =? 429)%Z, (negb (ok r)); cbn; lia.
  - specialize (IH (delay * 2)%Q (S k)).
    destruct (IndexJsx.fetchWithBackoff_from net url options retries (delay * 2) (S k))
      as [r' t'].
    unfold calls in *. cbn in IH.
    destruct (net k) as [e|r].
    + destruct (JS.includes _ _); cbn; lia.
    + destruct (status r =? 429)%Z; [cbn; lia|].
      destruct (negb (ok r)); [|cbn; lia].
      destruct (JS.includes _ _); cbn; lia.
Qed.

Lemma transient_status_not_ok (r : Response) :
  transient_status (status r) = true -> ok r = false.
Proof.
  unfold transient_status, ok. intros H. apply andb_false_iff.
  destruct (Z.eqb_spec (status r) 429) as [->|Hne]; [right; reflexivity|].
  cbn [orb] in H. apply andb_prop in H as [H5 _]. apply Z.leb_le in H5.
  right. apply Z.leb_gt. lia.
Qed.

(** When every response is a 429 or a 5xx, all retries are used:
    [retries + 1] calls, the doubling delays, and the error of the last
    response. *)
Lemma Index_fetchWithBackoff_from_all_transient (retries : nat) (delay : Q) (k : nat) :
  (forall j, (k <= j <= k + retries)%nat ->
             exists r, net j = Responded r /\ transient_status (status r) = true) ->
  exists r t,
    net (k + retries)%nat = Responded r /\
    IndexJsx.fetchWithBackoff_from net url options retries delay k
    = (Throw (new_Error ("API call failed: " +:+ pretty (status r) +:+ " - " +:+
                         body_text r)), t) /\
    calls t = S retries /\
    sleeps t = doubling delay retries.
Proof.
  revert delay k. induction retries as [|retries IH]; intros delay k Hall.
  - destruct (Hall k ltac:(lia)) as (r & Hnet & Htr).
    exists r, [Fetch url options]. rewrite Nat.add_0_r.
    cbn [IndexJsx.fetchWithBackoff_from]. rewrite Hnet, (transient_status_not_ok r Htr).
    destruct (status r =? 429)%Z; repeat split; assumption.
  - destruct (Hall k ltac:(lia)) as (r & Hnet & Htr).
    destruct (IH (delay * 2)%Q (S k) ltac:(intros; apply Hall; lia))
      as (r' & t & Hlast & Hrun & Hc & Hs).
    exists r', (Fetch url options :: Sleep delay :: t).
    replace (k + S retries)%nat with (S k + retries)%nat by lia.
    split; [exact Hlast|].
    assert (Hgoal : IndexJsx.fetchWithBackoff_from net url options (S retries) delay k
                    = (Throw (new_Error ("API call failed: " +:+ pretty (status r') +:+
                                         " - " +:+ body_text r')),
                       Fetch url options :: Sleep delay :: t)).
    { cbn [IndexJsx.fetchWithBackoff_from]. rewrite Hnet, Hrun.
      destruct (Z.eqb_spec (status r) 429) as [E|Hne]; [reflexivity|].
      rewrite (transient_status_not_ok r Htr). cbn [negb message new_Error].
      unfold transient_status in Htr.
      rewrite (proj2 (Z.eqb_neq _ _) Hne) in Htr. cbn [orb] in Htr.
      apply andb_prop in Htr as [H5 H6]. apply Z.leb_le in H5, H6.
      pose proof (message_marker_5xx (status r) (body_text r) (conj H5 H6)) as Hm.
      unfold marker_5xx in Hm. rewrite Hm. reflexivity. }
    split; [exact Hgoal|]. split.
    + unfold calls in *. cbn. rewrite Hc. reflexivity.
    + cbn. rewrite Hs. reflexivity.
Qed.

End IndexFetchWithBackoff.

(** C2, as stated, fails: with its default [retries = 3] the wrapper of
    index.jsx issues four calls when every response is a 429. *)
Lemma C2_index_issues_four_calls :
  let run := IndexJsx.fetchWithBackoff
               (Platform.always (Responded (Platform.json_response 429 (JS.VObj nil))))
               API_URL_TEXT (mkPayload nil None false) in
  calls (snd run) = 4%nat /\ ~ (calls (snd run) <= 3)%nat.
Proof. vm_compute. split; [reflexivity|]. intros H. do 3 apply le_S_n in H. inversion H. Qed.

(** C2 (amended): [fetchWithRetry] with its budget of 3 and the wrapper of
    unnamed/part_000 issue at most 3 calls, and when every attempt fails
    transiently they raise the error of the last attempt (part_000 wraps its
    message) after exactly 3 calls; the wrapper of index.jsx counts retries,
    not attempts: with [retries = 3] it issues at most 4 calls, and when
    every response is a 429 or a 5xx it raises the error of the last response
    after exactly 4 calls.  None of the three returns a value on such a
    run. *)
Theorem C2_attempt_budget
    (net : nat -> FetchResult) (random : nat -> Q) (url : string) (options : Payload) :
  ((calls (snd (HealthTrackerApp.fetchWithRetry net random url options 3)) <= 3)%nat /\
   ((forall i, (i < 3)%nat -> transient_failure (net i) = true) ->
    exists e,
      HealthTrackerApp.attempt (net 2%nat) = Throw e /\
      fst (HealthTrackerApp.fetchWithRetry net random url options 3) = Throw e /\
      calls (snd (HealthTrackerApp.fetchWithRetry net random url options 3)) = 3%nat))
  /\
  ((calls (snd (Part000.fetchWithBackoff net url options)) <= 3)%nat /\
   ((forall i, (i < 3)%nat -> transient_failure (net i) = true) ->
    exists e,
      Part000.attempt (net 2%nat) = Throw e /\
      fst (Part000.fetchWithBackoff net url options)
      = Throw (new_Error ("Failed after multiple retries: " +:+ message e)) /\
      calls (snd (Part000.fetchWithBackoff net url options)) = 3%nat))
  /\
  ((calls (snd (IndexJsx.fetchWithBackoff net url options)) <= 4)%nat /\
   ((forall i, (i < 4)%nat ->
               exists r, net i = Responded r /\ transient_status (status r) = true) ->
    exists r,
      net 3%nat = Responded r /\
      fst (IndexJsx.fetchWithBackoff net url options)
      = Throw (new_Error ("API call failed: " +:+ pretty (status r) +:+ " - " +:+
                          body_text r)) /\
      calls (snd (IndexJsx.fetchWithBackoff net url options)) = 4%nat)).
Proof.
  repeat split.
  - apply fetchWithRetry_from_calls.
  - intros Hall.
    destruct (fetchWithRetry_from_all_fail net random url options 3 2 0 eq_refl)
      as (e & t & He & Hrun & Hc & _).
    { intros j Hj. apply transient_failure_throws_HealthTrackerApp, Hall. lia. }
    exists e. unfold HealthTrackerApp.fetchWithRetry. rewrite Hrun. repeat split; assumption.
  - apply Part000_fetchWithBackoff_calls.
  - intros Hall.
    destruct (Part000_fetchWithBackoff_all_fail net url options) as (e & He & Hrun).
    { intros j Hj. apply transient_failure_throws_Part000, Hall, Hj. }
    exists e. rewrite Hrun. repeat split. exact He.
  - apply Index_fetchWithBackoff_from_calls.
  - intros Hall.
    destruct (Index_fetchWithBackoff_from_all_transient net url options 3 1000 0)
      as (r & t & Hlast & Hrun & Hc & _).
    { intros j Hj. apply Hall. lia. }
    exists r. unfold IndexJsx.fetchWithBackoff. rewrite Hrun. repeat split; assumption.
Qed.

Lemma C2_attempt_budget_witness :
  let unavailable := Platform.json_response 503 (JS.VObj nil) in
  let net := Platform.always (Responded unavailable) in
  let options := mkPayload [TextPart "hola"] None false in
  fst (HealthTrackerApp.fetchWithRetry net (fun _ => 0%Q) API_URL_TEXT options 3)
  = Throw (new_Error "Server or Rate Limit Error: 503")
  /\ calls (snd (Part000.fetchWithBackoff net API_URL_TEXT options)) = 3%nat
  /\ calls (snd (IndexJsx.fetchWithBackoff net API_URL_TEXT options)) = 4%nat.
Proof.
  intros unavailable net options.
  destruct (C2_attempt_budget net (fun _ => 0%Q) API_URL_TEXT options)
    as ((_ & Happ) & (_ & Hpart) & (_ & Hindex)).
  split; [|split].
  - destruct Happ as (e & He & Hrun & _); [reflexivity|].
    rewrite Hrun. inversion He. reflexivity.
  - destruct Hpart as (e & _ & _ & Hc); [reflexivity|exact Hc].
  - destruct Hindex as (r & _ & _ & Hc); [|exact Hc].
    intros i _. exists unavailable. split; reflexivity.
Defined.

(** ** The delays *)

Lemma sumQ_app (l1 l2 : list Q) : (sumQ (l1 ++ l2) == sumQ l1 + sumQ l2)%Q.
Proof.
  unfold sumQ. induction l1 as [|x l1 IH]; cbn [fold_right app].
  - ring.
  - rewrite IH. ring.
Qed.

Lemma pow2_succ (m : nat) :
  (inject_Z (2 ^ Z.of_nat (S m)) == 2 * inject_Z (2 ^ Z.of_nat m))%Q.
Proof.
  rewrite Nat2Z.inj_succ, Z.pow_succ_r by lia. rewrite inject_Z_mult. reflexivity.
Qed.

Lemma backoffTime_value (random : nat -> Q) (i : nat) :
  (HealthTrackerApp.backoffTime random i
   == 1000 * inject_Z (2 ^ Z.of_nat i) + 1000 * random i)%Q.
Proof. unfold HealthTrackerApp.backoffTime. lra. Qed.

(** The delays of [m] retries add up to [1000 * (2^m - 1)] plus the jitter. *)
Lemma sumQ_backoffTime (random : nat -> Q) (m : nat) :
  (sumQ (List.map (HealthTrackerApp.backoffTime random) (seq 0 m))
   == 1000 * (inject_Z (2 ^ Z.of_nat m) - 1)
      + 1000 * sumQ (List.map random (seq 0 m)))%Q.
Proof.
  induction m as [|m IH].
  - vm_compute. reflexivity.
  - rewrite seq_S, !List.map_app, !sumQ_app, IH, pow2_succ. cbn [List.map sumQ fold_right].
    rewrite backoffTime_value. cbn [Nat.add]. lra.
Qed.

Lemma sumQ_jitter_bounds (random : nat -> Q) (m : nat) :
  (forall i, 0 <= random i < 1)%Q ->
  (0 <= sumQ (List.map random (seq 0 m)) <= inject_Z (Z.of_nat m))%Q.
Proof.
  intros Hr. induction m as [|m IH].
  - split; apply Qle_bool_imp_le; reflexivity.
  - rewrite seq_S, List.map_app, sumQ_app. cbn [List.map sumQ fold_right Nat.add].
    rewrite Nat2Z.inj_succ. unfold Z.succ. rewrite inject_Z_plus.
    specialize (Hr m). change (inject_Z 1) with 1%Q. lra.
Qed.

(** The delays of [n] retries in index.jsx add up to [delay * (2^n - 1)]. *)
Lemma doubling_total (delay : Q) (n : nat) :
  (sumQ (doubling delay n) == delay * (inject_Z (2 ^ Z.of_nat n) - 1))%Q.
Proof.
  revert delay. induction n as [|n IH]; intros delay.
  - change (0 == delay * (1 - 1))%Q. ring.
  - change (delay + sumQ (doubling (delay * 2) n)
            == delay * (inject_Z (2 ^ Z.of_nat (S n)) - 1))%Q.
    rewrite IH, pow2_succ. ring.
Qed.

(** C3, as stated, fails: with a budget of 3 the delays are 1000 and 2000,
    3000 in all (no jitter in part_000, a jitter of 0 drawn in
    [fetchWithRetry]); 7000 = 1000 * (2^3 - 1) is 4000 away, more than any
    jitter of three attempts. *)
Lemma C3_total_delay_is_3000 :
  let net := Platform.always (Responded (Platform.json_response 503 (JS.VObj nil))) in
  let options := mkPayload nil None false in
  let part := snd (Part000.fetchWithBackoff net API_URL_TEXT options) in
  let app := snd (HealthTrackerApp.fetchWithRetry net (fun _ => 0%Q) API_URL_TEXT options 3) in
  sleeps part = [1000%Q; 2000%Q] /\ sleeps app = [1000%Q; 2000%Q] /\
  ~ within_jitter_tolerance 3 (total_delay part) /\
  ~ within_jitter_tolerance 3 (total_delay app).
Proof.
  cbv zeta. repeat split; try reflexivity;
    unfold within_jitter_tolerance; apply Qlt_not_le; vm_compute; reflexivity.
Qed.

(** C3 (amended): when each of the N attempts of [fetchWithRetry] fails
    transiently, the delay slept before retry i is [1000 * 2^i] plus a jitter
    of [1000 * Math.random()], below 1000; there is no delay after the last
    attempt, so the total is [1000 * (2^(N-1) - 1)] plus the jitter, at most
    [1000 * (N - 1)].  The wrapper of unnamed/part_000 (budget 3) sleeps
    exactly 1000 and 2000, without jitter. *)
Theorem C3_backoff_delays
    (net : nat -> FetchResult) (random : nat -> Q) (url : string) (options : Payload)
    (N : nat) :
  (1 <= N)%nat ->
  (forall i, 0 <= random i < 1)%Q ->
  (forall i, (i < N)%nat -> transient_failure (net i) = true) ->
  let run := HealthTrackerApp.fetchWithRetry net random url options N in
  let base := (1000 * (inject_Z (2 ^ Z.of_nat (N - 1)) - 1))%Q in
  is_Throw (fst run) = true /\
  calls (snd run) = N /\
  sleeps (snd run) = List.map (HealthTrackerApp.backoffTime random) (seq 0 (N - 1)) /\
  (forall i, HealthTrackerApp.backoffTime random i
             == 1000 * inject_Z (2 ^ Z.of_nat i) + 1000 * random i)%Q /\
  (base <= total_delay (snd run) <= base + 1000 * inject_Z (Z.of_nat (N - 1)))%Q /\
  (N = 3%nat ->
   sleeps (snd (Part000.fetchWithBackoff net url options)) = [1000%Q; 2000%Q] /\
   (total_delay (snd (Part000.fetchWithBackoff net url options))
    == 1000 * (inject_Z (2 ^ Z.of_nat (3 - 1)) - 1))%Q).
Proof.
  intros HN Hrandom Hall run base.
  destruct N as [|n]; [lia|].
  destruct (fetchWithRetry_from_all_fail net random url options (S n) n 0 eq_refl)
    as (e & t & He & Hrun & Hc & Hs).
  { intros j Hj. apply transient_failure_throws_HealthTrackerApp, Hall. lia. }
  subst run base. unfold HealthTrackerApp.fetchWithRetry. rewrite Hrun.
  cbn [fst snd]. replace (S n - 1)%nat with n by lia.
  split; [reflexivity|]. split; [exact Hc|]. split; [exact Hs|].
  split; [intros i; apply backoffTime_value|]. split.
  - unfold total_delay. rewrite Hs, sumQ_backoffTime.
    pose proof (sumQ_jitter_bounds random n Hrandom). lra.
  - intros H3. injection H3 as ->.
    destruct (Part000_fetchWithBackoff_all_fail net url options) as (e' & _ & Hpart).
    { intros j Hj. apply transient_failure_throws_Part000, Hall, Hj. }
    rewrite Hpart. split; reflexivity.
Qed.

Lemma C3_backoff_delays_witness :
  let net := Platform.always (Responded (Platform.json_response 503 (JS.VObj nil))) in
  let options := mkPayload [TextPart "hola"] None false in
  let run := HealthTrackerApp.fetchWithRetry net (fun _ => 1 # 2) API_URL_TEXT options 3 in
  calls (snd run) = 3%nat /\ sleeps (snd run) = [3000 # 2; 5000 # 2].
Proof.
  intros net options run.
  destruct (C3_backoff_delays net (fun _ => 1 # 2) API_URL_TEXT options 3)
    as (_ & Hc & Hs & _).
  - apply Nat.lt_0_succ.
  - intros i. split; [apply Qle_bool_imp_le|]; reflexivity.
  - intros i _. reflexivity.
  - split; [exact Hc|]. etransitivity; [exact Hs|]. vm_compute. reflexivity.
Defined.

(** * Local validation of the AI tasks *)

Lemma Part000_fetchWithBackoff_calls_pos (net : nat -> FetchResult) (url : string)
    (options : Payload) :
  (1 <= calls (snd (Part000.fetchWithBackoff net url options)))%nat.
Proof.
  unfold Part000.fetchWithBackoff. cbn [Part000.fetchWithBackoff_from].
  destruct (Part000.attempt (net 0%nat)); [cbn; lia|].
  destruct (Part000.attempt (net 1%nat)); [cbn; lia|].
  destruct (Part000.attempt (net 2%nat)); cbn; lia.
Qed.

Lemma Part000_generateAIResponse_calls_pos (net : nat -> FetchResult)
    (currentPrompt : string) (imageBase64 : option string) (systemInstruction : string)
    (enableSearch : bool) :
  (1 <= calls (snd (Part000.generateAIResponse net currentPrompt imageBase64
                      systemInstruction enableSearch)))%nat.
Proof.
  unfold Part000.generateAIResponse, Part000.generation.
  pose proof (Part000_fetchWithBackoff_calls_pos net API_URL_TEXT
                (Part000.request_payload currentPrompt imageBase64 systemInstruction
                   enableSearch)) as H.
  destruct (Part000.fetchWithBackoff _ _ _) as [[response|e] t]; cbn [snd] in *;
    [|exact H].
  destruct (response_json response) as [v|e]; [|exact H].
  destruct (candidate_text v); exact H.
Qed.

(** C4, as stated, fails: the progress-advice branch of unnamed/part_000
    has no minimum on the history and calls the API with no entry at all. *)
Lemma C4_progressTips_calls_without_history :
  let net := Platform.always (Responded (Platform.json_response 200 (JS.VObj nil))) in
  let run := Part000.handleSubmit net Platform.localeDate "progressTips" "mantener mi peso"
               None nil (Part000.mkAI JS.VNull false) in
  calls (snd run) = 1%nat /\ calls (snd run) <> 0%nat.
Proof. vm_compute. split; [reflexivity|discriminate]. Qed.

(** C4 (amended): the photo-analysis and skin-analysis handlers of the three
    files set an inline message and issue no call when no image is attached
    (in index.jsx the meal analysis wants a description or an image), and
    [handleGetAdvice] of HealthTrackerApp.jsx does so when the history has
    fewer than 2 entries; the progress-advice branch of unnamed/part_000
    asks for no minimum and always issues a call. *)
Theorem C4_missing_input_fails_locally
    (net : nat -> FetchResult) (random : nat -> Q) (localeDate : string -> string) :
  (forall st,
      HealthTrackerApp.handleAnalyzeFood net random None st
      = (HealthTrackerApp.mkTool (HealthTrackerApp.loading st) (HealthTrackerApp.result st)
           (Some "Por favor, sube una foto de tu comida."), nil))
  /\
  (forall notes st,
      HealthTrackerApp.analyzeSkinImage net random None notes st
      = (HealthTrackerApp.mkTool (HealthTrackerApp.loading st) (HealthTrackerApp.result st)
           (Some "Por favor, sube una imagen de tu rostro."), nil))
  /\
  (forall weightData st,
      (List.length weightData < 2)%nat ->
      HealthTrackerApp.handleGetAdvice net random weightData st
      = (HealthTrackerApp.mkTool false JS.VNull
           (Some "Necesitas al menos dos registros de peso para generar un consejo de progreso significativo."),
         nil))
  /\
  (forall prompt base64Image weightData st,
      blank base64Image = true ->
      Part000.handleSubmit net localeDate "photoAnalysis" prompt base64Image weightData st
      = (Part000.mkAI
           (JS.VStr "Por favor, sube una imagen de tu plato para el análisis nutricional.")
           (Part000.isLoading st), nil))
  /\
  (forall prompt base64Image st,
      blank base64Image = true ->
      Part000.SkinJournal_handleSubmit net prompt base64Image st
      = (Part000.mkAI (JS.VStr "Por favor, sube una foto de tu rostro para el análisis.")
           (Part000.isLoading st), nil))
  /\
  (forall prompt base64Image weightData st,
      (1 <= calls (snd (Part000.handleSubmit net localeDate "progressTips" prompt
                          base64Image weightData st)))%nat)
  /\
  (forall notes base64Image st,
      blank base64Image = true ->
      IndexJsx.analyzeSkin net notes base64Image st
      = (IndexJsx.set_message "error"
           "Por favor, sube una imagen de tu piel para analizar." st, nil))
  /\
  (forall base64Image st,
      blank base64Image = true ->
      IndexJsx.analyzeMeal net "" base64Image st
      = (IndexJsx.set_message "error"
           "Por favor, describe tu comida o sube una imagen antes de analizar." st, nil)).
Proof.
  repeat split.
  - intros weightData st Hlen. unfold HealthTrackerApp.handleGetAdvice.
    rewrite (proj2 (Nat.ltb_lt _ _) Hlen). reflexivity.
  - intros prompt base64Image weightData st Hblank.
    unfold Part000.handleSubmit. cbn [String.eqb Ascii.eqb Bool.eqb]. rewrite Hblank.
    reflexivity.
  - intros prompt base64Image st Hblank.
    unfold Part000.SkinJournal_handleSubmit. rewrite Hblank. reflexivity.
  - intros prompt base64Image weightData st.
    unfold Part000.handleSubmit. cbn [String.eqb Ascii.eqb Bool.eqb].
    apply Part000_generateAIResponse_calls_pos.
  - intros notes base64Image st Hblank. unfold IndexJsx.analyzeSkin.
    rewrite Hblank. reflexivity.
  - intros base64Image st Hblank. unfold IndexJsx.analyzeMeal.
    rewrite Hblank. reflexivity.
Qed.

Lemma C4_missing_input_fails_locally_witness :
  let net := Platform.always (Responded (Platform.json_response 200 (JS.VObj nil))) in
  let entry := mkWeightDoc (JS.of_Z 80) "2024-03-01T08:00:00.000Z" "1/3/2024" in
  calls (snd (HealthTrackerApp.handleGetAdvice net (fun _ => 0%Q) [entry]
                (HealthTrackerApp.mkTool false JS.VNull None))) = 0%nat
  /\ calls (snd (Part000.handleSubmit net Platform.localeDate "photoAnalysis" "" None nil
                   (Part000.mkAI JS.VNull false))) = 0%nat
  /\ calls (snd (Part000.SkinJournal_handleSubmit net "piel seca" None
                   (Part000.mkAI JS.VNull false))) = 0%nat
  /\ calls (snd (IndexJsx.analyzeSkin net "" (Some "")
                   (IndexJsx.mkView JS.VNull false "" "" nil))) = 0%nat
  /\ calls (snd (IndexJsx.analyzeMeal net "" None
                   (IndexJsx.mkView JS.VNull false "" "" nil))) = 0%nat.
Proof.
  intros net entry.
  destruct (C4_missing_input_fails_locally net (fun _ => 0%Q) Platform.localeDate)
    as (_ & _ & Hadvice & Hphoto & Hjournal & _ & Hskin & Hmeal).
  repeat apply conj.
  - rewrite Hadvice; [reflexivity|]. cbn. apply Nat.lt_succ_diag_r.
  - rewrite Hphoto; reflexivity.
  - rewrite Hjournal; reflexivity.
  - rewrite Hskin; reflexivity.
  - rewrite Hmeal; reflexivity.
Defined.

(** * A response without text *)

(** C5, as stated, fails: on the body [{}] the generation functions of
    HealthTrackerApp.jsx throw, and the other two files display a message
    that starts with "Error: ". *)
Lemma C5_fallback_is_not_the_literal :
  let net := Platform.always (Responded (Platform.json_response 200 (JS.VObj nil))) in
  let literal := JS.VStr "No se pudo obtener respuesta de la IA." in
  fst (HealthTrackerApp.generateContent net (fun _ => 0%Q) "sistema" "consulta")
  = Throw (new_Error "No se pudo obtener la respuesta de la IA.")
  /\ Part000.aiResponse (fst (Part000.generateAIResponse net "consulta" None "sistema" false))
     <> literal
  /\ IndexJsx.aiResponse
       (fst (IndexJsx.runGeneration net "consulta" None "sistema" false
               (IndexJsx.mkView JS.VNull false "" "" nil)))
     <> literal.
Proof. vm_compute. repeat split; discriminate. Qed.

(** C5 (amended): when the response is ok and its body parses to a value
    other than [null] that holds no truthy text at
    [candidates[0].content.parts[0].text], [generateAIResponse] of
    unnamed/part_000 and [runGeneration] of index.jsx display
    "Error: No se pudo obtener respuesta de la IA." without throwing, after
    one call; [generateContent] and [generateMultimodalContent] of
    HealthTrackerApp.jsx throw an error with the message
    "No se pudo obtener la respuesta de la IA.", which each of their five
    callers catches and displays after its own label, with no result and
    [loading] off, after that one call. *)
Theorem C5_no_text_fallback
    (net : nat -> FetchResult) (random : nat -> Q)
    (r : Response) (result text : JS.Value) :
  net 0%nat = Responded r ->
  ok r = true ->
  body_json r = ParseOk result ->
  candidate_text result = Return text ->
  JS.truthy text = false ->
  (forall currentPrompt imageBase64 systemInstruction enableSearch,
      Part000.generateAIResponse net currentPrompt imageBase64 systemInstruction enableSearch
      = (Part000.mkAI (JS.VStr "Error: No se pudo obtener respuesta de la IA.") false,
         [Fetch API_URL_TEXT
            (Part000.request_payload currentPrompt imageBase64 systemInstruction
               enableSearch)]))
  /\
  (forall prompt base64Image systemInstruction enableSearch st,
      prompt <> "" ->
      IndexJsx.runGeneration net prompt base64Image systemInstruction enableSearch st
      = (IndexJsx.mkView (JS.VStr "Error: No se pudo obtener respuesta de la IA.") false
           (IndexJsx.message st) (IndexJsx.messageType st) (IndexJsx.history st),
         [Fetch API_URL_TEXT
            (IndexJsx.request_payload prompt base64Image systemInstruction enableSearch)]))
  /\
  (forall systemPrompt userQuery,
      HealthTrackerApp.generateContent net random systemPrompt userQuery
      = (Throw (new_Error "No se pudo obtener la respuesta de la IA."),
         [Fetch API_URL_TEXT
            {| parts := [TextPart userQuery]; systemInstruction := Some systemPrompt;
               tools := false |}]))
  /\
  (forall systemPrompt userQuery base64Image,
      HealthTrackerApp.generateMultimodalContent net random systemPrompt userQuery base64Image
      = (Throw (new_Error "No se pudo obtener la respuesta de la IA."),
         [Fetch API_URL_TEXT
            (HealthTrackerApp.multimodal_payload systemPrompt userQuery base64Image)]))
  /\
  (forall goal ingredients st,
      goal <> "" ->
      let run := HealthTrackerApp.handlePlanMeal net random goal ingredients st in
      fst run = HealthTrackerApp.mkTool false JS.VNull
                  (Some "Error al generar el plan: No se pudo obtener la respuesta de la IA.")
      /\ calls (snd run) = 1%nat)
  /\
  (forall file url st,
      readAsDataURL file = Return url ->
      let run := HealthTrackerApp.handleAnalyzeFood net random (Some file) st in
      fst run = HealthTrackerApp.mkTool false JS.VNull
                  (Some "Error al analizar la comida: No se pudo obtener la respuesta de la IA.")
      /\ calls (snd run) = 1%nat)
  /\
  (forall symptom st,
      symptom <> "" ->
      let run := HealthTrackerApp.handleAnalyzeSymptom net random symptom st in
      fst run = HealthTrackerApp.mkTool false JS.VNull
                  (Some "Error al analizar el síntoma: No se pudo obtener la respuesta de la IA.")
      /\ calls (snd run) = 1%nat)
  /\
  (forall weightData st,
      (2 <= List.length weightData)%nat ->
      let run := HealthTrackerApp.handleGetAdvice net random weightData st in
      fst run = HealthTrackerApp.mkTool false JS.VNull
                  (Some "Error al obtener consejos: No se pudo obtener la respuesta de la IA.")
      /\ calls (snd run) = 1%nat)
  /\
  (forall file url notes st,
      readAsDataURL file = Return url ->
      let run := HealthTrackerApp.analyzeSkinImage net random (Some file) notes st in
      fst run = HealthTrackerApp.mkTool false JS.VNull
                  (Some "Error al analizar la piel: No se pudo obtener la respuesta de la IA.")
      /\ calls (snd run) = 1%nat).
Proof.
  intros Hnet Hok Hjson Htext Hfalsy.
  assert (Hstatus : (status r =? 429)%Z = false).
  { unfold ok in Hok. apply andb_prop in Hok as [_ H]. apply Z.leb_le in H.
    apply Z.eqb_neq. lia. }
  assert (Happ : forall payload,
             HealthTrackerApp.generate net random payload
             = (Throw (new_Error "No se pudo obtener la respuesta de la IA."),
                [Fetch API_URL_TEXT payload])).
  { intros payload. unfold HealthTrackerApp.generate, HealthTrackerApp.fetchWithRetry.
    cbn [HealthTrackerApp.fetchWithRetry_from]. rewrite Hnet.
    unfold HealthTrackerApp.attempt. rewrite Hok. cbn [negb].
    unfold response_json. rewrite Hjson.
    unfold HealthTrackerApp.text_or_throw. rewrite Htext, Hfalsy. reflexivity. }
  repeat apply conj.
  - intros. unfold Part000.generateAIResponse, Part000.generation, Part000.fetchWithBackoff.
    cbn [Part000.fetchWithBackoff_from]. rewrite Hnet.
    unfold Part000.attempt. rewrite Hok. cbn [negb].
    unfold response_json. rewrite Hjson, Htext, Hfalsy. reflexivity.
  - intros prompt base64Image systemInstruction enableSearch st Hprompt.
    unfold IndexJsx.runGeneration.
    rewrite (proj2 (String.eqb_neq prompt "") Hprompt).
    unfold IndexJsx.generation, IndexJsx.fetchWithBackoff.
    cbn [IndexJsx.fetchWithBackoff_from]. rewrite Hnet, Hstatus, Hok. cbn [negb].
    unfold response_json. rewrite Hjson, Htext, Hfalsy. reflexivity.
  - intros. apply Happ.
  - intros. apply Happ.
  - intros goal ingredients st Hgoal. cbv zeta. unfold HealthTrackerApp.handlePlanMeal.
    rewrite (proj2 (String.eqb_neq goal "") Hgoal).
    unfold HealthTrackerApp.generateContent. rewrite Happ. split; reflexivity.
  - intros file url st Hread. cbv zeta.
    unfold HealthTrackerApp.handleAnalyzeFood, HealthTrackerApp.fileToBase64.
    rewrite Hread. unfold HealthTrackerApp.generateMultimodalContent. rewrite Happ.
    split; reflexivity.
  - intros symptom st Hsymptom. cbv zeta. unfold HealthTrackerApp.handleAnalyzeSymptom.
    rewrite (proj2 (String.eqb_neq symptom "") Hsymptom).
    unfold HealthTrackerApp.generateContent. rewrite Happ. split; reflexivity.
  - intros weightData st Hlen. cbv zeta. unfold HealthTrackerApp.handleGetAdvice.
    rewrite (proj2 (Nat.ltb_ge _ _) Hlen).
    unfold HealthTrackerApp.generateContent. rewrite Happ. split; reflexivity.
  - intros file url notes st Hread. cbv zeta.
    unfold HealthTrackerApp.analyzeSkinImage, HealthTrackerApp.fileToBase64.
    rewrite Hread. unfold HealthTrackerApp.generateMultimodalContent. rewrite Happ.
    split; reflexivity.
Qed.

Lemma C5_no_text_fallback_witness :
  let empty := Platform.json_response 200 (JS.VObj [("candidates", JS.VArr nil)]) in
  let net := Platform.always (Responded empty) in
  Part000.aiResponse (fst (Part000.generateAIResponse net "consulta" None "sistema" false))
  = JS.VStr "Error: No se pudo obtener respuesta de la IA."
  /\ is_Throw (fst (HealthTrackerApp.generateContent net (fun _ => 0%Q) "sistema" "consulta"))
     = true
  /\ HealthTrackerApp.error
       (fst (HealthTrackerApp.handlePlanMeal net (fun _ => 0%Q) "ganar músculo" ""
               (HealthTrackerApp.mkTool false JS.VNull None)))
     = Some "Error al generar el plan: No se pudo obtener la respuesta de la IA.".
Proof.
  intros empty net.
  destruct (C5_no_text_fallback net (fun _ => 0%Q) empty
              (JS.VObj [("candidates", JS.VArr nil)]) JS.VUndefined
              eq_refl eq_refl eq_refl eq_refl eq_refl) as (Hpart & _ & Happ & _ & Hplan & _).
  split; [|split].
  - rewrite Hpart. reflexivity.
  - rewrite Happ. reflexivity.
  - destruct (Hplan "ganar músculo" "" (HealthTrackerApp.mkTool false JS.VNull None))
      as [Hstate _]; [discriminate|]. rewrite Hstate. reflexivity.
Defined.

(** * Sorting *)

Section Sort.

Context {A : Type}.

Lemma insert_Permutation (cmp : A -> A -> option Z) (x : A) (l : list A) :
  Permutation (x :: l) (JS.insert cmp x l).
Proof.
  induction l as [|y l IH]; cbn [JS.insert]; [reflexivity|].
  destruct (JS.negative (cmp y x)); [|reflexivity].
  rewrite perm_swap. apply perm_skip, IH.
Qed.

Lemma sort_Permutation (cmp : A -> A -> option Z) (l : list A) :
  Permutation l (JS.sort cmp l).
Proof.
  induction l as [|x l IH]; [reflexivity|].
  change (JS.sort cmp (x :: l)) with (JS.insert cmp x (JS.sort cmp l)).
  rewrite <- insert_Permutation. apply perm_skip, IH.
Qed.

Lemma insert_ext (cmp1 cmp2 : A -> A -> option Z) (x : A) (l : list A) :
  (forall y, In y l -> cmp1 y x = cmp2 y x) ->
  JS.insert cmp1 x l = JS.insert cmp2 x l.
Proof.
  induction l as [|y l IH]; intros H; cbn [JS.insert]; [reflexivity|].
  rewrite (H y (or_introl eq_refl)), IH; [reflexivity|].
  intros z Hz. apply H. right. exact Hz.
Qed.

(** Two comparators that agree on the elements of [l] sort it alike. *)
Lemma sort_ext (cmp1 cmp2 : A -> A -> option Z) (l : list A) :
  (forall a b, In a l -> In b l -> cmp1 a b = cmp2 a b) ->
  JS.sort cmp1 l = JS.sort cmp2 l.
Proof.
  induction l as [|x l IH]; intros H; [reflexivity|].
  change (JS.insert cmp1 x (JS.sort cmp1 l) = JS.insert cmp2 x (JS.sort cmp2 l)).
  rewrite IH by (intros a b Ha Hb; apply H; right; assumption).
  apply insert_ext. intros y Hy. apply H; [right|left; reflexivity].
  apply (Permutation_in y (Permutation_sym (sort_Permutation cmp2 l))), Hy.
Qed.

Variable key : A -> Z.

Lemma insert_sorted (x : A) (l : list A) :
  StronglySorted (fun a b => (key a <= key b)%Z) l ->
  StronglySorted (fun a b => (key a <= key b)%Z) (JS.insert (by_key key) x l).
Proof.
  induction 1 as [|y l Hsorted IH Hall]; cbn [JS.insert].
  - constructor; constructor.
  - unfold by_key at 1. cbn [JS.negative]. destruct (Z.ltb_spec (key y - key x) 0).
    + constructor; [exact IH|].
      apply (Permutation_Forall (insert_Permutation (by_key key) x l)).
      constructor; [lia|exact Hall].
    + constructor; [constructor; assumption|].
      constructor; [lia|].
      eapply Forall_impl; [exact Hall|]. cbn. intros; lia.
Qed.

Lemma sort_sorted (l : list A) :
  StronglySorted (fun a b => (key a <= key b)%Z) (JS.sort (by_key key) l).
Proof.
  induction l as [|x l IH]; [constructor|].
  apply insert_sorted, IH.
Qed.

(** Inserting [x] puts it before every element of its own key. *)
Lemma insert_filter (k : Z) (x : A) (l : list A) :
  List.filter (fun a => (key a =? k)%Z) (JS.insert (by_key key) x l)
  = List.filter (fun a => (key a =? k)%Z) (x :: l).
Proof.
  induction l as [|y l IH]; cbn [JS.insert]; [reflexivity|].
  unfold by_key at 1. cbn [JS.negative]. destruct (Z.ltb_spec (key y - key x) 0);
    [|reflexivity].
  cbn [List.filter] in *. rewrite IH.
  destruct (Z.eqb_spec (key x) k), (Z.eqb_spec (key y) k); try reflexivity. lia.
Qed.

Lemma sort_stable (k : Z) (l : list A) :
  List.filter (fun a => (key a =? k)%Z) (JS.sort (by_key key) l)
  = List.filter (fun a => (key a =? k)%Z) l.
Proof.
  induction l as [|x l IH]; [reflexivity|].
  change (JS.sort (by_key key) (x :: l))
    with (JS.insert (by_key key) x (JS.sort (by_key key) l)).
  rewrite insert_filter. cbn [List.filter]. rewrite IH. reflexivity.
Qed.

Lemma sort_by_key (l : list A) : sorted_stably_by key l (JS.sort (by_key key) l).
Proof.
  split; [apply sort_Permutation|]. split; [apply sort_sorted|].
  intros k. apply sort_stable.
Qed.

(** A comparator that agrees with [by_key key] on [l] sorts [l] stably by
    [key]. *)
Lemma sort_agrees (cmp : A -> A -> option Z) (l : list A) :
  (forall a b, In a l -> In b l -> cmp a b = by_key key a b) ->
  sorted_stably_by key l (JS.sort cmp l).
Proof. intros H. rewrite (sort_ext cmp (by_key key) l H). apply sort_by_key. Qed.

(** Sorting what is already sorted changes nothing. *)
Lemma insert_below (x : A) (l : list A) :
  Forall (fun y => (key x <= key y)%Z) l -> JS.insert (by_key key) x l = x :: l.
Proof.
  destruct 1 as [|y l Hy _]; cbn [JS.insert]; [reflexivity|].
  unfold by_key. cbn [JS.negative]. destruct (Z.ltb_spec (key y - key x) 0); [lia|reflexivity].
Qed.

Lemma sort_sorted_id (l : list A) :
  StronglySorted (fun a b => (key a <= key b)%Z) l -> JS.sort (by_key key) l = l.
Proof.
  induction 1 as [|x l Hsorted IH Hall]; [reflexivity|].
  change (JS.insert (by_key key) x (JS.sort (by_key key) l) = x :: l).
  rewrite IH. apply insert_below, Hall.
Qed.

End Sort.

(** * The change-feed projections *)

Section Projection.

Variable Date_parse : string -> JS.Date.

Lemma ascending_by_time (l : list WeightDoc) :
  (forall d, In d l -> is_Some (Date_parse (timestamp d))) ->
  forall a b, In a l -> In b l ->
    HealthTrackerApp.ascending Date_parse a b
    = by_key (fun d => time_of Date_parse (timestamp d)) a b.
Proof.
  intros Hvalid a b Ha Hb. unfold HealthTrackerApp.ascending, by_key, time_of.
  destruct (Hvalid a Ha) as [ta ->], (Hvalid b Hb) as [tb ->]. reflexivity.
Qed.

Lemma descending_by_time (l : list WeightDoc) :
  (forall d, In d l -> is_Some (Date_parse (timestamp d))) ->
  forall a b, In a l -> In b l ->
    HealthTrackerApp.descending Date_parse a b
    = by_key (fun d => (- time_of Date_parse (timestamp d))%Z) a b.
Proof.
  intros Hvalid a b Ha Hb. unfold HealthTrackerApp.descending, by_key, time_of.
  destruct (Hvalid a Ha) as [ta ->], (Hvalid b Hb) as [tb ->]. cbn. f_equal. lia.
Qed.

Lemma Part000_ascending_by_time (l : list (Doc WeightDoc)) :
  (forall d, In d l -> is_Some (Date_parse (timestamp (data d)))) ->
  forall a b, In a l -> In b l ->
    Part000.ascending Date_parse a b
    = by_key (fun d => time_of Date_parse (timestamp (data d))) a b.
Proof.
  intros Hvalid a b Ha Hb. unfold Part000.ascending, by_key, time_of.
  destruct (Hvalid a Ha) as [ta ->], (Hvalid b Hb) as [tb ->]. reflexivity.
Qed.

(** A document that carries a valid timestamp materializes without the
    clock. *)
Lemma materialize_timestamped (now now' : Z) (doc : Doc IndexJsx.NutritionDoc) :
  timestamped Date_parse (data doc) ->
  IndexJsx.materialize Date_parse now doc = IndexJsx.materialize Date_parse now' doc
  /\ is_Some (IndexJsx.item_timestamp (IndexJsx.materialize Date_parse now doc)).
Proof.
  intros (ts & Hts & Hne & Hvalid). unfold IndexJsx.materialize. rewrite Hts.
  cbn [blank default]. rewrite (proj2 (String.eqb_neq ts "") Hne). cbn.
  split; [reflexivity|exact Hvalid].
Qed.

Lemma Index_descending_by_time (l : list IndexJsx.HistoryItem) :
  (forall i, In i l -> is_Some (IndexJsx.item_timestamp i)) ->
  forall a b, In a l -> In b l ->
    IndexJsx.descending a b = by_key (fun i => (- item_time i)%Z) a b.
Proof.
  intros Hvalid a b Ha Hb. unfold IndexJsx.descending, by_key, item_time.
  destruct (Hvalid a Ha) as [ta ->], (Hvalid b Hb) as [tb ->]. cbn. f_equal. lia.
Qed.

End Projection.

(** C6, as stated, fails: in index.jsx a document without a timestamp is
    given the time of the delivery, so the same snapshot delivered at two
    times materializes to two different sets. *)
Lemma C6_missing_timestamp_reads_the_clock :
  let snapshot := [mkDoc "a1" (IndexJsx.mkNutrition "avena" "Análisis pendiente" None false)] in
  let st := IndexJsx.mkView JS.VNull false "" "" nil in
  let once := IndexJsx.onSnapshot_next Platform.Date_parse 1000 snapshot st in
  let twice := IndexJsx.onSnapshot_next Platform.Date_parse 2000 snapshot once in
  IndexJsx.history twice <> IndexJsx.history once.
Proof. vm_compute. discriminate. Qed.

(** C6 (amended): when every record of the delivered snapshot carries a
    valid timestamp, the materialized output is the snapshot's records in the
    stable sorted order of the timestamp (ascending for the weights of
    HealthTrackerApp.jsx and unnamed/part_000, descending for the history of
    index.jsx), delivering the same snapshot again leaves the state as it
    is, and the output does not depend on the state before the delivery nor,
    in index.jsx, on the time of the delivery. *)
Theorem C6_projection_sorted_and_idempotent (Date_parse : string -> JS.Date) :
  (forall (snapshot : list (Doc WeightDoc)) (st st' : HealthTrackerApp.AppState),
      (forall doc, In doc snapshot -> is_Some (Date_parse (timestamp (data doc)))) ->
      sorted_stably_by (fun d => time_of Date_parse (timestamp d))
        (List.map data snapshot)
        (HealthTrackerApp.weightData
           (HealthTrackerApp.onSnapshot_next Date_parse snapshot st))
      /\ HealthTrackerApp.onSnapshot_next Date_parse snapshot
           (HealthTrackerApp.onSnapshot_next Date_parse snapshot st)
         = HealthTrackerApp.onSnapshot_next Date_parse snapshot st
      /\ HealthTrackerApp.onSnapshot_next Date_parse snapshot st'
         = HealthTrackerApp.onSnapshot_next Date_parse snapshot st)
  /\
  (forall (snapshot : list (Doc WeightDoc)) (st st' : Part000.AppState),
      (forall doc, In doc snapshot -> is_Some (Date_parse (timestamp (data doc)))) ->
      sorted_stably_by (fun d => time_of Date_parse (timestamp (data d)))
        snapshot
        (Part000.weightData (Part000.onSnapshot_next Date_parse snapshot st))
      /\ Part000.onSnapshot_next Date_parse snapshot
           (Part000.onSnapshot_next Date_parse snapshot st)
         = Part000.onSnapshot_next Date_parse snapshot st
      /\ Part000.onSnapshot_next Date_parse snapshot st'
         = Part000.onSnapshot_next Date_parse snapshot st
      /\ Part000.onSnapshot_next Date_parse
           (Part000.weightData (Part000.onSnapshot_next Date_parse snapshot st)) st
         = Part000.onSnapshot_next Date_parse snapshot st)
  /\
  (forall (snapshot : list (Doc IndexJsx.NutritionDoc)) (st st' : IndexJsx.ViewState)
          (now now' : Z),
      (forall doc, In doc snapshot -> timestamped Date_parse (data doc)) ->
      sorted_stably_by (fun i => (- item_time i)%Z)
        (List.map (IndexJsx.materialize Date_parse now) snapshot)
        (IndexJsx.history (IndexJsx.onSnapshot_next Date_parse now snapshot st))
      /\ IndexJsx.onSnapshot_next Date_parse now' snapshot
           (IndexJsx.onSnapshot_next Date_parse now snapshot st)
         = IndexJsx.onSnapshot_next Date_parse now snapshot st
      /\ IndexJsx.history (IndexJsx.onSnapshot_next Date_parse now' snapshot st')
         = IndexJsx.history (IndexJsx.onSnapshot_next Date_parse now snapshot st)).
Proof.
  split; [|split].
  - intros snapshot st st' Hvalid. split; [|split; reflexivity].
    apply sort_agrees, ascending_by_time.
    intros d Hd. apply in_map_iff in Hd as (doc & <- & Hdoc). apply Hvalid, Hdoc.
  - intros snapshot st st' Hvalid.
    pose proof (sort_agrees _ _ snapshot (Part000_ascending_by_time Date_parse snapshot Hvalid))
      as Hsorted.
    split; [exact Hsorted|]. split; [reflexivity|]. split; [reflexivity|].
    unfold Part000.onSnapshot_next. cbn [Part000.weightData]. f_equal.
    destruct Hsorted as (Hperm & Hss & _).
    rewrite (sort_ext (Part000.ascending Date_parse)
               (by_key (fun d => time_of Date_parse (timestamp (data d))))).
    + apply sort_sorted_id, Hss.
    + apply Part000_ascending_by_time. intros d Hd. apply Hvalid.
      apply (Permutation_in d (Permutation_sym Hperm)), Hd.
  - intros snapshot st st' now now' Hvalid.
    assert (Hmap : List.map (IndexJsx.materialize Date_parse now') snapshot
                   = List.map (IndexJsx.materialize Date_parse now) snapshot).
    { apply map_ext_in. intros doc Hdoc.
      apply (materialize_timestamped Date_parse now' now doc), Hvalid, Hdoc. }
    split; [|split].
    + apply sort_agrees, Index_descending_by_time.
      intros i Hi. apply in_map_iff in Hi as (doc & <- & Hdoc).
      apply (materialize_timestamped Date_parse now now doc), Hvalid, Hdoc.
    + unfold IndexJsx.onSnapshot_next. cbn. rewrite Hmap. reflexivity.
    + unfold IndexJsx.onSnapshot_next. cbn. rewrite Hmap. reflexivity.
Qed.

Lemma C6_projection_sorted_and_idempotent_witness :
  let e1 := mkDoc "2024-03-01T08:00:00.000Z"
              (mkWeightDoc (JS.of_Z 80) "2024-03-01T08:00:00.000Z" "1/3/2024") in
  let e2 := mkDoc "2024-03-08T08:00:00.000Z"
              (mkWeightDoc (JS.of_Z 78) "2024-03-08T08:00:00.000Z" "8/3/2024") in
  let n1 := mkDoc "a1" (IndexJsx.mkNutrition "avena" "Análisis pendiente"
                          (Some "2024-03-01T08:00:00.000Z") false) in
  let n2 := mkDoc "a2" (IndexJsx.mkNutrition "ensalada" "Análisis pendiente"
                          (Some "2024-03-08T08:00:00.000Z") true) in
  let view := IndexJsx.mkView JS.VNull false "" "" nil in
  sorted_stably_by (fun d => time_of Platform.Date_parse (timestamp d))
    [data e2; data e1]
    (HealthTrackerApp.weightData
       (HealthTrackerApp.onSnapshot_next Platform.Date_parse [e2; e1]
          (HealthTrackerApp.mkApp nil)))
  /\ sorted_stably_by (fun d => time_of Platform.Date_parse (timestamp (data d)))
       [e2; e1]
       (Part000.weightData
          (Part000.onSnapshot_next Platform.Date_parse [e2; e1] (Part000.mkApp nil)))
  /\ IndexJsx.history (IndexJsx.onSnapshot_next Platform.Date_parse 2000 [n1; n2] view)
     = IndexJsx.history (IndexJsx.onSnapshot_next Platform.Date_parse 1000 [n1; n2] view).
Proof.
  intros e1 e2 n1 n2 view.
  destruct (C6_projection_sorted_and_idempotent Platform.Date_parse)
    as (Happ & Hpart & Hindex).
  assert (Hvalid : forall doc, In doc [e2; e1] ->
                               is_Some (Platform.Date_parse (timestamp (data doc)))).
  { intros doc [<-|[<-|[]]]; vm_compute; eexists; reflexivity. }
  split; [|split].
  - apply (Happ [e2; e1] (HealthTrackerApp.mkApp nil) (HealthTrackerApp.mkApp nil) Hvalid).
  - apply (Hpart [e2; e1] (Part000.mkApp nil) (Part000.mkApp nil) Hvalid).
  - apply (Hindex [n1; n2] view view 1000%Z 2000%Z).
    intros doc [<-|[<-|[]]]; eexists; (split; [reflexivity|]);
      (split; [discriminate|]); vm_compute; eexists; reflexivity.
Defined.

(** * The progress scenario *)

(** The six orders in which a snapshot can deliver three documents. *)
Lemma Permutation_three {A} (a b c : A) (l : list A) :
  Permutation l [a; b; c] ->
  l = [a; b; c] \/ l = [b; a; c] \/ l = [b; c; a] \/
  l = [a; c; b] \/ l = [c; a; b] \/ l = [c; b; a].
Proof.
  intros H. symmetry in H. apply permutations_Permutation in H.
  cbn in H. repeat (apply elem_of_cons in H as [-> | H]); auto 10.
  apply elem_of_nil in H. contradiction.
Qed.

(** C7: a weights snapshot holding exactly the entries with timestamps
    T1 < T2 < T3 and weights 80, 78, 76, in whatever order it is delivered,
    materializes in ascending order; the progress summary reads initial
    weight 80, latest weight 76 and a change of -4 (a loss, "Pérdida"), and
    the history table lists the entries as T3, T2, T1. *)
Theorem C7_progress_scenario
    (Date_parse : string -> JS.Date) (T1 T2 T3 : string) (t1 t2 t3 : Z)
    (i1 i2 i3 date1 date2 date3 : string) (snapshot : list (Doc WeightDoc))
    (st : HealthTrackerApp.AppState) (st' : Part000.AppState) :
  Date_parse T1 = Some t1 -> Date_parse T2 = Some t2 -> Date_parse T3 = Some t3 ->
  (t1 < t2 < t3)%Z ->
  let e1 := mkWeightDoc (JS.Fin 80) T1 date1 in
  let e2 := mkWeightDoc (JS.Fin 78) T2 date2 in
  let e3 := mkWeightDoc (JS.Fin 76) T3 date3 in
  Permutation snapshot [mkDoc i1 e1; mkDoc i2 e2; mkDoc i3 e3] ->
  let weights :=
    HealthTrackerApp.weightData (HealthTrackerApp.onSnapshot_next Date_parse snapshot st) in
  let progress :=
    Part000.WeightTracker
      (Part000.weightData (Part000.onSnapshot_next Date_parse snapshot st')) in
  weights = [e1; e2; e3] /\
  HealthTrackerApp.WeightHistory Date_parse weights
  = Some {| HealthTrackerApp.sortedData := [e3; e2; e1];
            HealthTrackerApp.initialWeight := JS.Fin 80;
            HealthTrackerApp.currentWeight := JS.Fin 76;
            HealthTrackerApp.difference := JS.Fin (-4);
            HealthTrackerApp.progress_status := "Pérdida" |} /\
  progress
  = {| Part000.totalEntries := 3;
       Part000.initialWeight := JS.Fin 80;
       Part000.latestWeight := JS.Fin 76;
       Part000.change := JS.Fin (-4) |}.
Proof.
  intros H1 H2 H3 Hlt e1 e2 e3 Hperm weights progress.
  assert (A12 : (t1 - t2 <? 0)%Z = true) by (apply Z.ltb_lt; lia).
  assert (A13 : (t1 - t3 <? 0)%Z = true) by (apply Z.ltb_lt; lia).
  assert (A23 : (t2 - t3 <? 0)%Z = true) by (apply Z.ltb_lt; lia).
  assert (A21 : (t2 - t1 <? 0)%Z = false) by (apply Z.ltb_ge; lia).
  assert (A31 : (t3 - t1 <? 0)%Z = false) by (apply Z.ltb_ge; lia).
  assert (A32 : (t3 - t2 <? 0)%Z = false) by (apply Z.ltb_ge; lia).
  pose proof (Permutation_three _ _ _ _ Hperm) as Hcases.
  subst weights progress e1 e2 e3.
  unfold HealthTrackerApp.onSnapshot_next, Part000.onSnapshot_next.
  destruct Hcases as [-> | [-> | [-> | [-> | [-> | ->]]]]];
    repeat (cbn -[Z.sub Z.ltb];
            unfold HealthTrackerApp.ascending, HealthTrackerApp.descending,
                   Part000.ascending, JS.Date_sub, JS.negative;
            cbn [timestamp data];
            rewrite ?H1, ?H2, ?H3, ?A12, ?A13, ?A23, ?A21, ?A31, ?A32);
    repeat split.
Qed.

Lemma C7_progress_scenario_witness :
  let T1 := "2024-03-01T08:00:00.000Z" in
  let T2 := "2024-03-08T08:00:00.000Z" in
  let T3 := "2024-03-15T08:00:00.000Z" in
  let e1 := mkWeightDoc (JS.parseFloat "80") T1 "1/3/2024" in
  let e2 := mkWeightDoc (JS.parseFloat "78") T2 "8/3/2024" in
  let e3 := mkWeightDoc (JS.parseFloat "76") T3 "15/3/2024" in
  HealthTrackerApp.weightData
    (HealthTrackerApp.onSnapshot_next Platform.Date_parse
       [mkDoc T3 e3; mkDoc T1 e1; mkDoc T2 e2] (HealthTrackerApp.mkApp nil))
  = [e1; e2; e3].
Proof.
  intros T1 T2 T3 e1 e2 e3.
  refine (proj1 (C7_progress_scenario Platform.Date_parse T1 T2 T3
                   1709280000000 1709884800000 1710489600000
                   T1 T2 T3 "1/3/2024" "8/3/2024" "15/3/2024"
                   [mkDoc T3 e3; mkDoc T1 e1; mkDoc T2 e2]
                   (HealthTrackerApp.mkApp nil) (Part000.mkApp nil)
                   eq_refl eq_refl eq_refl _ _)).
  - split; reflexivity.
  - apply (Permutation_cons_append [mkDoc T1 e1; mkDoc T2 e2] (mkDoc T3 e3)).
Defined.

(** * Errors of the subscription *)

(** C8, as stated, fails: on an error the listener of index.jsx sets the
    inline message but keeps the history it had, and the listener of
    unnamed/part_000 changes nothing at all. *)
Lemma C8_history_is_kept_on_error :
  let denied := mkError "FirebaseError" "Missing or insufficient permissions." in
  let item := IndexJsx.mkItem "a1" "avena" "Análisis pendiente" (Some 1709280000000%Z) false in
  let entry := mkDoc "2024-03-01T08:00:00.000Z"
                 (mkWeightDoc (JS.Fin 80) "2024-03-01T08:00:00.000Z" "1/3/2024") in
  (exists st',
      IndexJsx.deliver Platform.Date_parse 1709366400000 (Failed denied)
        (IndexJsx.mkView JS.VNull false "" "" [item]) = Return st'
      /\ IndexJsx.history st' = [item] /\ IndexJsx.history st' <> nil)
  /\
  (exists st',
      Part000.deliver Platform.Date_parse (Failed denied) (Part000.mkApp [entry]) = Return st'
      /\ Part000.weightData st' = [entry] /\ Part000.weightData st' <> nil).
Proof. split; eexists; (split; [reflexivity|split; [reflexivity|discriminate]]). Qed.

(** C8 (amended): no error callback throws, and each leaves a state from
    which the next snapshot is materialized as usual.  On an error
    HealthTrackerApp.jsx substitutes the empty set (the error is only
    logged); index.jsx sets the inline error message and keeps the history it
    had; unnamed/part_000 only logs and keeps its state. *)
Theorem C8_subscription_error (Date_parse : string -> JS.Date) :
  (forall error st snapshot,
      HealthTrackerApp.deliver Date_parse (Failed error) st
      = Return (HealthTrackerApp.mkApp nil)
      /\ HealthTrackerApp.deliver Date_parse (Next snapshot) (HealthTrackerApp.mkApp nil)
         = Return (HealthTrackerApp.mkApp
                     (JS.sort (HealthTrackerApp.ascending Date_parse)
                        (List.map data snapshot))))
  /\
  (forall error st snapshot now,
      IndexJsx.deliver Date_parse now (Failed error) st
      = Return (IndexJsx.mkView (IndexJsx.aiResponse st) (IndexJsx.isLoading st)
                  ("Error al cargar historial: " +:+ message error) "error"
                  (IndexJsx.history st))
      /\ IndexJsx.deliver Date_parse now (Next snapshot)
           (IndexJsx.mkView (IndexJsx.aiResponse st) (IndexJsx.isLoading st)
              ("Error al cargar historial: " +:+ message error) "error"
              (IndexJsx.history st))
         = Return (IndexJsx.mkView (IndexJsx.aiResponse st) (IndexJsx.isLoading st)
                     ("Error al cargar historial: " +:+ message error) "error"
                     (JS.sort IndexJsx.descending
                        (List.map (IndexJsx.materialize Date_parse now) snapshot))))
  /\
  (forall error st snapshot,
      Part000.deliver Date_parse (Failed error) st = Return st
      /\ Part000.deliver Date_parse (Next snapshot) st
         = Return (Part000.mkApp (JS.sort (Part000.ascending Date_parse) snapshot))).
Proof. repeat split. Qed.

(** * Recording a weight *)

(** A number that is neither NaN nor at most zero is greater than zero. *)
Lemma accepted_weight_positive (n : JS.number) :
  JS.isNaN n || JS.leb n JS.zero = false ->
  JS.isNaN n = false /\ JS.gtb n JS.zero = true.
Proof.
  destruct n as [|[|]|q]; cbn; try discriminate; intros H; split; try reflexivity.
  rewrite H. reflexivity.
Qed.

(** C9, as stated, fails: the input "Infinity" parses to a number that is
    neither NaN nor at most zero, and an entry with an infinite weight is
    written. *)
Lemma C9_infinity_is_stored :
  let now := mkClock "2024-03-01T08:00:00.000Z" "1/3/2024" in
  let st := HealthTrackerApp.mkRecordWeight "Infinity" false "" in
  let run := HealthTrackerApp.handleRecord "default-health-app" true (Some "u1") now None
               st ∅ in
  JS.parseFloat "Infinity" = JS.Infinity false /\
  snd run
  = <["artifacts/default-health-app/users/u1/weights/2024-03-01T08:00:00.000Z" :=
        mkWeightDoc (JS.Infinity false) "2024-03-01T08:00:00.000Z" "1/3/2024"]> ∅ /\
  JS.isFinite (JS.Infinity false) = false.
Proof. repeat split. Qed.

(** C9 (amended): for every input whose parsed value is NaN or at most
    zero, [handleRecord] and [handleSaveWeight] write nothing, keep the
    input, and leave their validation message,
    "Por favor, ingresa un peso válido." (or, when the handle or the user id
    is missing, and in unnamed/part_000 also when the input is empty, the
    message of that earlier guard); every entry they add to the store has
    the parsed input as its weight, a number that is not NaN and is greater
    than zero.  (The handlers do not test finiteness.) *)
Theorem C9_weight_validation
    (appId : string) (db : bool) (userId : option string) (now : Clock)
    (verdict : option Error) (store : gmap string WeightDoc) :
  (forall st,
      JS.isNaN (JS.parseFloat (HealthTrackerApp.rw_weight st))
      || JS.leb (JS.parseFloat (HealthTrackerApp.rw_weight st)) JS.zero = true ->
      HealthTrackerApp.handleRecord appId db userId now verdict st store
      = (HealthTrackerApp.mkRecordWeight
           (HealthTrackerApp.rw_weight st) (HealthTrackerApp.rw_loading st)
           (if negb db || blank userId
            then "Error: Autenticación no lista. Espera a que cargue el ID de usuario."
            else "Por favor, ingresa un peso válido."),
         store))
  /\
  (forall st path doc,
      snd (HealthTrackerApp.handleRecord appId db userId now verdict st store) !! path
      = Some doc ->
      store !! path = Some doc \/
      (weight doc = JS.parseFloat (HealthTrackerApp.rw_weight st) /\
       JS.isNaN (weight doc) = false /\ JS.gtb (weight doc) JS.zero = true))
  /\
  (forall st,
      JS.isNaN (JS.parseFloat (Part000.currentWeight st))
      || JS.leb (JS.parseFloat (Part000.currentWeight st)) JS.zero = true ->
      Part000.handleSaveWeight appId db userId now verdict st store
      = (Part000.mkWeightTracker (Part000.currentWeight st)
           (if negb db || blank userId || String.eqb (Part000.currentWeight st) ""
            then "Error: Faltan datos de usuario o peso."
            else "Por favor, ingresa un peso válido."),
         store))
  /\
  (forall st path doc,
      snd (Part000.handleSaveWeight appId db userId now verdict st store) !! path
      = Some doc ->
      store !! path = Some doc \/
      (weight doc = JS.parseFloat (Part000.currentWeight st) /\
       JS.isNaN (weight doc) = false /\ JS.gtb (weight doc) JS.zero = true)).
Proof.
  repeat apply conj.
  - intros st Hbad. unfold HealthTrackerApp.handleRecord.
    destruct (negb db || blank userId); [reflexivity|].
    rewrite Hbad. reflexivity.
  - intros st path doc. unfold HealthTrackerApp.handleRecord, setDoc.
    destruct (negb db || blank userId); [left; assumption|].
    destruct (JS.isNaN _ || JS.leb _ _) eqn:Hguard; [left; assumption|].
    destruct verdict as [e|]; cbn [snd]; [left; assumption|].
    rewrite lookup_insert. case_decide; [|left; assumption].
    intros [= <-]. right. cbn [weight].
    split; [reflexivity|apply accepted_weight_positive, Hguard].
  - intros st Hbad. unfold Part000.handleSaveWeight.
    destruct (negb db || blank userId || _); [reflexivity|].
    rewrite Hbad. reflexivity.
  - intros st path doc. unfold Part000.handleSaveWeight, setDoc.
    destruct (negb db || blank userId || _); [left; assumption|].
    destruct (JS.isNaN _ || JS.leb _ _) eqn:Hguard; [left; assumption|].
    destruct verdict as [e|]; cbn [snd]; [left; assumption|].
    rewrite lookup_insert. case_decide; [|left; assumption].
    intros [= <-]. right. cbn [weight].
    split; [reflexivity|apply accepted_weight_positive, Hguard].
Qed.

Lemma C9_weight_validation_witness :
  let now := mkClock "2024-03-01T08:00:00.000Z" "1/3/2024" in
  let path := "artifacts/default-health-app/users/u1/weights/2024-03-01T08:00:00.000Z" in
  let entry := mkWeightDoc (JS.Fin 80) "2024-03-01T08:00:00.000Z" "1/3/2024" in
  HealthTrackerApp.handleRecord "default-health-app" true (Some "u1") now None
    (HealthTrackerApp.mkRecordWeight "-5" false "") ∅
  = (HealthTrackerApp.mkRecordWeight "-5" false "Por favor, ingresa un peso válido.", ∅)
  /\ Part000.handleSaveWeight "default-health-app" true (Some "u1") now None
       (Part000.mkWeightTracker "abc" "") ∅
     = (Part000.mkWeightTracker "abc" "Por favor, ingresa un peso válido.", ∅)
  /\ JS.gtb (weight entry) JS.zero = true.
Proof.
  intros now path entry.
  destruct (C9_weight_validation "default-health-app" true (Some "u1") now None ∅)
    as (Happ & Hcreated & Hpart & _).
  split; [|split].
  - apply (Happ (HealthTrackerApp.mkRecordWeight "-5" false "")). reflexivity.
  - apply (Hpart (Part000.mkWeightTracker "abc" "")). reflexivity.
  - destruct (Hcreated (HealthTrackerApp.mkRecordWeight "80" false "") path entry)
      as [Hold|(_ & _ & Hpos)].
    + apply lookup_insert_eq.
    + rewrite lookup_empty in Hold. discriminate Hold.
    + exact Hpos.
Defined.

(** * The type recorded for an attached image *)

Lemma fetchWithRetry_from_sends_only (net : nat -> FetchResult) (random : nat -> Q)
    (url : string) (options : Payload) (maxRetries n i : nat) :
  sends_only options
    (snd (HealthTrackerApp.fetchWithRetry_from net random url options maxRetries n i)).
Proof.
  revert i. induction n as [|n IH]; intros i url' p;
    cbn [HealthTrackerApp.fetchWithRetry_from].
  - intros [].
  - destruct (HealthTrackerApp.attempt (net i)).
    + intros [[= _ <-]|[]]. reflexivity.
    + destruct (i =? maxRetries - 1)%nat.
      * intros [[= _ <-]|[]]. reflexivity.
      * specialize (IH (S i) url' p).
        destruct (HealthTrackerApp.fetchWithRetry_from net random url options maxRetries n (S i))
          as [r t].
        intros [[= _ <-]|[H|H]]; [reflexivity|discriminate H|exact (IH H)].
Qed.

Lemma generate_sends_only (net : nat -> FetchResult) (random : nat -> Q)
    (payload : Payload) :
  sends_only payload (snd (HealthTrackerApp.generate net random payload)).
Proof.
  unfold HealthTrackerApp.generate.
  pose proof (fetchWithRetry_from_sends_only net random API_URL_TEXT payload 3 3 0) as H.
  unfold HealthTrackerApp.fetchWithRetry.
  destruct (HealthTrackerApp.fetchWithRetry_from net random API_URL_TEXT payload 3 3 0)
    as [[v|e] t]; exact H.
Qed.

Lemma Part000_generation_sends_only (net : nat -> FetchResult) (payload : Payload) :
  sends_only payload (snd (Part000.generation net payload)).
Proof.
  assert (H : sends_only payload (snd (Part000.fetchWithBackoff net API_URL_TEXT payload))).
  { unfold Part000.fetchWithBackoff. cbn [Part000.fetchWithBackoff_from].
    destruct (Part000.attempt (net 0%nat)); [intros u p [[= _ <-]|[]]; reflexivity|].
    destruct (Part000.attempt (net 1%nat));
      [intros u p [[= _ <-]|[H|[[= _ <-]|[]]]]; reflexivity || discriminate H|].
    destruct (Part000.attempt (net 2%nat));
      intros u p [[= _ <-]|[H|[[= _ <-]|[H|[[= _ <-]|[]]]]]];
      reflexivity || discriminate H. }
  unfold Part000.generation.
  destruct (Part000.fetchWithBackoff net API_URL_TEXT payload) as [[response|e] t];
    [|exact H].
  destruct (response_json response) as [v|e]; [|exact H].
  destruct (candidate_text v); exact H.
Qed.

Lemma Index_fetchWithBackoff_from_sends_only (net : nat -> FetchResult) (url : string)
    (options : Payload) (retries : nat) (delay : Q) (k : nat) :
  sends_only options (snd (IndexJsx.fetchWithBackoff_from net url options retries delay k)).
Proof.
  revert delay k. induction retries as [|retries IH]; intros delay k u p;
    cbn [IndexJsx.fetchWithBackoff_from].
  - destruct (net k) as [e|r]; [intros [[= _ <-]|[]]; reflexivity|].
    destruct (status r =? 429)%Z, (negb (ok r)); intros [[= _ <-]|[]]; reflexivity.
  - specialize (IH (delay * 2)%Q (S k) u p).
    destruct (IndexJsx.fetchWithBackoff_from net url options retries (delay * 2) (S k))
      as [r' t'].
    cbn [snd] in IH.
    assert (Hagain : In (Fetch u p) (Fetch url options :: Sleep delay :: t') -> p = options).
    { intros [[= _ <-]|[H|H]]; [reflexivity|discriminate H|exact (IH H)]. }
    destruct (net k) as [e|r].
    + destruct (JS.includes _ _); [exact Hagain|]. intros [[= _ <-]|[]]; reflexivity.
    + destruct (status r =? 429)%Z; [exact Hagain|].
      destruct (negb (ok r)); [|intros [[= _ <-]|[]]; reflexivity].
      destruct (JS.includes _ _); [exact Hagain|]. intros [[= _ <-]|[]]; reflexivity.
Qed.

Lemma Index_generation_sends_only (net : nat -> FetchResult) (payload : Payload) :
  sends_only payload (snd (IndexJsx.generation net payload)).
Proof.
  pose proof (Index_fetchWithBackoff_from_sends_only net API_URL_TEXT payload 3 1000 0) as H.
  unfold IndexJsx.generation, IndexJsx.fetchWithBackoff.
  destruct (IndexJsx.fetchWithBackoff_from net API_URL_TEXT payload 3 1000 0)
    as [[response|e] t]; [|exact H].
  destruct (response_json response) as [v|e]; [|exact H].
  destruct (candidate_text v); exact H.
Qed.

Lemma append_assoc (s1 s2 s3 : string) : (s1 +:+ s2) +:+ s3 = s1 +:+ (s2 +:+ s3).
Proof.
  induction s1 as [|c s1 IH]; [reflexivity|].
  change ((String c s1 +:+ s2) +:+ s3) with (String c ((s1 +:+ s2) +:+ s3)).
  rewrite IH. reflexivity.
Qed.

Lemma free_of_app (c : ascii) (s1 s2 : string) :
  free_of c (s1 +:+ s2) = free_of c s1 && free_of c s2.
Proof.
  induction s1 as [|a s1 IH]; [reflexivity|].
  change (String a s1 +:+ s2) with (String a (s1 +:+ s2)).
  cbn [free_of]. rewrite IH, andb_assoc. reflexivity.
Qed.

Lemma split_at_separator (sep : ascii) (s1 s2 : string) :
  free_of sep s1 = true ->
  JS.split sep (s1 +:+ String sep s2) = s1 :: JS.split sep s2.
Proof.
  induction s1 as [|c s1 IH]; intros Hfree.
  - change ("" +:+ String sep s2) with (String sep s2).
    cbn [JS.split]. rewrite Ascii.eqb_refl. reflexivity.
  - cbn [free_of] in Hfree. apply andb_prop in Hfree as [Hc Hrest].
    apply negb_true_iff in Hc. rewrite Ascii.eqb_sym in Hc.
    change (String c s1 +:+ String sep s2) with (String c (s1 +:+ String sep s2)).
    cbn [JS.split]. rewrite Hc, (IH Hrest). reflexivity.
Qed.

Lemma split_no_separator (sep : ascii) (s : string) :
  free_of sep s = true -> JS.split sep s = [s].
Proof.
  induction s as [|c s IH]; intros Hfree; [reflexivity|].
  cbn [free_of] in Hfree. apply andb_prop in Hfree as [Hc Hrest].
  apply negb_true_iff in Hc. rewrite Ascii.eqb_sym in Hc.
  cbn [JS.split]. rewrite Hc, (IH Hrest). reflexivity.
Qed.

(** The lazy group stops at the first [;base64]; a type without [;] and
    without line break is captured whole. *)
Lemma lazy_until_base64 (mime : string) :
  free_of ";" mime = true -> single_line mime = true ->
  JS.lazy_until ";base64" (mime +:+ ";base64") = Some mime.
Proof.
  induction mime as [|c mime IH]; intros Hfree Hline; [reflexivity|].
  cbn [free_of single_line] in Hfree, Hline.
  apply andb_prop in Hfree as [Hc Hfree]. apply andb_prop in Hline as [Hl Hline].
  apply negb_true_iff in Hc, Hl.
  change (String c mime +:+ ";base64") with (String c (mime +:+ ";base64")).
  cbn [JS.lazy_until]. rewrite (prefix_head_differs ";" c _ _ Hc), Hl, (IH Hfree Hline).
  reflexivity.
Qed.

Lemma match_data_url_prefix (mime : string) :
  free_of ";" mime = true -> single_line mime = true ->
  JS.match_data_base64 ("data:" +:+ mime +:+ ";base64") = Some mime.
Proof.
  intros Hfree Hline.
  change ("data:" +:+ mime +:+ ";base64") with (String "d" ("ata:" +:+ (mime +:+ ";base64"))).
  cbn [JS.match_data_base64].
  change (String "d" ("ata:" +:+ (mime +:+ ";base64")))
    with ("data:" +:+ (mime +:+ ";base64")).
  rewrite prefix_app.
  change (JS.skip 5 ("data:" +:+ (mime +:+ ";base64"))) with (mime +:+ ";base64").
  rewrite (lazy_until_base64 mime Hfree Hline). reflexivity.
Qed.

Lemma settle_trace (label : string) (r : Result JS.Value * list Event) :
  snd (HealthTrackerApp.settle label r) = snd r.
Proof. destruct r as [[v|e] t]; reflexivity. Qed.

Lemma generate_requests (net : nat -> FetchResult) (random : nat -> Q)
    (payload : Payload) :
  requests payload (snd (HealthTrackerApp.generate net random payload)).
Proof.
  split; [|apply generate_sends_only].
  unfold HealthTrackerApp.generate, HealthTrackerApp.fetchWithRetry.
  cbn [HealthTrackerApp.fetchWithRetry_from Nat.eqb Nat.sub].
  repeat match goal with
         | |- context [HealthTrackerApp.attempt ?f] => destruct (HealthTrackerApp.attempt f)
         | |- context [response_json ?r] => destruct (response_json r)
         end; reflexivity.
Qed.

Lemma Part000_generateAIResponse_requests (net : nat -> FetchResult)
    (currentPrompt : string) (imageBase64 : option string) (systemInstruction : string)
    (enableSearch : bool) :
  requests
    (Part000.request_payload currentPrompt imageBase64 systemInstruction enableSearch)
    (snd (Part000.generateAIResponse net currentPrompt imageBase64 systemInstruction
            enableSearch)).
Proof.
  split.
  - unfold Part000.generateAIResponse, Part000.generation, Part000.fetchWithBackoff.
    cbn [Part000.fetchWithBackoff_from].
    destruct (Part000.attempt (net 0%nat)) as [response|e].
    + destruct (response_json response) as [v|e]; [|reflexivity].
      destruct (candidate_text v); reflexivity.
    + destruct (Part000.attempt (net 1%nat)) as [response|e1].
      * destruct (response_json response) as [v|e']; [|reflexivity].
        destruct (candidate_text v); reflexivity.
      * destruct (Part000.attempt (net 2%nat)) as [response|e2].
        -- destruct (response_json response) as [v|e']; [|reflexivity].
           destruct (candidate_text v); reflexivity.
        -- reflexivity.
  - unfold Part000.generateAIResponse.
    pose proof (Part000_generation_sends_only net
                  (Part000.request_payload currentPrompt imageBase64 systemInstruction
                     enableSearch)) as H.
    destruct (Part000.generation _ _) as [[text|e] t]; exact H.
Qed.

Lemma Index_fetchWithBackoff_head (net : nat -> FetchResult) (url : string)
    (options : Payload) (retries : nat) (delay : Q) (k : nat) :
  List.head (snd (IndexJsx.fetchWithBackoff_from net url options retries delay k))
  = Some (Fetch url options).
Proof.
  destruct retries as [|retries]; cbn [IndexJsx.fetchWithBackoff_from].
  - destruct (net k) as [e|r]; [reflexivity|].
    destruct (status r =? 429)%Z, (negb (ok r)); reflexivity.
  - destruct (IndexJsx.fetchWithBackoff_from net url options retries (delay * 2) (S k))
      as [r' t'].
    destruct (net k) as [e|r].
    + destruct (JS.includes _ _); reflexivity.
    + destruct (status r =? 429)%Z; [reflexivity|].
      destruct (negb (ok r)); [|reflexivity].
      destruct (JS.includes _ _); reflexivity.
Qed.

Lemma Index_runGeneration_requests (net : nat -> FetchResult) (prompt : string)
    (base64Image : option string) (systemInstruction : string) (enableSearch : bool)
    (st : IndexJsx.ViewState) :
  prompt <> "" ->
  requests (IndexJsx.request_payload prompt base64Image systemInstruction enableSearch)
    (snd (IndexJsx.runGeneration net prompt base64Image systemInstruction enableSearch st)).
Proof.
  intros Hprompt. unfold IndexJsx.runGeneration.
  rewrite (proj2 (String.eqb_neq prompt "") Hprompt).
  pose proof (Index_generation_sends_only net
                (IndexJsx.request_payload prompt base64Image systemInstruction
                   enableSearch)) as Hsends.
  assert (Hhead : List.head
                    (snd (IndexJsx.generation net
                            (IndexJsx.request_payload prompt base64Image systemInstruction
                               enableSearch)))
                  = Some (Fetch API_URL_TEXT
                            (IndexJsx.request_payload prompt base64Image systemInstruction
                               enableSearch))).
  { unfold IndexJsx.generation, IndexJsx.fetchWithBackoff.
    pose proof (Index_fetchWithBackoff_head net API_URL_TEXT
                  (IndexJsx.request_payload prompt base64Image systemInstruction enableSearch)
                  3 1000 0) as H.
    destruct (IndexJsx.fetchWithBackoff_from _ _ _ _ _ _) as [[response|e] t];
      cbn [snd] in H; [|exact H].
    destruct (response_json response) as [v|e]; [|exact H].
    destruct (candidate_text v); exact H. }
  destruct (IndexJsx.generation _ _) as [[text|e] t]; split; assumption.
Qed.

(** The data-URL [data:<type>;base64,<data>] splits at its one comma. *)
Lemma split_data_url (mime base64Data : string) :
  free_of "," mime = true -> free_of "," base64Data = true ->
  JS.split "," ("data:" +:+ mime +:+ ";base64," +:+ base64Data)
  = [("data:" +:+ mime +:+ ";base64"); base64Data].
Proof.
  intros Hcomma Hdata.
  change ("data:" +:+ mime +:+ ";base64," +:+ base64Data)
    with ("data:" +:+ (mime +:+ (";base64" +:+ String "," base64Data))).
  rewrite <- (append_assoc mime), <- (append_assoc "data:").
  rewrite split_at_separator, (split_no_separator _ _ Hdata); [reflexivity|].
  rewrite !free_of_app, Hcomma. reflexivity.
Qed.

(** C10: the requests sent by [generateMultimodalContent]
    (HealthTrackerApp.jsx), by its two callers for any file that can be
    read, and by [generateAIResponse] (unnamed/part_000) for an attached
    image, first attempt and retries alike, carry one image part whose type is
    "image/png" whatever file was picked; the requests [runGeneration] of
    index.jsx sends carry the type read off the data-URL prefix of the
    image, and "image/jpeg" when the prefix does not parse. *)
Theorem C10_inline_image_type (net : nat -> FetchResult) (random : nat -> Q) :
  (forall systemPrompt userQuery base64Image,
      exists p,
        parts p = [TextPart userQuery; InlineData "image/png" base64Image] /\
        requests p (snd (HealthTrackerApp.generateMultimodalContent net random systemPrompt
                           userQuery base64Image)))
  /\
  (forall file url st,
      readAsDataURL file = Return url ->
      exists p userQuery,
        parts p = [TextPart userQuery;
                   InlineData "image/png" (List.nth_error (JS.split "," url) 1)] /\
        requests p (snd (HealthTrackerApp.handleAnalyzeFood net random (Some file) st)))
  /\
  (forall file url notes st,
      readAsDataURL file = Return url ->
      exists p userQuery,
        parts p = [TextPart userQuery;
                   InlineData "image/png" (List.nth_error (JS.split "," url) 1)] /\
        requests p (snd (HealthTrackerApp.analyzeSkinImage net random (Some file) notes st)))
  /\
  (forall currentPrompt imageBase64 systemInstruction enableSearch,
      blank imageBase64 = false ->
      exists p,
        parts p = [TextPart currentPrompt; InlineData "image/png" imageBase64] /\
        requests p (snd (Part000.generateAIResponse net currentPrompt imageBase64
                           systemInstruction enableSearch)))
  /\
  (forall prompt mime base64Data systemInstruction enableSearch st,
      prompt <> "" ->
      free_of "," mime = true -> free_of ";" mime = true -> single_line mime = true ->
      free_of "," base64Data = true ->
      exists p,
        parts p = [TextPart prompt; InlineData mime (Some base64Data)] /\
        requests p
          (snd (IndexJsx.runGeneration net prompt
                  (Some ("data:" +:+ mime +:+ ";base64," +:+ base64Data))
                  systemInstruction enableSearch st)))
  /\
  (forall prompt base64Image systemInstruction enableSearch st,
      prompt <> "" ->
      base64Image <> "" ->
      JS.match_data_base64 (List.hd "" (JS.split "," base64Image)) = None ->
      exists p,
        parts p = [TextPart prompt;
                   InlineData "image/jpeg" (List.nth_error (JS.split "," base64Image) 1)] /\
        requests p
          (snd (IndexJsx.runGeneration net prompt (Some base64Image) systemInstruction
                  enableSearch st))).
Proof.
  repeat apply conj.
  - intros systemPrompt userQuery base64Image.
    exists (HealthTrackerApp.multimodal_payload systemPrompt userQuery base64Image).
    split; [reflexivity|apply generate_requests].
  - intros file url st Hread.
    unfold HealthTrackerApp.handleAnalyzeFood, HealthTrackerApp.fileToBase64.
    rewrite Hread, settle_trace. eexists _, _.
    split; [|apply generate_requests]. reflexivity.
  - intros file url notes st Hread.
    unfold HealthTrackerApp.analyzeSkinImage, HealthTrackerApp.fileToBase64.
    rewrite Hread, settle_trace. eexists _, _.
    split; [|apply generate_requests]. reflexivity.
  - intros currentPrompt imageBase64 systemInstruction enableSearch Hblank.
    exists (Part000.request_payload currentPrompt imageBase64 systemInstruction enableSearch).
    split; [|apply Part000_generateAIResponse_requests].
    unfold Part000.request_payload. cbn [parts]. rewrite Hblank. reflexivity.
  - intros prompt mime base64Data systemInstruction enableSearch st Hprompt
           Hcomma Hsemi Hline Hdata.
    eexists. split; [|apply (Index_runGeneration_requests _ _ _ _ _ _ Hprompt)].
    unfold IndexJsx.request_payload, IndexJsx.request_parts. cbn [parts].
    change (blank (Some ("data:" +:+ mime +:+ ";base64," +:+ base64Data))) with false.
    cbn [negb from_option]. unfold Datatypes.id.
    rewrite (split_data_url mime base64Data Hcomma Hdata). cbn [List.hd List.nth_error].
    rewrite (match_data_url_prefix mime Hsemi Hline). reflexivity.
  - intros prompt base64Image systemInstruction enableSearch st Hprompt Himage Hnomatch.
    eexists. split; [|apply (Index_runGeneration_requests _ _ _ _ _ _ Hprompt)].
    unfold IndexJsx.request_payload, IndexJsx.request_parts. cbn [parts blank].
    rewrite (proj2 (String.eqb_neq base64Image "") Himage). cbn [negb from_option].
    unfold Datatypes.id. rewrite Hnomatch. reflexivity.
Qed.

Lemma C10_inline_image_type_witness :
  let jpeg := mkFile (Return "data:image/jpeg;base64,/9j/4AAQSkZJRg==") in
  let net := Platform.always (Responded (Platform.json_response 200 (JS.VObj nil))) in
  let view := IndexJsx.mkView JS.VNull false "" "" nil in
  (exists p userQuery,
      parts p = [TextPart userQuery;
                 InlineData "image/png"
                   (List.nth_error (JS.split "," "data:image/jpeg;base64,/9j/4AAQSkZJRg==") 1)]
      /\ requests p (snd (HealthTrackerApp.handleAnalyzeFood net (fun _ => 0%Q) (Some jpeg)
                            (HealthTrackerApp.mkTool false JS.VNull None))))
  /\ (exists p,
         parts p = [TextPart "consulta"; InlineData "image/jpeg" (Some "/9j/4AAQSkZJRg==")]
         /\ requests p
              (snd (IndexJsx.runGeneration net "consulta"
                      (Some ("data:" +:+ "image/jpeg" +:+ ";base64," +:+ "/9j/4AAQSkZJRg=="))
                      "sistema" false view)))
  /\ (exists p,
         parts p = [TextPart "consulta";
                    InlineData "image/jpeg"
                      (List.nth_error (JS.split "," "/9j/4AAQSkZJRg==") 1)]
         /\ requests p
              (snd (IndexJsx.runGeneration net "consulta" (Some "/9j/4AAQSkZJRg==")
                      "sistema" false view)))
  /\ (exists p,
         parts p = [TextPart "consulta"; InlineData "image/png" (Some "/9j/4AAQSkZJRg==")]
         /\ requests p
              (snd (Part000.generateAIResponse net "consulta" (Some "/9j/4AAQSkZJRg==")
                      "sistema" false))).
Proof.
  intros jpeg net view.
  destruct (C10_inline_image_type net (fun _ => 0%Q))
    as (_ & Hfood & _ & Hpart & Hurl & Hdefault).
  split; [|split; [|split]].
  - apply (Hfood jpeg _ (HealthTrackerApp.mkTool false JS.VNull None)). reflexivity.
  - apply (Hurl "consulta" "image/jpeg" "/9j/4AAQSkZJRg==" "sistema" false view);
      try reflexivity. discriminate.
  - apply (Hdefault "consulta" "/9j/4AAQSkZJRg==" "sistema" false view);
      try reflexivity; discriminate.
  - apply (Hpart "consulta" (Some "/9j/4AAQSkZJRg==") "sistema" false). reflexivity.
Defined.

(** * Further properties of the retry wrappers *)

(** X1.  [fetchWithRetry] stops at the first attempt whose [try] block
    succeeds: after [k] failed attempts ([k] below the budget) an ok response
    ends the loop with [k + 1] calls and [k] delays, and the result is what
    [json()] of that response settles to: its value, or the [SyntaxError] if
    the body does not parse (which is then not retried). *)
Theorem X1_fetchWithRetry_stops_at_first_success
    (net : nat -> FetchResult) (random : nat -> Q) (url : string) (options : Payload)
    (maxRetries k : nat) (r : Response) :
  (k < maxRetries)%nat ->
  (forall j, (j < k)%nat -> is_Throw (HealthTrackerApp.attempt (net j)) = true) ->
  net k = Responded r ->
  ok r = true ->
  let run := HealthTrackerApp.fetchWithRetry net random url options maxRetries in
  fst run = response_json r /\
  calls (snd run) = S k /\
  sleeps (snd run) = List.map (HealthTrackerApp.backoffTime random) (seq 0 k).
Proof.
  intros Hk Hfail Hnet Hok.
  assert (Hattempt : HealthTrackerApp.attempt (net k) = Return r).
  { rewrite Hnet. unfold HealthTrackerApp.attempt. rewrite Hok. reflexivity. }
  assert (Hgen : forall m n i,
             (i + n = maxRetries)%nat -> (i + m = k)%nat ->
             (forall j, (i <= j < k)%nat ->
                        is_Throw (HealthTrackerApp.attempt (net j)) = true) ->
             let run := HealthTrackerApp.fetchWithRetry_from net random url options
                          maxRetries n i in
             fst run = response_json r /\ calls (snd run) = S m /\
             sleeps (snd run) = List.map (HealthTrackerApp.backoffTime random) (seq i m)).
  { induction m as [|m IH]; intros n i Hn Hm Hall.
    - assert (i = k) by lia. subst i.
      destruct n as [|n]; [lia|]. cbn [HealthTrackerApp.fetchWithRetry_from].
      rewrite Hattempt. repeat split.
    - destruct n as [|n]; [lia|]. cbn [HealthTrackerApp.fetchWithRetry_from].
      pose proof (Hall i ltac:(lia)) as Hi.
      destruct (HealthTrackerApp.attempt (net i)) as [|e]; [discriminate|].
      rewrite (proj2 (Nat.eqb_neq i (maxRetries - 1)) ltac:(lia)).
      specialize (IH n (S i) ltac:(lia) ltac:(lia) ltac:(intros; apply Hall; lia)).
      cbv zeta in IH.
      destruct (HealthTrackerApp.fetchWithRetry_from net random url options maxRetries n (S i))
        as [res t].
      cbn [fst snd] in *. destruct IH as (Hr & Hc & Hs).
      split; [exact Hr|]. split.
      + unfold calls in *. cbn. rewrite Hc. reflexivity.
      + cbn. rewrite Hs. reflexivity. }
  apply (Hgen k maxRetries 0%nat); [reflexivity|reflexivity|].
  intros j Hj. apply Hfail. lia.
Qed.

Lemma X1_fetchWithRetry_stops_at_first_success_witness :
  let busy := Responded (Platform.json_response 503 (JS.VObj nil)) in
  let reply := Platform.json_response 200 (JS.VObj [("candidates", JS.VArr nil)]) in
  let net := fun k => if (k <? 1)%nat then busy else Responded reply in
  let run := HealthTrackerApp.fetchWithRetry net (fun _ => 0%Q) API_URL_TEXT
               (mkPayload [TextPart "hola"] None false) 3 in
  fst run = Return (JS.VObj [("candidates", JS.VArr nil)]) /\ calls (snd run) = 2%nat.
Proof.
  intros busy reply net run.
  destruct (X1_fetchWithRetry_stops_at_first_success net (fun _ => 0%Q) API_URL_TEXT
              (mkPayload [TextPart "hola"] None false) 3 1 reply) as (Hr & Hc & _).
  - apply le_S, le_n.
  - intros j Hj. destruct j; [reflexivity|]. apply Nat.succ_lt_mono in Hj. inversion Hj.
  - reflexivity.
  - reflexivity.
  - split; [exact Hr|exact Hc].
Defined.

(** X2.  The wrapper of unnamed/part_000 returns the first ok response:
    after [k] failed attempts ([k] below 3) it returns that response with
    [k + 1] calls, having slept 1000 before the second call and 2000 before
    the third. *)
Theorem X2_Part000_fetchWithBackoff_returns_first_ok
    (net : nat -> FetchResult) (url : string) (options : Payload) (k : nat) (r : Response) :
  (k < 3)%nat ->
  (forall j, (j < k)%nat -> is_Throw (Part000.attempt (net j)) = true) ->
  net k = Responded r ->
  ok r = true ->
  let run := Part000.fetchWithBackoff net url options in
  fst run = Return r /\
  calls (snd run) = S k /\
  sleeps (snd run) = firstn k [1000%Q; 2000%Q].
Proof.
  intros Hk Hfail Hnet Hok.
  assert (Hattempt : Part000.attempt (net k) = Return r).
  { rewrite Hnet. unfold Part000.attempt. rewrite Hok. reflexivity. }
  unfold Part000.fetchWithBackoff. cbn [Part000.fetchWithBackoff_from].
  destruct k as [|[|[|k]]]; [| | |lia].
  - rewrite Hattempt. repeat split.
  - pose proof (Hfail 0%nat ltac:(lia)) as H0.
    destruct (Part000.attempt (net 0%nat)); [discriminate|].
    rewrite Hattempt. repeat split.
  - pose proof (Hfail 0%nat ltac:(lia)) as H0. pose proof (Hfail 1%nat ltac:(lia)) as H1.
    destruct (Part000.attempt (net 0%nat)); [discriminate|].
    destruct (Part000.attempt (net 1%nat)); [discriminate|].
    rewrite Hattempt. repeat split.
Qed.

Lemma X2_Part000_fetchWithBackoff_returns_first_ok_witness :
  let busy := Responded (Platform.json_response 503 (JS.VObj nil)) in
  let reply := Platform.json_response 200 (JS.VObj nil) in
  let net := fun k => if (k <? 2)%nat then busy else Responded reply in
  let run := Part000.fetchWithBackoff net API_URL_TEXT (mkPayload [TextPart "hola"] None false) in
  fst run = Return reply /\ calls (snd run) = 3%nat /\ sleeps (snd run) = [1000%Q; 2000%Q].
Proof.
  intros busy reply net run.
  apply (X2_Part000_fetchWithBackoff_returns_first_ok net API_URL_TEXT
           (mkPayload [TextPart "hola"] None false) 2 reply).
  - apply le_n.
  - intros j Hj. destruct j as [|[|j]]; [reflexivity|reflexivity|].
    do 2 apply Nat.succ_lt_mono in Hj. inversion Hj.
  - reflexivity.
  - reflexivity.
Defined.

(** In index.jsx a run of [m] responses with a transient status uses [m]
    retries; what the call after them does decides the result. *)
Lemma Index_fetchWithBackoff_from_after_transient
    (net : nat -> FetchResult) (url : string) (options : Payload)
    (final : Result Response) (m : nat) :
  forall (retries : nat) (delay : Q) (k : nat),
    (m <= retries)%nat ->
    (forall j, (k <= j < k + m)%nat ->
               exists r, net j = Responded r /\ transient_status (status r) = true) ->
    (forall retries' delay',
        IndexJsx.fetchWithBackoff_from net url options retries' delay' (k + m)
        = (final, [Fetch url options])) ->
    let run := IndexJsx.fetchWithBackoff_from net url options retries delay k in
    fst run = final /\ calls (snd run) = S m /\ sleeps (snd run) = doubling delay m.
Proof.
  induction m as [|m IH]; intros retries delay k Hm Hall Hfinal.
  - rewrite Nat.add_0_r in Hfinal. cbv zeta. rewrite Hfinal. repeat split.
  - destruct retries as [|retries]; [lia|].
    destruct (Hall k ltac:(lia)) as (r & Hnet & Htr).
    specialize (IH retries (delay * 2)%Q (S k) ltac:(lia)
                  ltac:(intros; apply Hall; lia)).
    replace (S k + m)%nat with (k + S m)%nat in IH by lia.
    specialize (IH Hfinal). cbv zeta in IH |- *.
    cbn [IndexJsx.fetchWithBackoff_from]. rewrite Hnet.
    destruct (IndexJsx.fetchWithBackoff_from net url options retries (delay * 2) (S k))
      as [res t].
    cbn [fst snd] in IH. destruct IH as (Hr & Hc & Hs).
    assert (Hgoal : forall run : Result Response * list Event,
               run = (res, Fetch url options :: Sleep delay :: t) ->
               fst run = final /\ calls (snd run) = S (S m)
               /\ sleeps (snd run) = doubling delay (S m)).
    { intros run ->. cbn [fst snd]. split; [exact Hr|]. split.
      - unfold calls in *. cbn. rewrite Hc. reflexivity.
      - cbn. rewrite Hs. reflexivity. }
    apply Hgoal.
    destruct (Z.eqb_spec (status r) 429) as [E|Hne]; [reflexivity|].
    rewrite (transient_status_not_ok r Htr). cbn [negb message new_Error].
    unfold transient_status in Htr.
    rewrite (proj2 (Z.eqb_neq _ _) Hne) in Htr. cbn [orb] in Htr.
    apply andb_prop in Htr as [H5 H6]. apply Z.leb_le in H5, H6.
    pose proof (message_marker_5xx (status r) (body_text r) (conj H5 H6)) as Hmark.
    unfold marker_5xx in Hmark. rewrite Hmark. reflexivity.
Qed.

(** X3.  [fetchWithBackoff] of index.jsx returns the first ok response:
    after [m] responses with status 429 or 5xx ([m] at most [retries]) it
    returns that response with [m + 1] calls, having slept [delay],
    [2 * delay], ... before the retries. *)
Theorem X3_Index_fetchWithBackoff_returns_first_ok
    (net : nat -> FetchResult) (url : string) (options : Payload)
    (retries m : nat) (delay : Q) (r : Response) :
  (m <= retries)%nat ->
  (forall j, (j < m)%nat ->
             exists r', net j = Responded r' /\ transient_status (status r') = true) ->
  net m = Responded r ->
  ok r = true ->
  let run := IndexJsx.fetchWithBackoff_from net url options retries delay 0 in
  fst run = Return r /\ calls (snd run) = S m /\ sleeps (snd run) = doubling delay m.
Proof.
  intros Hm Hall Hnet Hok.
  apply (Index_fetchWithBackoff_from_after_transient net url options (Return r) m
           retries delay 0 Hm).
  - intros j Hj. apply Hall. lia.
  - intros retries' delay'. cbn [Nat.add].
    assert (H429 : (status r =? 429)%Z = false).
    { unfold ok in Hok. apply andb_prop in Hok as [_ H]. apply Z.leb_le in H.
      apply Z.eqb_neq. lia. }
    destruct retries'; cbn [IndexJsx.fetchWithBackoff_from];
      rewrite Hnet, H429, Hok; reflexivity.
Qed.

Lemma X3_Index_fetchWithBackoff_returns_first_ok_witness :
  let limited := Responded (Platform.json_response 429 (JS.VObj nil)) in
  let reply := Platform.json_response 200 (JS.VObj nil) in
  let net := fun k => if (k <? 3)%nat then limited else Responded reply in
  let run := IndexJsx.fetchWithBackoff net API_URL_TEXT (mkPayload [TextPart "hola"] None false) in
  fst run = Return reply /\ calls (snd run) = 4%nat
  /\ sleeps (snd run) = doubling 1000 3.
Proof.
  intros limited reply net run.
  apply (X3_Index_fetchWithBackoff_returns_first_ok net API_URL_TEXT
           (mkPayload [TextPart "hola"] None false) 3 3 1000 reply).
  - apply le_n.
  - intros j Hj. exists (Platform.json_response 429 (JS.VObj nil)).
    destruct j as [|[|[|j]]]; [split; reflexivity ..|].
    do 3 apply Nat.succ_lt_mono in Hj. inversion Hj.
  - reflexivity.
  - reflexivity.
Defined.

(** X4.  A transport failure is not a reason to retry in index.jsx: when
    [fetch] itself rejects with an error whose message does not hold the text
    "API call failed: 5", [fetchWithBackoff] rethrows that error at once,
    whatever retries are left; after [m] transient responses that makes
    [m + 1] calls. *)
Theorem X4_Index_transport_failure_is_not_retried
    (net : nat -> FetchResult) (url : string) (options : Payload)
    (retries m : nat) (delay : Q) (e : Error) :
  (m <= retries)%nat ->
  (forall j, (j < m)%nat ->
             exists r', net j = Responded r' /\ transient_status (status r') = true) ->
  net m = Rejected e ->
  JS.includes marker_5xx (message e) = false ->
  let run := IndexJsx.fetchWithBackoff_from net url options retries delay 0 in
  fst run = Throw e /\ calls (snd run) = S m /\ sleeps (snd run) = doubling delay m.
Proof.
  intros Hm Hall Hnet Hmark.
  apply (Index_fetchWithBackoff_from_after_transient net url options (Throw e) m
           retries delay 0 Hm).
  - intros j Hj. apply Hall. lia.
  - intros retries' delay'. cbn [Nat.add]. unfold marker_5xx in Hmark.
    destruct retries'; cbn [IndexJsx.fetchWithBackoff_from]; rewrite Hnet;
      [|rewrite Hmark]; reflexivity.
Qed.

Lemma X4_Index_transport_failure_is_not_retried_witness :
  let offline := TypeError "Failed to fetch" in
  let run := IndexJsx.fetchWithBackoff (Platform.always (Rejected offline)) API_URL_TEXT
               (mkPayload [TextPart "hola"] None false) in
  fst run = Throw offline /\ calls (snd run) = 1%nat.
Proof.
  intros offline run.
  destruct (X4_Index_transport_failure_is_not_retried
              (Platform.always (Rejected offline)) API_URL_TEXT
              (mkPayload [TextPart "hola"] None false) 3 0 1000 offline)
    as (Hr & Hc & _).
  - apply Nat.le_0_l.
  - intros j Hj. inversion Hj.
  - reflexivity.
  - reflexivity.
  - split; [exact Hr|exact Hc].
Defined.

(** X5.  When every response is a 429 or a 5xx, [fetchWithBackoff] of
    index.jsx has slept [delay * (2^retries - 1)] in all when it gives up,
    7000 with the defaults, without any jitter. *)
Theorem X5_Index_total_delay_when_exhausted
    (net : nat -> FetchResult) (url : string) (options : Payload)
    (retries : nat) (delay : Q) :
  (forall j, (j <= retries)%nat ->
             exists r, net j = Responded r /\ transient_status (status r) = true) ->
  let run := IndexJsx.fetchWithBackoff_from net url options retries delay 0 in
  is_Throw (fst run) = true /\
  (total_delay (snd run) == delay * (inject_Z (2 ^ Z.of_nat retries) - 1))%Q.
Proof.
  intros Hall.
  destruct (Index_fetchWithBackoff_from_all_transient net url options retries delay 0)
    as (r & t & _ & Hrun & _ & Hs).
  { intros j Hj. apply Hall. lia. }
  cbv zeta. rewrite Hrun. cbn [fst snd]. split; [reflexivity|].
  unfold total_delay. rewrite Hs. apply doubling_total.
Qed.

Lemma X5_Index_total_delay_when_exhausted_witness :
  let net := Platform.always (Responded (Platform.json_response 500 (JS.VObj nil))) in
  (total_delay (snd (IndexJsx.fetchWithBackoff net API_URL_TEXT
                       (mkPayload [TextPart "hola"] None false))) == 7000)%Q.
Proof.
  intros net.
  destruct (X5_Index_total_delay_when_exhausted net API_URL_TEXT
              (mkPayload [TextPart "hola"] None false) 3 1000) as (_ & Htotal).
  - intros j _. eexists. split; reflexivity.
  - etransitivity; [exact Htotal|]. reflexivity.
Defined.

(** * Further properties of the handlers *)

Lemma generate_calls (net : nat -> FetchResult) (random : nat -> Q) (payload : Payload) :
  (1 <= calls (snd (HealthTrackerApp.generate net random payload)) <= 3)%nat.
Proof.
  unfold HealthTrackerApp.generate, HealthTrackerApp.fetchWithRetry.
  pose proof (fetchWithRetry_from_calls net random API_URL_TEXT payload 3 3 0) as Hle.
  assert (Hge : (1 <= calls (snd (HealthTrackerApp.fetchWithRetry_from net random
                                    API_URL_TEXT payload 3 3 0)))%nat).
  { cbn [HealthTrackerApp.fetchWithRetry_from].
    destruct (HealthTrackerApp.attempt (net 0%nat)); [cbn; lia|].
    cbn [Nat.eqb Nat.sub].
    destruct (HealthTrackerApp.attempt (net 1%nat)); [cbn; lia|].
    destruct (HealthTrackerApp.attempt (net 2%nat)); cbn; lia. }
  destruct (HealthTrackerApp.fetchWithRetry_from net random API_URL_TEXT payload 3 3 0)
    as [[v|e] t]; cbn [snd] in *; lia.
Qed.



Lemma Part000_generateAIResponse_trace (net : nat -> FetchResult)
    (currentPrompt : string) (imageBase64 : option string) (systemInstruction : string)
    (enableSearch : bool) :
  snd (Part000.generateAIResponse net currentPrompt imageBase64 systemInstruction
         enableSearch)
  = snd (Part000.fetchWithBackoff net API_URL_TEXT
           (Part000.request_payload currentPrompt imageBase64 systemInstruction
              enableSearch)).
Proof.
  unfold Part000.generateAIResponse, Part000.generation.
  destruct (Part000.fetchWithBackoff _ _ _) as [[response|e] t]; [|reflexivity].
  destruct (response_json response) as [v|e]; [|reflexivity].
  destruct (candidate_text v); reflexivity.
Qed.

Lemma Index_runGeneration_calls (net : nat -> FetchResult) (prompt : string)
    (base64Image : option string) (systemInstruction : string) (enableSearch : bool)
    (st : IndexJsx.ViewState) :
  (calls (snd (IndexJsx.runGeneration net prompt base64Image systemInstruction
                 enableSearch st)) <= 4)%nat.
Proof.
  unfold IndexJsx.runGeneration. destruct (String.eqb prompt ""); [cbn; lia|].
  unfold IndexJsx.generation, IndexJsx.fetchWithBackoff.
  pose proof (Index_fetchWithBackoff_from_calls net API_URL_TEXT
                (IndexJsx.request_payload prompt base64Image systemInstruction enableSearch)
                3 1000 0) as H.
  destruct (IndexJsx.fetchWithBackoff_from _ _ _ _ _ _) as [[response|e] t];
    cbn [snd] in *; [|exact H].
  destruct (response_json response) as [v|e]; [|exact H].
  destruct (candidate_text v); exact H.
Qed.

(** X6.  One user action never costs more than the budget of its wrapper:
    every tool handler of HealthTrackerApp.jsx and of unnamed/part_000 issues
    at most 3 network calls, every analysis of index.jsx at most 4, whatever
    the network answers. *)
Theorem X6_calls_per_user_action
    (net : nat -> FetchResult) (random : nat -> Q) (localeDate : string -> string) :
  (forall goal ingredients st,
      (calls (snd (HealthTrackerApp.handlePlanMeal net random goal ingredients st)) <= 3)%nat)
  /\ (forall file st,
      (calls (snd (HealthTrackerApp.handleAnalyzeFood net random file st)) <= 3)%nat)
  /\ (forall symptom st,
      (calls (snd (HealthTrackerApp.handleAnalyzeSymptom net random symptom st)) <= 3)%nat)
  /\ (forall weightData st,
      (calls (snd (HealthTrackerApp.handleGetAdvice net random weightData st)) <= 3)%nat)
  /\ (forall file notes st,
      (calls (snd (HealthTrackerApp.analyzeSkinImage net random file notes st)) <= 3)%nat)
  /\ (forall currentTool prompt base64Image weightData st,
      (calls (snd (Part000.handleSubmit net localeDate currentTool prompt base64Image
                     weightData st)) <= 3)%nat)
  /\ (forall prompt base64Image st,
      (calls (snd (Part000.SkinJournal_handleSubmit net prompt base64Image st)) <= 3)%nat)
  /\ (forall mealDescription base64Image st,
      (calls (snd (IndexJsx.analyzeMeal net mealDescription base64Image st)) <= 4)%nat)
  /\ (forall notes base64Image st,
      (calls (snd (IndexJsx.analyzeSkin net notes base64Image st)) <= 4)%nat).
Proof.
  assert (Hgen : forall label r, (calls (snd r) <= 3)%nat ->
                                 (calls (snd (HealthTrackerApp.settle label r)) <= 3)%nat).
  { intros label r H. rewrite settle_trace. exact H. }
  assert (Hpart : forall p i s e,
             (calls (snd (Part000.generateAIResponse net p i s e)) <= 3)%nat).
  { intros. rewrite Part000_generateAIResponse_trace. apply Part000_fetchWithBackoff_calls. }
  repeat apply conj.
  - intros goal ingredients st. unfold HealthTrackerApp.handlePlanMeal.
    destruct (String.eqb goal ""); [cbn; lia|]. apply Hgen, generate_calls.
  - intros [file|] st; unfold HealthTrackerApp.handleAnalyzeFood; [|cbn; lia].
    apply Hgen. destruct (HealthTrackerApp.fileToBase64 file); [apply generate_calls|cbn; lia].
  - intros symptom st. unfold HealthTrackerApp.handleAnalyzeSymptom.
    destruct (String.eqb symptom ""); [cbn; lia|]. apply Hgen, generate_calls.
  - intros weightData st. unfold HealthTrackerApp.handleGetAdvice.
    destruct (_ <? 2)%nat; [cbn; lia|]. apply Hgen, generate_calls.
  - intros [file|] notes st; unfold HealthTrackerApp.analyzeSkinImage; [|cbn; lia].
    apply Hgen. destruct (HealthTrackerApp.fileToBase64 file); [apply generate_calls|cbn; lia].
  - intros currentTool prompt base64Image weightData st. unfold Part000.handleSubmit.
    repeat match goal with
           | |- context [if ?b then _ else _] => destruct b
           end; try apply Hpart; cbn; lia.
  - intros prompt base64Image st. unfold Part000.SkinJournal_handleSubmit.
    destruct (blank base64Image); [cbn; lia|apply Hpart].
  - intros mealDescription base64Image st. unfold IndexJsx.analyzeMeal.
    destruct (_ && _); [cbn; lia|].
    match goal with
    | |- context [IndexJsx.runGeneration ?n ?p ?b ?s ?e ?v] =>
        pose proof (Index_runGeneration_calls n p b s e v) as H;
        destruct (IndexJsx.runGeneration n p b s e v) as [st' t]
    end. exact H.
  - intros notes base64Image st. unfold IndexJsx.analyzeSkin.
    destruct (blank base64Image); [cbn; lia|].
    match goal with
    | |- context [IndexJsx.runGeneration ?n ?p ?b ?s ?e ?v] =>
        pose proof (Index_runGeneration_calls n p b s e v) as H;
        destruct (IndexJsx.runGeneration n p b s e v) as [st' t]
    end. exact H.
Qed.



(** X8.  [generateAIResponse] of unnamed/part_000 and [runGeneration] of
    index.jsx (given a prompt) always end with the spinner off and something
    to show: [isLoading] is false and [aiResponse] is truthy, whether the
    call succeeded, failed or returned no text. *)
Theorem X8_generation_always_answers (net : nat -> FetchResult) :
  (forall currentPrompt imageBase64 systemInstruction enableSearch,
      let st := fst (Part000.generateAIResponse net currentPrompt imageBase64
                       systemInstruction enableSearch) in
      Part000.isLoading st = false /\ JS.truthy (Part000.aiResponse st) = true)
  /\
  (forall prompt base64Image systemInstruction enableSearch st,
      prompt <> "" ->
      let st' := fst (IndexJsx.runGeneration net prompt base64Image systemInstruction
                        enableSearch st) in
      IndexJsx.isLoading st' = false /\ JS.truthy (IndexJsx.aiResponse st') = true /\
      IndexJsx.history st' = IndexJsx.history st).
Proof.
  split.
  - intros. subst st. unfold Part000.generateAIResponse, Part000.generation.
    destruct (Part000.fetchWithBackoff _ _ _) as [[response|e] t]; [|split; reflexivity].
    destruct (response_json response) as [v|e]; [|split; reflexivity].
    destruct (candidate_text v) as [text|e]; [|split; reflexivity].
    destruct (JS.truthy text) eqn:E; split; try reflexivity. exact E.
  - intros prompt base64Image systemInstruction enableSearch st Hprompt st'. subst st'.
    unfold IndexJsx.runGeneration. rewrite (proj2 (String.eqb_neq prompt "") Hprompt).
    unfold IndexJsx.generation.
    destruct (IndexJsx.fetchWithBackoff _ _ _) as [[response|e] t];
      [|repeat split; reflexivity].
    destruct (response_json response) as [v|e]; [|repeat split; reflexivity].
    destruct (candidate_text v) as [text|e]; [|repeat split; reflexivity].
    destruct (JS.truthy text) eqn:E; repeat split; try reflexivity. exact E.
Qed.

Lemma X8_generation_always_answers_witness :
  let net := Platform.always (Rejected (TypeError "Failed to fetch")) in
  JS.truthy (IndexJsx.aiResponse
               (fst (IndexJsx.runGeneration net "consulta" None "sistema" false
                       (IndexJsx.mkView JS.VNull true "" "" nil)))) = true.
Proof.
  intros net.
  destruct (X8_generation_always_answers net) as (_ & Hindex).
  apply (Hindex "consulta" None "sistema" false (IndexJsx.mkView JS.VNull true "" "" nil)).
  discriminate.
Defined.

(** X9.  When the first response is ok and holds a truthy text at
    [candidates[0].content.parts[0].text], that text is the outcome after a
    single call and no delay: [generateContent] and
    [generateMultimodalContent] return it, [generateAIResponse] and
    [runGeneration] display it. *)
Theorem X9_generated_text_is_shown
    (net : nat -> FetchResult) (random : nat -> Q) (r : Response) (text : JS.Value) :
  net 0%nat = Responded r ->
  ok r = true ->
  response_text r = Return text ->
  JS.truthy text = true ->
  (forall payload,
      HealthTrackerApp.generate net random payload
      = (Return text, [Fetch API_URL_TEXT payload]))
  /\
  (forall currentPrompt imageBase64 systemInstruction enableSearch,
      Part000.generateAIResponse net currentPrompt imageBase64 systemInstruction enableSearch
      = (Part000.mkAI text false,
         [Fetch API_URL_TEXT
            (Part000.request_payload currentPrompt imageBase64 systemInstruction
               enableSearch)]))
  /\
  (forall prompt base64Image systemInstruction enableSearch st,
      prompt <> "" ->
      IndexJsx.runGeneration net prompt base64Image systemInstruction enableSearch st
      = (IndexJsx.mkView text false (IndexJsx.message st) (IndexJsx.messageType st)
           (IndexJsx.history st),
         [Fetch API_URL_TEXT
            (IndexJsx.request_payload prompt base64Image systemInstruction enableSearch)])).
Proof.
  intros Hnet Hok Hread Htruthy.
  assert (Hstatus : (status r =? 429)%Z = false).
  { unfold ok in Hok. apply andb_prop in Hok as [_ H]. apply Z.leb_le in H.
    apply Z.eqb_neq. lia. }
  unfold response_text in Hread.
  destruct (response_json r) as [v|e] eqn:Hjson; [|discriminate].
  repeat apply conj.
  - intros payload. unfold HealthTrackerApp.generate, HealthTrackerApp.fetchWithRetry.
    cbn [HealthTrackerApp.fetchWithRetry_from]. rewrite Hnet.
    unfold HealthTrackerApp.attempt. rewrite Hok. cbn [negb]. rewrite Hjson.
    unfold HealthTrackerApp.text_or_throw. rewrite Hread, Htruthy. reflexivity.
  - intros. unfold Part000.generateAIResponse, Part000.generation, Part000.fetchWithBackoff.
    cbn [Part000.fetchWithBackoff_from]. rewrite Hnet.
    unfold Part000.attempt. rewrite Hok. cbn [negb]. rewrite Hjson, Hread, Htruthy.
    reflexivity.
  - intros prompt base64Image systemInstruction enableSearch st Hprompt.
    unfold IndexJsx.runGeneration. rewrite (proj2 (String.eqb_neq prompt "") Hprompt).
    unfold IndexJsx.generation, IndexJsx.fetchWithBackoff.
    cbn [IndexJsx.fetchWithBackoff_from]. rewrite Hnet, Hstatus, Hok. cbn [negb].
    rewrite Hjson, Hread, Htruthy. reflexivity.
Qed.

Lemma X9_generated_text_is_shown_witness :
  let body :=
    JS.VObj [("candidates",
              JS.VArr [JS.VObj [("content",
                                 JS.VObj [("parts",
                                           JS.VArr [JS.VObj [("text", JS.VStr "Desayuno: avena")]])])]])] in
  let net := Platform.always (Responded (Platform.json_response 200 body)) in
  fst (HealthTrackerApp.generateContent net (fun _ => 0%Q) "sistema" "consulta")
  = Return (JS.VStr "Desayuno: avena").
Proof.
  intros body net.
  destruct (X9_generated_text_is_shown net (fun _ => 0%Q)
              (Platform.json_response 200 body) (JS.VStr "Desayuno: avena")
              eq_refl eq_refl eq_refl eq_refl) as (Happ & _).
  unfold HealthTrackerApp.generateContent. rewrite Happ. reflexivity.
Defined.

(** X10.  When the first response is ok but its text cannot be read (the
    body does not parse, or parses to [null], so that reading it throws
    [e]), nothing is retried: after that single call [generateAIResponse]
    and [runGeneration] display "Error al procesar la solicitud: " followed
    by the message of [e], and the generation functions of
    HealthTrackerApp.jsx throw [e]. *)
Theorem X10_unreadable_body_is_reported
    (net : nat -> FetchResult) (random : nat -> Q) (r : Response) (e : Error) :
  net 0%nat = Responded r ->
  ok r = true ->
  response_text r = Throw e ->
  (forall payload,
      HealthTrackerApp.generate net random payload
      = (Throw e, [Fetch API_URL_TEXT payload]))
  /\
  (forall currentPrompt imageBase64 systemInstruction enableSearch,
      Part000.generateAIResponse net currentPrompt imageBase64 systemInstruction enableSearch
      = (Part000.mkAI (JS.VStr ("Error al procesar la solicitud: " +:+ message e)) false,
         [Fetch API_URL_TEXT
            (Part000.request_payload currentPrompt imageBase64 systemInstruction
               enableSearch)]))
  /\
  (forall prompt base64Image systemInstruction enableSearch st,
      prompt <> "" ->
      IndexJsx.runGeneration net prompt base64Image systemInstruction enableSearch st
      = (IndexJsx.mkView (JS.VStr ("Error al procesar la solicitud: " +:+ message e)) false
           (IndexJsx.message st) (IndexJsx.messageType st) (IndexJsx.history st),
         [Fetch API_URL_TEXT
            (IndexJsx.request_payload prompt base64Image systemInstruction enableSearch)])).
Proof.
  intros Hnet Hok Hread.
  assert (Hstatus : (status r =? 429)%Z = false).
  { unfold ok in Hok. apply andb_prop in Hok as [_ H]. apply Z.leb_le in H.
    apply Z.eqb_neq. lia. }
  unfold response_text in Hread.
  repeat apply conj.
  - intros payload. unfold HealthTrackerApp.generate, HealthTrackerApp.fetchWithRetry.
    cbn [HealthTrackerApp.fetchWithRetry_from]. rewrite Hnet.
    unfold HealthTrackerApp.attempt. rewrite Hok. cbn [negb].
    destruct (response_json r) as [v|e']; [|injection Hread as ->; reflexivity].
    unfold HealthTrackerApp.text_or_throw. rewrite Hread. reflexivity.
  - intros. unfold Part000.generateAIResponse, Part000.generation, Part000.fetchWithBackoff.
    cbn [Part000.fetchWithBackoff_from]. rewrite Hnet.
    unfold Part000.attempt. rewrite Hok. cbn [negb].
    destruct (response_json r) as [v|e']; [|injection Hread as ->; reflexivity].
    rewrite Hread. reflexivity.
  - intros prompt base64Image systemInstruction enableSearch st Hprompt.
    unfold IndexJsx.runGeneration. rewrite (proj2 (String.eqb_neq prompt "") Hprompt).
    unfold IndexJsx.generation, IndexJsx.fetchWithBackoff.
    cbn [IndexJsx.fetchWithBackoff_from]. rewrite Hnet, Hstatus, Hok. cbn [negb].
    destruct (response_json r) as [v|e']; [|injection Hread as ->; reflexivity].
    rewrite Hread. reflexivity.
Qed.

Lemma X10_unreadable_body_is_reported_witness :
  let html := mkResponse 200 "<html>" (ParseFail "Unexpected token '<'") in
  let net := Platform.always (Responded html) in
  Part000.generateAIResponse net "consulta" None "sistema" false
  = (Part000.mkAI (JS.VStr "Error al procesar la solicitud: Unexpected token '<'") false,
     [Fetch API_URL_TEXT (Part000.request_payload "consulta" None "sistema" false)]).
Proof.
  intros html net.
  destruct (X10_unreadable_body_is_reported net (fun _ => 0%Q) html
              (SyntaxError "Unexpected token '<'") eq_refl eq_refl eq_refl)
    as (_ & Hpart & _).
  apply Hpart.
Defined.

(** X11.  A tool of HealthTrackerApp.jsx reaches the network exactly when
    its required input is there: the meal planner when the goal is not
    empty, the symptom analyser when the symptom is not empty, the progress
    advice when the history has at least two entries, the two image tools
    when a file is attached and can be read. *)
Theorem X11_network_iff_input_present (net : nat -> FetchResult) (random : nat -> Q) :
  (forall goal ingredients st,
      (1 <= calls (snd (HealthTrackerApp.handlePlanMeal net random goal ingredients st)))%nat
      <-> goal <> "")
  /\ (forall symptom st,
      (1 <= calls (snd (HealthTrackerApp.handleAnalyzeSymptom net random symptom st)))%nat
      <-> symptom <> "")
  /\ (forall weightData st,
      (1 <= calls (snd (HealthTrackerApp.handleGetAdvice net random weightData st)))%nat
      <-> (2 <= List.length weightData)%nat)
  /\ (forall foodImageFile st,
      (1 <= calls (snd (HealthTrackerApp.handleAnalyzeFood net random foodImageFile st)))%nat
      <-> exists file url, foodImageFile = Some file /\ readAsDataURL file = Return url)
  /\ (forall imageFile notes st,
      (1 <= calls (snd (HealthTrackerApp.analyzeSkinImage net random imageFile notes st)))%nat
      <-> exists file url, imageFile = Some file /\ readAsDataURL file = Return url).
Proof.
  assert (Hgen : forall label payload,
             (1 <= calls (snd (HealthTrackerApp.settle label
                                 (HealthTrackerApp.generate net random payload))))%nat).
  { intros. rewrite settle_trace. apply generate_calls. }
  assert (Hnone : ~ (1 <= calls nil)%nat) by (cbn; lia).
  repeat apply conj.
  - intros goal ingredients st. unfold HealthTrackerApp.handlePlanMeal.
    destruct (String.eqb_spec goal "") as [->|Hne]; cbn [snd].
    + split; [intros H; destruct (Hnone H)|intros H; destruct (H eq_refl)].
    + split; [intros _; exact Hne|intros _; apply Hgen].
  - intros symptom st. unfold HealthTrackerApp.handleAnalyzeSymptom.
    destruct (String.eqb_spec symptom "") as [->|Hne]; cbn [snd].
    + split; [intros H; destruct (Hnone H)|intros H; destruct (H eq_refl)].
    + split; [intros _; exact Hne|intros _; apply Hgen].
  - intros weightData st. unfold HealthTrackerApp.handleGetAdvice.
    destruct (Nat.ltb_spec (List.length weightData) 2); cbn [snd].
    + split; [intros H'; destruct (Hnone H')|lia].
    + split; [intros _; assumption|intros _; apply Hgen].
  - intros [file|] st; unfold HealthTrackerApp.handleAnalyzeFood, HealthTrackerApp.fileToBase64;
      cbn [snd].
    + destruct (readAsDataURL file) as [url|e] eqn:E.
      * split; [intros _; exists file, url; split; [reflexivity|exact E]|intros _; apply Hgen].
      * split; [intros H; destruct (Hnone H)|intros (f & u & [= <-] & Hu); congruence].
    + split; [intros H; destruct (Hnone H)|intros (f & u & Hf & _); discriminate Hf].
  - intros [file|] notes st;
      unfold HealthTrackerApp.analyzeSkinImage, HealthTrackerApp.fileToBase64; cbn [snd].
    + destruct (readAsDataURL file) as [url|e] eqn:E.
      * split; [intros _; exists file, url; split; [reflexivity|exact E]|intros _; apply Hgen].
      * split; [intros H; destruct (Hnone H)|intros (f & u & [= <-] & Hu); congruence].
    + split; [intros H; destruct (Hnone H)|intros (f & u & Hf & _); discriminate Hf].
Qed.







(** * Further properties of the store handlers *)

Lemma handleRecord_accepted
    (appId userId : string) (now : Clock) (input : string) (loading : bool)
    (message : string) (store : gmap string WeightDoc) :
  userId <> "" ->
  JS.isNaN (JS.parseFloat input) || JS.leb (JS.parseFloat input) JS.zero = false ->
  HealthTrackerApp.handleRecord appId true (Some userId) now None
    (HealthTrackerApp.mkRecordWeight input loading message) store
  = (HealthTrackerApp.mkRecordWeight "" false "Peso registrado con éxito.",
     <[HealthTrackerApp.weights_collection appId userId +:+ "/" +:+ toISOString now :=
         mkWeightDoc (JS.parseFloat input) (toISOString now) (toLocaleDateString now)]>
       store).
Proof.
  intros Huser Hvalid. unfold HealthTrackerApp.handleRecord, setDoc.
  cbn [negb blank orb HealthTrackerApp.rw_weight].
  rewrite (proj2 (String.eqb_neq userId "") Huser), Hvalid. reflexivity.
Qed.

Lemma handleSaveWeight_accepted
    (appId userId : string) (now : Clock) (input saveMessage : string)
    (store : gmap string WeightDoc) :
  userId <> "" ->
  JS.isNaN (JS.parseFloat input) || JS.leb (JS.parseFloat input) JS.zero = false ->
  Part000.handleSaveWeight appId true (Some userId) now None
    (Part000.mkWeightTracker input saveMessage) store
  = (Part000.mkWeightTracker "" "¡Peso guardado con éxito!",
     <[Part000.weights_collection appId userId +:+ "/" +:+ toISOString now :=
         mkWeightDoc (JS.parseFloat input) (toISOString now) (toLocaleDateString now)]>
       store).
Proof.
  intros Huser Hvalid. unfold Part000.handleSaveWeight, setDoc.
  cbn [negb blank orb Part000.currentWeight].
  rewrite (proj2 (String.eqb_neq userId "") Huser).
  destruct (String.eqb_spec input "") as [->|Hinput]; [discriminate Hvalid|].
  rewrite Hvalid. reflexivity.
Qed.

(** X14.  A valid weight is stored under its timestamp and can be read
    back: when the handle and the user id are set, the input parses to a
    number that is neither NaN nor at most zero, and the store accepts the
    write, [handleRecord] and [handleSaveWeight] clear the input field,
    report success, and leave a store in which the document
    [<weights collection>/<timestamp>] is the entry with the parsed weight
    and the timestamp and locale date of the clock, every other document
    being as before. *)
Theorem X14_valid_weight_is_stored
    (appId userId : string) (now : Clock) (input : string)
    (store : gmap string WeightDoc) :
  userId <> "" ->
  JS.isNaN (JS.parseFloat input) || JS.leb (JS.parseFloat input) JS.zero = false ->
  let entry := mkWeightDoc (JS.parseFloat input) (toISOString now) (toLocaleDateString now) in
  (forall loading message,
      let run := HealthTrackerApp.handleRecord appId true (Some userId) now None
                   (HealthTrackerApp.mkRecordWeight input loading message) store in
      let path := HealthTrackerApp.weights_collection appId userId +:+ "/" +:+
                  toISOString now in
      fst run = HealthTrackerApp.mkRecordWeight "" false "Peso registrado con éxito." /\
      snd run !! path = Some entry /\
      (forall other, other <> path -> snd run !! other = store !! other))
  /\
  (forall saveMessage,
      let run := Part000.handleSaveWeight appId true (Some userId) now None
                   (Part000.mkWeightTracker input saveMessage) store in
      let path := Part000.weights_collection appId userId +:+ "/" +:+ toISOString now in
      fst run = Part000.mkWeightTracker "" "¡Peso guardado con éxito!" /\
      snd run !! path = Some entry /\
      (forall other, other <> path -> snd run !! other = store !! other)).
Proof.
  intros Huser Hvalid entry. split.
  - intros loading message run path. subst run.
    rewrite (handleRecord_accepted _ _ _ _ _ _ _ Huser Hvalid). cbn [fst snd].
    split; [reflexivity|split].
    + apply lookup_insert_eq.
    + intros other Hother. apply lookup_insert_ne.
      intros H. apply Hother. symmetry. exact H.
  - intros saveMessage run path. subst run.
    rewrite (handleSaveWeight_accepted _ _ _ _ _ _ Huser Hvalid). cbn [fst snd].
    split; [reflexivity|split].
    + apply lookup_insert_eq.
    + intros other Hother. apply lookup_insert_ne.
      intros H. apply Hother. symmetry. exact H.
Qed.

Lemma X14_valid_weight_is_stored_witness :
  let now := mkClock "2024-03-01T08:00:00.000Z" "1/3/2024" in
  snd (HealthTrackerApp.handleRecord "default-health-app" true (Some "u1") now None
         (HealthTrackerApp.mkRecordWeight "75.5" false "") ∅)
  !! "artifacts/default-health-app/users/u1/weights/2024-03-01T08:00:00.000Z"
  = Some (mkWeightDoc (JS.parseFloat "75.5") "2024-03-01T08:00:00.000Z" "1/3/2024").
Proof.
  intros now.
  destruct (X14_valid_weight_is_stored "default-health-app" "u1" now "75.5" ∅)
    as (Happ & _).
  - discriminate.
  - reflexivity.
  - exact (proj1 (proj2 (Happ false ""))).
Defined.

(** X15.  When the store rejects the write of a valid weight, nothing is
    stored, the message shows the error of the store, and the input field
    keeps what was typed, so that the user can submit it again. *)
Theorem X15_rejected_write_is_reported
    (appId userId : string) (now : Clock) (input : string) (error : Error)
    (store : gmap string WeightDoc) :
  userId <> "" ->
  JS.isNaN (JS.parseFloat input) || JS.leb (JS.parseFloat input) JS.zero = false ->
  (forall loading message,
      HealthTrackerApp.handleRecord appId true (Some userId) now (Some error)
        (HealthTrackerApp.mkRecordWeight input loading message) store
      = (HealthTrackerApp.mkRecordWeight input false
           ("Error al registrar: " +:+ message_of error), store))
  /\
  (forall saveMessage,
      Part000.handleSaveWeight appId true (Some userId) now (Some error)
        (Part000.mkWeightTracker input saveMessage) store
      = (Part000.mkWeightTracker input ("Error al guardar: " +:+ message_of error), store)).
Proof.
  intros Huser Hvalid. split.
  - intros loading message. unfold HealthTrackerApp.handleRecord, setDoc.
    cbn [negb blank orb HealthTrackerApp.rw_weight].
    rewrite (proj2 (String.eqb_neq userId "") Huser), Hvalid. reflexivity.
  - intros saveMessage. unfold Part000.handleSaveWeight, setDoc.
    cbn [negb blank orb Part000.currentWeight].
    rewrite (proj2 (String.eqb_neq userId "") Huser).
    destruct (String.eqb_spec input "") as [->|Hinput]; [discriminate Hvalid|].
    rewrite Hvalid. reflexivity.
Qed.

Lemma X15_rejected_write_is_reported_witness :
  let now := mkClock "2024-03-01T08:00:00.000Z" "1/3/2024" in
  let denied := mkError "FirebaseError" "Missing or insufficient permissions." in
  HealthTrackerApp.handleRecord "default-health-app" true (Some "u1") now (Some denied)
    (HealthTrackerApp.mkRecordWeight "80" false "") ∅
  = (HealthTrackerApp.mkRecordWeight "80" false
       "Error al registrar: Missing or insufficient permissions.", ∅).
Proof.
  intros now denied.
  apply (proj1 (X15_rejected_write_is_reported "default-health-app" "u1" now "80" denied ∅
                  ltac:(discriminate) eq_refl)).
Defined.

(** X16.  The timestamp is the identity of a weight entry: of two valid
    weights recorded by [handleRecord] one after the other, the second is
    always found under its timestamp; when both carry the same timestamp the
    second replaces the first and the store has no more documents than
    after the first; when the timestamps differ the first is still found
    under its own. *)
Theorem X16_timestamp_identifies_the_entry
    (appId userId : string) (now1 now2 : Clock) (input1 input2 : string)
    (store : gmap string WeightDoc) :
  userId <> "" ->
  JS.isNaN (JS.parseFloat input1) || JS.leb (JS.parseFloat input1) JS.zero = false ->
  JS.isNaN (JS.parseFloat input2) || JS.leb (JS.parseFloat input2) JS.zero = false ->
  let collection := HealthTrackerApp.weights_collection appId userId +:+ "/" in
  let store1 :=
    snd (HealthTrackerApp.handleRecord appId true (Some userId) now1 None
           (HealthTrackerApp.mkRecordWeight input1 false "") store) in
  let store2 :=
    snd (HealthTrackerApp.handleRecord appId true (Some userId) now2 None
           (HealthTrackerApp.mkRecordWeight input2 false "") store1) in
  (weight <$> store2 !! (collection +:+ toISOString now2)) = Some (JS.parseFloat input2) /\
  (toISOString now1 = toISOString now2 -> dom store2 = dom store1) /\
  (toISOString now1 <> toISOString now2 ->
   (weight <$> store2 !! (collection +:+ toISOString now1)) = Some (JS.parseFloat input1)).
Proof.
  intros Huser Hvalid1 Hvalid2 collection store1 store2.
  subst store2 store1.
  rewrite (handleRecord_accepted _ _ now1 _ _ _ _ Huser Hvalid1). cbn [snd].
  rewrite (handleRecord_accepted _ _ now2 _ _ _ _ Huser Hvalid2). cbn [snd].
  assert (Hpath : forall t, HealthTrackerApp.weights_collection appId userId +:+ "/" +:+ t
                            = collection +:+ t).
  { intros t. subst collection. rewrite append_assoc. reflexivity. }
  rewrite !Hpath. split; [|split].
  - rewrite lookup_insert_eq. reflexivity.
  - intros ->. rewrite insert_insert_eq, !dom_insert_L. reflexivity.
  - intros Hne. rewrite lookup_insert_ne, lookup_insert_eq; [reflexivity|].
    intros H. apply String.app_inj in H. congruence.
Qed.

Lemma X16_timestamp_identifies_the_entry_witness :
  let at8 := mkClock "2024-03-01T08:00:00.000Z" "1/3/2024" in
  let store2 :=
    snd (HealthTrackerApp.handleRecord "app" true (Some "u1") at8 None
           (HealthTrackerApp.mkRecordWeight "79" false "")
           (snd (HealthTrackerApp.handleRecord "app" true (Some "u1") at8 None
                   (HealthTrackerApp.mkRecordWeight "80" false "") ∅))) in
  (weight <$> store2 !! "artifacts/app/users/u1/weights/2024-03-01T08:00:00.000Z")
  = Some (JS.parseFloat "79").
Proof.
  intros at8 store2.
  apply (proj1 (X16_timestamp_identifies_the_entry "app" "u1" at8 at8 "80" "79" ∅
                  ltac:(discriminate) eq_refl eq_refl)).
Defined.

(** * Saving a record in index.jsx *)

Lemma analysis_to_save_truthy (v : JS.Value) :
  JS.truthy (IndexJsx.analysis_to_save v) = true.
Proof.
  unfold IndexJsx.analysis_to_save. destruct (JS.truthy v) eqn:E; [exact E|reflexivity].
Qed.

(** X17.  Whatever the state of the form, the clock, and the verdict of the
    store, a record found in the store after [saveRecord] or
    [saveSkinRecord] was either there before, unchanged, or is well formed:
    it has a description or an image, a non-empty analysis (the text
    "Análisis pendiente" when none was generated) and the timestamp of the
    clock; a record written by [saveSkinRecord] always has an image. *)
Theorem X17_saved_records_are_well_formed
    (appId : string) (db : bool) (userId : option string) (now : Clock) (newId : string)
    (verdict : option Error) (st : IndexJsx.SaveState)
    (store : gmap string IndexJsx.SavedRecord) (path : string) (r : IndexJsx.SavedRecord) :
  (snd (IndexJsx.saveRecord appId db userId now newId verdict st store) !! path = Some r ->
   store !! path = Some r \/ well_formed_record now r)
  /\
  (snd (IndexJsx.saveSkinRecord appId db userId now newId verdict st store) !! path = Some r ->
   store !! path = Some r \/
   (well_formed_record now r /\ IndexJsx.saved_hasImage r = true)).
Proof.
  split.
  - unfold IndexJsx.saveRecord, setDoc.
    destruct (negb db || blank userId); [left; assumption|].
    destruct (String.eqb_spec (IndexJsx.form_text (IndexJsx.form st)) "") as [Htext|Htext];
      cbn [andb].
    + destruct (blank (IndexJsx.base64Image (IndexJsx.form st))) eqn:Himage;
        [left; assumption|].
      destruct verdict; cbn [snd]; [left; assumption|].
      intros [(_ & <-)|(_ & H)]%lookup_insert_Some; [right|left; exact H].
      split; [right; reflexivity|].
      split; [apply analysis_to_save_truthy|reflexivity].
    + destruct verdict; cbn [snd]; [left; assumption|].
      intros [(_ & <-)|(_ & H)]%lookup_insert_Some; [right|left; exact H].
      split; [left; exact Htext|].
      split; [apply analysis_to_save_truthy|reflexivity].
  - unfold IndexJsx.saveSkinRecord, setDoc.
    destruct (negb db || blank userId); [left; assumption|].
    destruct (blank (IndexJsx.base64Image (IndexJsx.form st))); [left; assumption|].
    destruct verdict; cbn [snd]; [left; assumption|].
    intros [(_ & <-)|(_ & H)]%lookup_insert_Some; [right|left; exact H].
    split; [|reflexivity]. split; [right; reflexivity|].
    split; [apply analysis_to_save_truthy|reflexivity].
Qed.

Lemma X17_saved_records_are_well_formed_witness :
  let now := mkClock "2024-03-01T08:00:00.000Z" "1/3/2024" in
  let st := IndexJsx.mkSave (IndexJsx.mkForm "avena con fruta" None None)
              (IndexJsx.mkView JS.VNull false "" "" nil) false in
  let r := IndexJsx.mkSaved "avena con fruta" (JS.VStr "Análisis pendiente")
             "2024-03-01T08:00:00.000Z" false in
  (∅ : gmap string IndexJsx.SavedRecord) !! "artifacts/app/users/u1/nutrition_history/d1"
  = Some r \/ well_formed_record now r.
Proof.
  intros now st r.
  apply (proj1 (X17_saved_records_are_well_formed "app" true (Some "u1") now "d1" None st ∅
                  "artifacts/app/users/u1/nutrition_history/d1" r)).
  vm_compute. reflexivity.
Defined.

(** X18.  The form is cleared only when the record was stored: after
    [saveRecord] or [saveSkinRecord], either the store is as before and the
    form (text and image) and the analysis are kept (missing handle or
    user, invalid form, or a write the store refused), or the store
    accepted the write and holds, under the new identifier, the record made
    of the text of the form, the analysis shown ("Análisis pendiente" when
    there is none), the timestamp of the clock and the flag [hasImage], and
    the form and the analysis are cleared with the success message.  The
    image itself is not part of the record: of an attached image only the
    flag is stored (always set by [saveSkinRecord]).  The history shown is
    never touched by the save itself. *)
Theorem X18_form_is_cleared_only_when_stored
    (appId : string) (db : bool) (userId : option string) (now : Clock) (newId : string)
    (verdict : option Error) (st : IndexJsx.SaveState)
    (store : gmap string IndexJsx.SavedRecord) :
  let shown := IndexJsx.aiResponse (IndexJsx.view st) in
  let outcome (collectionName : string) (hasImage : bool) (done : string)
              (run : IndexJsx.SaveState * gmap string IndexJsx.SavedRecord) :=
    IndexJsx.history (IndexJsx.view (fst run)) = IndexJsx.history (IndexJsx.view st) /\
    ((snd run = store /\ input_kept st (fst run)) \/
     (exists uid,
         userId = Some uid /\ verdict = None /\
         snd run = <["artifacts/" +:+ appId +:+ "/users/" +:+ uid +:+ "/" +:+
                     collectionName +:+ "/" +:+ newId :=
                       {| IndexJsx.saved_text := IndexJsx.form_text (IndexJsx.form st);
                          IndexJsx.saved_analysis :=
                            if JS.truthy shown then shown else JS.VStr "Análisis pendiente";
                          IndexJsx.saved_timestamp := toISOString now;
                          IndexJsx.saved_hasImage := hasImage |}]> store /\
         input_cleared (fst run) /\
         IndexJsx.message (IndexJsx.view (fst run)) = done)) in
  outcome "nutrition_history"
    (negb (blank (IndexJsx.base64Image (IndexJsx.form st))))
    "¡Registro guardado exitosamente!"
    (IndexJsx.saveRecord appId db userId now newId verdict st store) /\
  outcome "skin_journal" true "¡Registro de piel guardado exitosamente!"
    (IndexJsx.saveSkinRecord appId db userId now newId verdict st store).
Proof.
  assert (Hpath : forall uid name,
             ("artifacts/" +:+ appId +:+ "/users/" +:+ uid +:+ "/" +:+ name) +:+ "/" +:+ newId
             = "artifacts/" +:+ appId +:+ "/users/" +:+ uid +:+ "/" +:+ name +:+ "/" +:+ newId).
  { intros uid name. rewrite <- !append_assoc. reflexivity. }
  assert (Hkept : forall type msg saving, input_kept st (IndexJsx.report st type msg saving)).
  { intros. split; reflexivity. }
  cbv zeta. split.
  - unfold IndexJsx.saveRecord, setDoc.
    destruct (negb db || blank userId) eqn:Hguard;
      [split; [reflexivity|left; split; [reflexivity|split; reflexivity]]|].
    destruct (_ && _); [split; [reflexivity|left; split; [reflexivity|apply Hkept]]|].
    destruct verdict as [e|]; cbn [fst snd];
      [split; [reflexivity|left; split; [reflexivity|apply Hkept]]|].
    split; [reflexivity|right].
    destruct userId as [uid|]; [|destruct db; discriminate Hguard].
    exists uid. split; [reflexivity|]. split; [reflexivity|].
    split; [apply (f_equal (fun p => <[p := _]> store)), (Hpath uid "nutrition_history")|].
    repeat split.
  - unfold IndexJsx.saveSkinRecord, setDoc.
    destruct (negb db || blank userId) eqn:Hguard;
      [split; [reflexivity|left; split; [reflexivity|split; reflexivity]]|].
    destruct (blank (IndexJsx.base64Image (IndexJsx.form st)));
      [split; [reflexivity|left; split; [reflexivity|apply Hkept]]|].
    destruct verdict as [e|]; cbn [fst snd];
      [split; [reflexivity|left; split; [reflexivity|apply Hkept]]|].
    split; [reflexivity|right].
    destruct userId as [uid|]; [|destruct db; discriminate Hguard].
    exists uid. split; [reflexivity|]. split; [reflexivity|].
    split; [apply (f_equal (fun p => <[p := _]> store)), (Hpath uid "skin_journal")|].
    repeat split.
Qed.

(** * What the listeners leave in the state *)

Section Extremes.

Context {A : Type}.
Variable key : A -> Z.

Lemma last_In (x0 : A) (l : list A) : l <> nil -> In (List.last l x0) l.
Proof.
  induction l as [|x [|y l] IH]; intros Hl; [contradiction|left; reflexivity|].
  right. apply IH. discriminate.
Qed.

Lemma sorted_head_least (x : A) (l : list A) :
  StronglySorted (fun a b => (key a <= key b)%Z) (x :: l) ->
  forall d, In d (x :: l) -> (key x <= key d)%Z.
Proof.
  intros Hsorted d [<-|Hd]; [lia|].
  apply StronglySorted_inv in Hsorted as (_ & Hall).
  rewrite List.Forall_forall in Hall. apply Hall, Hd.
Qed.

Lemma sorted_last_greatest (x0 : A) (l : list A) :
  StronglySorted (fun a b => (key a <= key b)%Z) l ->
  forall d, In d l -> (key d <= key (List.last l x0))%Z.
Proof.
  induction 1 as [|x l Hsorted IH Hall]; intros d Hd; [destruct Hd|].
  destruct l as [|y l]; [destruct Hd as [<-|[]]; cbn; lia|].
  change (List.last (x :: y :: l) x0) with (List.last (y :: l) x0).
  destruct Hd as [<-|Hd]; [|apply IH, Hd].
  rewrite List.Forall_forall in Hall. apply Hall, last_In. discriminate.
Qed.

(** A sorted list is spanned by its first and its last record. *)
Lemma sorted_spans (x : A) (l : list A) :
  StronglySorted (fun a b => (key a <= key b)%Z) (x :: l) ->
  spans key (x :: l) x (List.last (x :: l) x).
Proof.
  intros Hsorted. split; [left; reflexivity|]. split; [apply last_In; discriminate|].
  intros d Hd. split; [apply (sorted_head_least x l Hsorted d Hd)|].
  apply (sorted_last_greatest x (x :: l) Hsorted d Hd).
Qed.

Lemma spans_Permutation (l l' : list A) (first last : A) :
  Permutation l l' -> spans key l' first last -> spans key l first last.
Proof.
  intros Hperm (Hfirst & Hlast & Hall). symmetry in Hperm.
  split; [apply (Permutation_in _ Hperm), Hfirst|].
  split; [apply (Permutation_in _ Hperm), Hlast|].
  intros d Hd. apply Hall. symmetry in Hperm. apply (Permutation_in _ Hperm), Hd.
Qed.

Lemma last_map_Some_cons (l : list A) (x d : A) :
  List.last (List.map Some (x :: l)) None = Some (List.last (x :: l) d).
Proof.
  revert x. induction l as [|y l IH]; intros x; [reflexivity|].
  change (List.last (List.map Some (y :: l)) None = Some (List.last (y :: l) d)).
  apply IH.
Qed.

Lemma last_map_Some (l : list A) :
  List.last (List.map Some l) None
  = match l with
    | nil => None
    | x :: _ => Some (List.last l x)
    end.
Proof.
  destruct l as [|x l]; [reflexivity|]. apply last_map_Some_cons.
Qed.

Lemma StronglySorted_weaken (R R' : A -> A -> Prop) (l : list A) :
  (forall a b, R a b -> R' a b) -> StronglySorted R l -> StronglySorted R' l.
Proof.
  intros HR. induction 1 as [|x l Hsorted IH Hall]; constructor; [exact IH|].
  eapply Forall_impl; [exact Hall|]. apply HR.
Qed.

End Extremes.

(** X20.  The progress [WeightHistory] shows spans the whole history: when
    the listener of HealthTrackerApp.jsx has materialized a snapshot whose
    timestamps are all valid, [WeightHistory] shows the "no records" text
    exactly for the empty snapshot, and otherwise its initial weight is that
    of a record of least timestamp, its current weight that of a record of
    greatest timestamp, the difference is the one minus the other, and the
    rows of the table are the records of the snapshot, newest first. *)
Theorem X20_progress_spans_the_history
    (Date_parse : string -> JS.Date) (snapshot : list (Doc WeightDoc))
    (st : HealthTrackerApp.AppState) :
  (forall doc, In doc snapshot -> is_Some (Date_parse (timestamp (data doc)))) ->
  let time := fun d : WeightDoc => time_of Date_parse (timestamp d) in
  match HealthTrackerApp.WeightHistory Date_parse
          (HealthTrackerApp.weightData
             (HealthTrackerApp.onSnapshot_next Date_parse snapshot st)) with
  | None => snapshot = nil
  | Some view =>
      (exists first last,
          spans time (List.map data snapshot) first last /\
          HealthTrackerApp.initialWeight view = weight first /\
          HealthTrackerApp.currentWeight view = weight last /\
          HealthTrackerApp.difference view = JS.sub (weight last) (weight first)) /\
      Permutation (List.map data snapshot) (HealthTrackerApp.sortedData view) /\
      StronglySorted (fun a b => (time b <= time a)%Z) (HealthTrackerApp.sortedData view)
  end.
Proof.
  intros Hvalid time.
  assert (Hdata : forall d, In d (List.map data snapshot) -> is_Some (Date_parse (timestamp d))).
  { intros d Hd. apply in_map_iff in Hd as (doc & <- & Hdoc). apply Hvalid, Hdoc. }
  destruct (sort_agrees time _ _ (ascending_by_time Date_parse _ Hdata))
    as (Hperm & Hsorted & _).
  cbn [HealthTrackerApp.onSnapshot_next HealthTrackerApp.weightData].
  destruct (JS.sort (HealthTrackerApp.ascending Date_parse) (List.map data snapshot))
    as [|x l] eqn:E.
  - cbn [HealthTrackerApp.WeightHistory]. symmetry in Hperm. apply Permutation_nil in Hperm.
    destruct snapshot; [reflexivity|discriminate Hperm].
  - cbn [HealthTrackerApp.WeightHistory]. split; [|split].
    + exists x, (List.last (x :: l) x). split; [|repeat split].
      apply (spans_Permutation time _ _ _ _ Hperm), sorted_spans, Hsorted.
    + cbn [HealthTrackerApp.sortedData]. rewrite Hperm. apply sort_Permutation.
    + cbn [HealthTrackerApp.sortedData].
      assert (Hl : forall d, In d (x :: l) -> is_Some (Date_parse (timestamp d))).
      { intros d Hd. apply Hdata. symmetry in Hperm. apply (Permutation_in _ Hperm), Hd. }
      destruct (sort_agrees (fun d => (- time d)%Z) _ _
                  (descending_by_time Date_parse _ Hl)) as (_ & Hdesc & _).
      revert Hdesc. apply StronglySorted_weaken. intros a b Hab. lia.
Qed.

Lemma X20_progress_spans_the_history_witness :
  let e1 := mkDoc "2024-03-01T08:00:00.000Z"
              (mkWeightDoc (JS.of_Z 80) "2024-03-01T08:00:00.000Z" "1/3/2024") in
  let e2 := mkDoc "2024-03-08T08:00:00.000Z"
              (mkWeightDoc (JS.of_Z 78) "2024-03-08T08:00:00.000Z" "8/3/2024") in
  match HealthTrackerApp.WeightHistory Platform.Date_parse
          (HealthTrackerApp.weightData
             (HealthTrackerApp.onSnapshot_next Platform.Date_parse [e2; e1]
                (HealthTrackerApp.mkApp nil))) with
  | None => False
  | Some view => Permutation [data e2; data e1] (HealthTrackerApp.sortedData view)
  end.
Proof.
  intros e1 e2.
  pose proof (X20_progress_spans_the_history Platform.Date_parse [e2; e1]
                (HealthTrackerApp.mkApp nil)) as H.
  cbv zeta in H.
  destruct (HealthTrackerApp.WeightHistory _ _) as [view|].
  - apply H. intros doc [<-|[<-|[]]]; vm_compute; eexists; reflexivity.
  - discriminate H. intros doc [<-|[<-|[]]]; vm_compute; eexists; reflexivity.
Defined.

(** X21.  The progress [WeightTracker] of unnamed/part_000 shows spans the
    whole history: after the listener has materialized a snapshot whose
    timestamps are all valid, the number of entries is that of the snapshot,
    and when it is not empty the initial weight is that of a record of least
    timestamp, the latest weight that of a record of greatest timestamp, and
    the change is the one minus the other. *)
Theorem X21_WeightTracker_spans_the_history
    (Date_parse : string -> JS.Date) (snapshot : list (Doc WeightDoc))
    (st : Part000.AppState) :
  (forall doc, In doc snapshot -> is_Some (Date_parse (timestamp (data doc)))) ->
  let progress :=
    Part000.WeightTracker (Part000.weightData (Part000.onSnapshot_next Date_parse snapshot st)) in
  Part000.totalEntries progress = List.length snapshot /\
  (snapshot <> nil ->
   exists first last,
     spans (fun d => time_of Date_parse (timestamp (data d))) snapshot first last /\
     Part000.initialWeight progress = weight (data first) /\
     Part000.latestWeight progress = weight (data last) /\
     Part000.change progress = JS.sub (weight (data last)) (weight (data first))).
Proof.
  intros Hvalid progress. subst progress.
  destruct (sort_agrees _ _ _ (Part000_ascending_by_time Date_parse snapshot Hvalid))
    as (Hperm & Hsorted & _).
  cbn [Part000.onSnapshot_next Part000.weightData].
  unfold Part000.WeightTracker. cbn [Part000.totalEntries Part000.initialWeight
                                     Part000.latestWeight Part000.change].
  split; [symmetry; apply Permutation_length, Hperm|].
  intros Hne. rewrite last_map_Some.
  destruct (JS.sort (Part000.ascending Date_parse) snapshot) as [|x l] eqn:E.
  - symmetry in Hperm. apply Permutation_nil in Hperm. contradiction.
  - exists x, (List.last (x :: l) x). split; [|repeat split].
    apply (spans_Permutation _ _ _ _ _ Hperm), sorted_spans, Hsorted.
Qed.

Lemma X21_WeightTracker_spans_the_history_witness :
  let e1 := mkDoc "2024-03-01T08:00:00.000Z"
              (mkWeightDoc (JS.of_Z 80) "2024-03-01T08:00:00.000Z" "1/3/2024") in
  let e2 := mkDoc "2024-03-08T08:00:00.000Z"
              (mkWeightDoc (JS.of_Z 78) "2024-03-08T08:00:00.000Z" "8/3/2024") in
  Part000.totalEntries
    (Part000.WeightTracker
       (Part000.weightData
          (Part000.onSnapshot_next Platform.Date_parse [e2; e1] (Part000.mkApp nil))))
  = 2%nat.
Proof.
  intros e1 e2.
  apply (X21_WeightTracker_spans_the_history Platform.Date_parse [e2; e1] (Part000.mkApp nil)).
  intros doc [<-|[<-|[]]]; vm_compute; eexists; reflexivity.
Defined.

Lemma materialize_skin_timestamped
    (Date_parse : string -> JS.Date) (now now' : Z) (doc : Doc IndexJsx.SkinDoc) :
  skin_timestamped Date_parse (data doc) ->
  IndexJsx.materialize_skin Date_parse now doc = IndexJsx.materialize_skin Date_parse now' doc
  /\ is_Some (IndexJsx.item_timestamp (IndexJsx.materialize_skin Date_parse now doc)).
Proof.
  intros (ts & Hts & Hne & Hvalid). unfold IndexJsx.materialize_skin. rewrite Hts.
  cbn [blank default]. rewrite (proj2 (String.eqb_neq ts "") Hne). cbn.
  split; [reflexivity|exact Hvalid].
Qed.

(** X22.  The skin journal of index.jsx is shown newest first: when every
    document of the snapshot carries a valid timestamp, the history the
    [SkinJournal] listener materializes is the snapshot's entries in the
    stable descending order of the timestamp, and it depends neither on the
    time of the delivery nor on the state before it, so that a second
    delivery of the same snapshot changes nothing. *)
Theorem X22_skin_journal_is_newest_first
    (Date_parse : string -> JS.Date) (snapshot : list (Doc IndexJsx.SkinDoc))
    (st st' : IndexJsx.ViewState) (now now' : Z) :
  (forall doc, In doc snapshot -> skin_timestamped Date_parse (data doc)) ->
  sorted_stably_by (fun i => (- item_time i)%Z)
    (List.map (IndexJsx.materialize_skin Date_parse now) snapshot)
    (IndexJsx.history (IndexJsx.SkinJournal_onSnapshot_next Date_parse now snapshot st))
  /\ IndexJsx.SkinJournal_onSnapshot_next Date_parse now' snapshot
       (IndexJsx.SkinJournal_onSnapshot_next Date_parse now snapshot st)
     = IndexJsx.SkinJournal_onSnapshot_next Date_parse now snapshot st
  /\ IndexJsx.history (IndexJsx.SkinJournal_onSnapshot_next Date_parse now' snapshot st')
     = IndexJsx.history (IndexJsx.SkinJournal_onSnapshot_next Date_parse now snapshot st).
Proof.
  intros Hvalid.
  assert (Hmap : List.map (IndexJsx.materialize_skin Date_parse now') snapshot
                 = List.map (IndexJsx.materialize_skin Date_parse now) snapshot).
  { apply map_ext_in. intros doc Hdoc.
    apply (materialize_skin_timestamped Date_parse now' now doc), Hvalid, Hdoc. }
  split; [|split].
  - apply sort_agrees, Index_descending_by_time.
    intros i Hi. apply in_map_iff in Hi as (doc & <- & Hdoc).
    apply (materialize_skin_timestamped Date_parse now now doc), Hvalid, Hdoc.
  - unfold IndexJsx.SkinJournal_onSnapshot_next. cbn. rewrite Hmap. reflexivity.
  - unfold IndexJsx.SkinJournal_onSnapshot_next. cbn. rewrite Hmap. reflexivity.
Qed.

Lemma X22_skin_journal_is_newest_first_witness :
  let s1 := mkDoc "s1" (IndexJsx.mkSkin "mejilla seca" "Análisis pendiente"
                          (Some "2024-03-01T08:00:00.000Z") true) in
  let s2 := mkDoc "s2" (IndexJsx.mkSkin "" "Análisis pendiente"
                          (Some "2024-03-08T08:00:00.000Z") true) in
  let view := IndexJsx.mkView JS.VNull false "" "" nil in
  IndexJsx.history (IndexJsx.SkinJournal_onSnapshot_next Platform.Date_parse 2000 [s1; s2] view)
  = IndexJsx.history (IndexJsx.SkinJournal_onSnapshot_next Platform.Date_parse 1000 [s1; s2] view).
Proof.
  intros s1 s2 view.
  apply (X22_skin_journal_is_newest_first Platform.Date_parse [s1; s2] view view 1000%Z 2000%Z).
  intros doc [<-|[<-|[]]]; eexists; (split; [reflexivity|]);
    (split; [discriminate|]); vm_compute; eexists; reflexivity.
Defined.

(** * Authentication and the subscriptions *)

Lemma authenticate_requests_bound
    (initialAuthToken : option string) (withToken : option Error)
    (anonymous : nat -> option Error) :
  (List.length (snd (HealthTrackerApp.authenticate initialAuthToken withToken anonymous))
   <= 2)%nat.
Proof.
  unfold HealthTrackerApp.authenticate.
  destruct (negb (blank initialAuthToken)).
  - destruct withToken; [destruct (anonymous 0%nat)|]; cbn; lia.
  - destruct (anonymous 0%nat); [destruct (anonymous 1%nat)|]; cbn; lia.
Qed.

(** X23.  [authenticate] of HealthTrackerApp.jsx sends one sign-in request,
    or two: the first carries the custom token exactly when a non-empty one
    is configured, every further request is anonymous, a second request is
    sent exactly when the first was refused, and the promise rejects only
    when that anonymous fallback was refused too. *)
Theorem X23_authenticate_falls_back_once
    (initialAuthToken : option string) (withToken : option Error)
    (anonymous : nat -> option Error) :
  let run := HealthTrackerApp.authenticate initialAuthToken withToken anonymous in
  let first := if blank initialAuthToken then anonymous 0%nat else withToken in
  let fallback := anonymous (if blank initialAuthToken then 1%nat else 0%nat) in
  (forall token, List.head (snd run) = Some (HealthTrackerApp.WithCustomToken token) <->
                 initialAuthToken = Some token /\ token <> "") /\
  (forall request, In request (List.tl (snd run)) -> request = HealthTrackerApp.Anonymously) /\
  (first = None -> fst run = Return tt /\ List.length (snd run) = 1%nat) /\
  (first <> None -> List.length (snd run) = 2%nat /\
                    fst run = match fallback with
                              | None => Return tt
                              | Some e => Throw e
                              end).
Proof.
  unfold HealthTrackerApp.authenticate.
  destruct initialAuthToken as [token|]; cbn [blank negb default from_option].
  - destruct (String.eqb_spec token "") as [->|Htoken]; cbn [negb].
    + repeat apply conj.
      * intros t. split.
        -- destruct (anonymous 0%nat); [destruct (anonymous 1%nat)|]; discriminate.
        -- intros ([= <-] & H). contradiction.
      * intros request.
        destruct (anonymous 0%nat); [destruct (anonymous 1%nat)|];
          cbn; intros [<-|[]] || intros []; reflexivity.
      * intros ->. split; reflexivity.
      * intros H. destruct (anonymous 0%nat); [|contradiction].
        destruct (anonymous 1%nat); split; reflexivity.
    + repeat apply conj.
      * intros t. split.
        -- destruct withToken; [destruct (anonymous 0%nat)|]; cbn;
             intros [= <-]; (split; [reflexivity|exact Htoken]).
        -- intros ([= <-] & _).
           destruct withToken; [destruct (anonymous 0%nat)|]; reflexivity.
      * intros request.
        destruct withToken; [destruct (anonymous 0%nat)|];
          cbn; intros [<-|[]] || intros []; reflexivity.
      * intros ->. split; reflexivity.
      * intros H. destruct withToken; [|contradiction].
        destruct (anonymous 0%nat); split; reflexivity.
  - repeat apply conj.
    + intros t. split.
      * destruct (anonymous 0%nat); [destruct (anonymous 1%nat)|]; discriminate.
      * intros (H & _). discriminate H.
    + intros request.
      destruct (anonymous 0%nat); [destruct (anonymous 1%nat)|];
        cbn; intros [<-|[]] || intros []; reflexivity.
    + intros ->. split; reflexivity.
    + intros H. destruct (anonymous 0%nat); [|contradiction].
      destruct (anonymous 1%nat); split; reflexivity.
Qed.

Lemma X23_authenticate_falls_back_once_witness :
  let expired := mkError "FirebaseError" "auth/invalid-custom-token" in
  let run := HealthTrackerApp.authenticate (Some "tok") (Some expired) (fun _ => None) in
  List.length (snd run) = 2%nat /\ fst run = Return tt.
Proof.
  intros expired run.
  apply (proj2 (proj2 (proj2 (X23_authenticate_falls_back_once
                                (Some "tok") (Some expired) (fun _ => None))))).
  discriminate.
Defined.

(** X24.  The set-up effect of HealthTrackerApp.jsx never leaves the UI
    waiting and never invents a user: [initialize] leaves the user id as it
    was and sends at most two sign-in requests (none without an API key or
    when the set-up throws); when it returns, either [isAuthReady] is set,
    or a sign-in has succeeded, and then the callback of
    [onAuthStateChanged] sets [isAuthReady] together with a user id, the uid
    of the user or a random UUID. *)
Theorem X24_initialize_never_blocks_the_UI
    (apiKey : bool) (setup : option Error) (initialAuthToken : option string)
    (withToken : option Error) (anonymous : nat -> option Error)
    (st : HealthTrackerApp.AuthState) :
  let run := HealthTrackerApp.initialize apiKey setup initialAuthToken withToken anonymous st in
  HealthTrackerApp.userId (fst run) = HealthTrackerApp.userId st /\
  (List.length (snd run) <= 2)%nat /\
  (apiKey = false \/ setup <> None ->
   snd run = nil /\ HealthTrackerApp.isAuthReady (fst run) = true) /\
  (HealthTrackerApp.isAuthReady (fst run) = true \/
   (fst run = st /\
    fst (HealthTrackerApp.authenticate initialAuthToken withToken anonymous) = Return tt)) /\
  (forall user randomUUID,
      HealthTrackerApp.onAuthStateChanged_callback user randomUUID (fst run)
      = HealthTrackerApp.mkAuth (Some (default randomUUID user)) true).
Proof.
  cbv zeta. unfold HealthTrackerApp.initialize.
  assert (Hcallback : forall (s : HealthTrackerApp.AuthState) user randomUUID,
             HealthTrackerApp.onAuthStateChanged_callback user randomUUID s
             = HealthTrackerApp.mkAuth (Some (default randomUUID user)) true).
  { intros s [uid|] randomUUID; reflexivity. }
  destruct apiKey; cbn [negb].
  - destruct setup as [e|].
    + cbn [fst snd HealthTrackerApp.userId HealthTrackerApp.isAuthReady List.length].
      split; [reflexivity|]. split; [lia|]. split; [intros _; split; reflexivity|].
      split; [left; reflexivity|apply Hcallback].
    + pose proof (authenticate_requests_bound initialAuthToken withToken anonymous) as Hlen.
      destruct (HealthTrackerApp.authenticate initialAuthToken withToken anonymous)
        as [[[]|e] requests]; cbn [fst snd] in *.
      * split; [reflexivity|]. split; [exact Hlen|].
        split; [intros [H|H]; [discriminate H|contradiction]|].
        split; [right; split; reflexivity|apply Hcallback].
      * split; [reflexivity|]. split; [exact Hlen|].
        split; [intros [H|H]; [discriminate H|contradiction]|].
        split; [left; reflexivity|apply Hcallback].
  - cbn [fst snd HealthTrackerApp.userId HealthTrackerApp.isAuthReady List.length].
    split; [reflexivity|]. split; [lia|]. split; [intros _; split; reflexivity|].
    split; [left; reflexivity|apply Hcallback].
Qed.

Lemma X24_initialize_never_blocks_the_UI_witness :
  let run := HealthTrackerApp.initialize false None None None (fun _ => None)
               (HealthTrackerApp.mkAuth None false) in
  snd run = nil /\ HealthTrackerApp.isAuthReady (fst run) = true.
Proof.
  intros run.
  apply (proj1 (proj2 (proj2 (X24_initialize_never_blocks_the_UI false None None None
                                (fun _ => None) (HealthTrackerApp.mkAuth None false))))).
  left. reflexivity.
Defined.

(** X25.  The callback of [onAuthStateChanged] in unnamed/part_000 always
    releases the UI: whatever the sign-ins answer, [isAuthReady] is set when
    it is done, also when it rejects.  The uid of a signed-in user becomes
    the user id, as does the uid of the credential of an accepted token, and
    without a token that of the anonymous sign-in ("anonymous-error" when it
    is refused); the callback rejects only when a custom token is configured
    and both the token and the anonymous sign-in are refused, and then the
    user id is as before. *)
Theorem X25_Part000_callback_releases_the_UI
    (user initialAuthToken : option string) (withToken anonymous : Result string)
    (st : Part000.AuthState) :
  let run := Part000.onAuthStateChanged_callback user initialAuthToken withToken anonymous st in
  Part000.isAuthReady (fst run) = true /\
  (forall uid, user = Some uid -> fst run = Part000.mkAuth (Some uid) true) /\
  (user = None -> blank initialAuthToken = true ->
   Part000.userId (fst run)
   = Some (match anonymous with Return uid => uid | Throw _ => "anonymous-error" end)) /\
  (user = None -> blank initialAuthToken = false ->
   forall uid, withToken = Return uid -> Part000.userId (fst run) = Some uid) /\
  (forall e, snd run = Some e ->
             user = None /\ blank initialAuthToken = false /\
             is_Throw withToken = true /\ anonymous = Throw e /\
             Part000.userId (fst run) = Part000.userId st).
Proof.
  cbv zeta. unfold Part000.onAuthStateChanged_callback.
  destruct user as [uid|].
  - cbn. split; [reflexivity|]. split; [intros ? [= <-]; reflexivity|].
    split; [discriminate|]. split; [discriminate|discriminate].
  - destruct (blank initialAuthToken) eqn:Htoken; cbn [negb].
    + destruct anonymous as [uid|e]; cbn;
        (split; [reflexivity|]); (split; [discriminate|]); (split; [reflexivity|]);
        (split; [discriminate|discriminate]).
    + destruct withToken as [uid|e0].
      * cbn. split; [reflexivity|]. split; [discriminate|]. split; [discriminate|].
        split; [intros _ _ ? [= <-]; reflexivity|discriminate].
      * destruct anonymous as [uid|e]; cbn;
          (split; [reflexivity|]); (split; [discriminate|]); (split; [discriminate|]);
          (split; [discriminate|]).
        -- discriminate.
        -- intros ? [= <-]. repeat split.
Qed.

Lemma X25_Part000_callback_releases_the_UI_witness :
  Part000.onAuthStateChanged_callback (Some "u1") None (Return "x") (Return "y")
    (Part000.mkAuth None false)
  = (Part000.mkAuth (Some "u1") true, None).
Proof.
  pose proof (X25_Part000_callback_releases_the_UI (Some "u1") None (Return "x") (Return "y")
                (Part000.mkAuth None false)) as (_ & Huser & _).
  cbv zeta in Huser. specialize (Huser "u1" eq_refl).
  destruct (Part000.onAuthStateChanged_callback _ _ _ _ _) as [st' [e|]] eqn:E.
  - discriminate E.
  - cbn [fst] in Huser. rewrite Huser. reflexivity.
Defined.

(** X26.  The callback of [onAuthStateChanged] in index.jsx sets
    [isAuthReady] only together with a user id: it either leaves the state
    as it is (an accepted token, for which the next callback is awaited, or
    a token and an anonymous fallback both refused, in which case it
    rejects), or it leaves a ready state whose user id is the uid of the
    user, the uid of the session after an anonymous sign-in (a random UUID
    if there is none), or a random UUID when the anonymous sign-in is
    refused and no token is configured.  The [catch] of the [useFirebase]
    effect, on the contrary, sets [isAuthReady] without a user id when the
    set-up throws, and in that state no listener subscribes. *)
Theorem X26_Index_callback_sets_ready_with_a_user
    (appId : string) (user initialAuthToken : option string)
    (withToken anonymous : option Error)
    (currentUser : option string) (randomUUID : string) (st : IndexJsx.AuthState) :
  let run := IndexJsx.onAuthStateChanged_callback user initialAuthToken withToken anonymous
               currentUser randomUUID st in
  let session :=
    match currentUser with
    | Some uid => if String.eqb uid "" then randomUUID else uid
    | None => randomUUID
    end in
  (fst run = st \/
   (IndexJsx.isAuthReady (fst run) = true /\ is_Some (IndexJsx.userId (fst run)))) /\
  (forall uid, user = Some uid -> run = (IndexJsx.mkAuth (Some uid) true, None)) /\
  (user = None -> blank initialAuthToken = true ->
   run = (IndexJsx.mkAuth
            (Some (match anonymous with None => session | Some _ => randomUUID end)) true,
          None)) /\
  (user = None -> blank initialAuthToken = false ->
   run = match withToken, anonymous with
         | None, _ => (st, None)
         | Some _, None => (IndexJsx.mkAuth (Some session) true, None)
         | Some _, Some e => (st, Some e)
         end) /\
  (forall (setup : Error) (db : bool) (collectionName : string),
      let failed := IndexJsx.initialize (Some setup) (IndexJsx.mkAuth None false) in
      IndexJsx.isAuthReady failed = true /\ IndexJsx.userId failed = None /\
      IndexJsx.subscription appId collectionName db failed = None).
Proof.
  cbv zeta. unfold IndexJsx.onAuthStateChanged_callback, IndexJsx.uid_or_random.
  assert (Hfailed : forall (setup : Error) (db : bool) (collectionName : string),
             IndexJsx.isAuthReady (IndexJsx.initialize (Some setup) (IndexJsx.mkAuth None false))
             = true /\
             IndexJsx.userId (IndexJsx.initialize (Some setup) (IndexJsx.mkAuth None false))
             = None /\
             IndexJsx.subscription appId collectionName db
               (IndexJsx.initialize (Some setup) (IndexJsx.mkAuth None false)) = None).
  { intros setup db collectionName. split; [reflexivity|]. split; [reflexivity|].
    unfold IndexJsx.subscription. destruct db; reflexivity. }
  assert (Hsession : (if negb (blank currentUser) then default "" currentUser else randomUUID)
                     = match currentUser with
                       | Some uid => if String.eqb uid "" then randomUUID else uid
                       | None => randomUUID
                       end).
  { destruct currentUser as [uid|]; [|reflexivity]. cbn. destruct (String.eqb uid "");
      reflexivity. }
  rewrite Hsession.
  destruct user as [uid|].
  - split; [right; split; [reflexivity|eexists; reflexivity]|].
    split; [intros ? [= <-]; reflexivity|].
    split; [discriminate|]. split; [discriminate|exact Hfailed].
  - destruct (blank initialAuthToken) eqn:Htoken; cbn [negb].
    + split; [right; destruct anonymous; (split; [reflexivity|eexists; reflexivity])|].
      split; [discriminate|].
      split; [intros _ _; destruct anonymous; reflexivity|].
      split; [discriminate|exact Hfailed].
    + split; [destruct withToken as [e0|]; [destruct anonymous as [e|]|];
              [left; reflexivity
              |right; split; [reflexivity|eexists; reflexivity]
              |left; reflexivity]|].
      split; [discriminate|]. split; [discriminate|].
      split; [intros _ _; destruct withToken, anonymous; reflexivity|exact Hfailed].
Qed.

Lemma X26_Index_callback_sets_ready_with_a_user_witness :
  let refused := mkError "FirebaseError" "auth/operation-not-allowed" in
  IndexJsx.onAuthStateChanged_callback None None None (Some refused) None
    "6f1c0c3e-0000-4000-8000-000000000000" (IndexJsx.mkAuth None false)
  = (IndexJsx.mkAuth (Some "6f1c0c3e-0000-4000-8000-000000000000") true, None).
Proof.
  intros refused.
  apply (proj1 (proj2 (proj2 (X26_Index_callback_sets_ready_with_a_user "app" None None None
                                (Some refused) None "6f1c0c3e-0000-4000-8000-000000000000"
                                (IndexJsx.mkAuth None false)))));
    reflexivity.
Defined.

(** * The listeners read where the handlers write *)

Lemma blank_false (s : option string) :
  blank s = false -> exists uid, s = Some uid /\ uid <> "".
Proof.
  destruct s as [uid|]; [|discriminate]. cbn [blank]. intros H.
  exists uid. split; [reflexivity|]. apply String.eqb_neq, H.
Qed.

(** X27.  A listener subscribes only once the handle is set, the
    authentication has settled and a user id is known, and then to the very
    collection the handlers of its file write to: a weight accepted by
    [handleRecord] or [handleSaveWeight], and a record accepted by
    [saveRecord] or [saveSkinRecord], is stored as a document of the
    collection the listener of the same state is subscribed to. *)
Theorem X27_listeners_read_where_handlers_write (appId : string) (now : Clock) :
  (forall db st auth currentUser collection input loading message store,
      HealthTrackerApp.weights_subscription appId db st auth currentUser = Some collection ->
      JS.isNaN (JS.parseFloat input) || JS.leb (JS.parseFloat input) JS.zero = false ->
      db = true /\ HealthTrackerApp.isAuthReady st = true /\
      blank (HealthTrackerApp.userId st) = false /\
      (weight <$>
       snd (HealthTrackerApp.handleRecord appId db (HealthTrackerApp.userId st) now None
              (HealthTrackerApp.mkRecordWeight input loading message) store)
       !! (collection +:+ "/" +:+ toISOString now)) = Some (JS.parseFloat input))
  /\
  (forall db st currentUser collection input saveMessage store,
      Part000.weights_subscription appId db st currentUser = Some collection ->
      JS.isNaN (JS.parseFloat input) || JS.leb (JS.parseFloat input) JS.zero = false ->
      db = true /\ Part000.isAuthReady st = true /\
      blank (Part000.userId st) = false /\
      (weight <$>
       snd (Part000.handleSaveWeight appId db (Part000.userId st) now None
              (Part000.mkWeightTracker input saveMessage) store)
       !! (collection +:+ "/" +:+ toISOString now)) = Some (JS.parseFloat input))
  /\
  (forall db st collection newId form store,
      IndexJsx.subscription appId "nutrition_history" db st = Some collection ->
      IndexJsx.form_text (IndexJsx.form form) <> "" \/
      blank (IndexJsx.base64Image (IndexJsx.form form)) = false ->
      db = true /\ IndexJsx.isAuthReady st = true /\
      blank (IndexJsx.userId st) = false /\
      (IndexJsx.saved_text <$>
       snd (IndexJsx.saveRecord appId db (IndexJsx.userId st) now newId None form store)
       !! (collection +:+ "/" +:+ newId)) = Some (IndexJsx.form_text (IndexJsx.form form)))
  /\
  (forall db st collection newId form store,
      IndexJsx.subscription appId "skin_journal" db st = Some collection ->
      blank (IndexJsx.base64Image (IndexJsx.form form)) = false ->
      db = true /\ IndexJsx.isAuthReady st = true /\
      blank (IndexJsx.userId st) = false /\
      (IndexJsx.saved_text <$>
       snd (IndexJsx.saveSkinRecord appId db (IndexJsx.userId st) now newId None form store)
       !! (collection +:+ "/" +:+ newId)) = Some (IndexJsx.form_text (IndexJsx.form form))).
Proof.
  repeat apply conj.
  - intros db st auth currentUser collection input loading message store Hsub Hvalid.
    unfold HealthTrackerApp.weights_subscription in Hsub.
    destruct db; [|discriminate Hsub]. cbn [negb orb] in Hsub.
    destruct (blank (HealthTrackerApp.userId st)) eqn:Huser; [discriminate Hsub|].
    destruct (HealthTrackerApp.isAuthReady st); [|discriminate Hsub].
    destruct auth; [|discriminate Hsub]. destruct currentUser; [|discriminate Hsub].
    injection Hsub as <-. do 3 (split; [reflexivity|]).
    destruct (blank_false _ Huser) as (uid & -> & Huid).
    rewrite (handleRecord_accepted _ _ _ _ _ _ _ Huid Hvalid). cbn [snd default from_option].
    unfold Datatypes.id. rewrite lookup_insert_eq. reflexivity.
  - intros db st currentUser collection input saveMessage store Hsub Hvalid.
    unfold Part000.weights_subscription in Hsub.
    destruct db; [|discriminate Hsub]. cbn [negb orb] in Hsub.
    destruct (blank (Part000.userId st)) eqn:Huser; [discriminate Hsub|].
    destruct (Part000.isAuthReady st); [|discriminate Hsub].
    destruct currentUser; [|discriminate Hsub].
    injection Hsub as <-. do 3 (split; [reflexivity|]).
    destruct (blank_false _ Huser) as (uid & -> & Huid).
    rewrite (handleSaveWeight_accepted _ _ _ _ _ _ Huid Hvalid). cbn [snd default from_option].
    unfold Datatypes.id. rewrite lookup_insert_eq. reflexivity.
  - intros db st collection newId form store Hsub Hform.
    unfold IndexJsx.subscription in Hsub.
    destruct db; [|discriminate Hsub]. cbn [negb orb] in Hsub.
    destruct (IndexJsx.isAuthReady st); [|discriminate Hsub]. cbn [negb orb] in Hsub.
    destruct (blank (IndexJsx.userId st)) eqn:Huser; [discriminate Hsub|].
    injection Hsub as <-. do 3 (split; [reflexivity|]).
    unfold IndexJsx.saveRecord, setDoc. rewrite Huser. cbn [negb orb].
    assert (Hguard : String.eqb (IndexJsx.form_text (IndexJsx.form form)) ""
                     && blank (IndexJsx.base64Image (IndexJsx.form form)) = false).
    { destruct Hform as [H|H]; [|rewrite H; apply andb_false_r].
      apply String.eqb_neq in H. rewrite H. reflexivity. }
    rewrite Hguard. cbn [snd].
    match goal with |- _ <$> (<[?k1 := _]> _ !! ?k2) = _ => change k2 with k1 end.
    rewrite lookup_insert_eq. reflexivity.
  - intros db st collection newId form store Hsub Hform.
    unfold IndexJsx.subscription in Hsub.
    destruct db; [|discriminate Hsub]. cbn [negb orb] in Hsub.
    destruct (IndexJsx.isAuthReady st); [|discriminate Hsub]. cbn [negb orb] in Hsub.
    destruct (blank (IndexJsx.userId st)) eqn:Huser; [discriminate Hsub|].
    injection Hsub as <-. do 3 (split; [reflexivity|]).
    unfold IndexJsx.saveSkinRecord, setDoc. rewrite Huser, Hform. cbn [negb orb snd].
    match goal with |- _ <$> (<[?k1 := _]> _ !! ?k2) = _ => change k2 with k1 end.
    rewrite lookup_insert_eq. reflexivity.
Qed.

Lemma X27_listeners_read_where_handlers_write_witness :
  let now := mkClock "2024-03-01T08:00:00.000Z" "1/3/2024" in
  let st := HealthTrackerApp.mkAuth (Some "u1") true in
  (weight <$>
   snd (HealthTrackerApp.handleRecord "app" true (HealthTrackerApp.userId st) now None
          (HealthTrackerApp.mkRecordWeight "80" false "") ∅)
   !! ("artifacts/app/users/u1/weights" +:+ "/" +:+ toISOString now))
  = Some (JS.parseFloat "80").
Proof.
  intros now st.
  apply (proj1 (X27_listeners_read_where_handlers_write "app" now) true st true true
           "artifacts/app/users/u1/weights" "80" false "" ∅ eq_refl eq_refl).
Defined.

(** * Where the requests go *)

Lemma fetchWithRetry_from_calls_only (net : nat -> FetchResult) (random : nat -> Q)
    (url : string) (options : Payload) (maxRetries n i : nat) :
  calls_only url
    (snd (HealthTrackerApp.fetchWithRetry_from net random url options maxRetries n i)).
Proof.
  revert i. induction n as [|n IH]; intros i u p;
    cbn [HealthTrackerApp.fetchWithRetry_from].
  - intros [].
  - destruct (HealthTrackerApp.attempt (net i)).
    + intros [[= <- _]|[]]. reflexivity.
    + destruct (i =? maxRetries - 1)%nat.
      * intros [[= <- _]|[]]. reflexivity.
      * specialize (IH (S i) u p).
        destruct (HealthTrackerApp.fetchWithRetry_from net random url options maxRetries n (S i))
          as [r t].
        intros [[= <- _]|[H|H]]; [reflexivity|discriminate H|exact (IH H)].
Qed.

Lemma generate_calls_only (net : nat -> FetchResult) (random : nat -> Q)
    (payload : Payload) :
  calls_only API_URL_TEXT (snd (HealthTrackerApp.generate net random payload)).
Proof.
  unfold HealthTrackerApp.generate.
  pose proof (fetchWithRetry_from_calls_only net random API_URL_TEXT payload 3 3 0) as H.
  unfold HealthTrackerApp.fetchWithRetry.
  destruct (HealthTrackerApp.fetchWithRetry_from net random API_URL_TEXT payload 3 3 0)
    as [[v|e] t]; exact H.
Qed.

Lemma Part000_fetchWithBackoff_calls_only (net : nat -> FetchResult) (url : string)
    (options : Payload) :
  calls_only url (snd (Part000.fetchWithBackoff net url options)).
Proof.
  unfold Part000.fetchWithBackoff. cbn [Part000.fetchWithBackoff_from].
  destruct (Part000.attempt (net 0%nat)); [intros u p [[= <- _]|[]]; reflexivity|].
  destruct (Part000.attempt (net 1%nat));
    [intros u p [[= <- _]|[H|[[= <- _]|[]]]]; reflexivity || discriminate H|].
  destruct (Part000.attempt (net 2%nat));
    intros u p [[= <- _]|[H|[[= <- _]|[H|[[= <- _]|[]]]]]];
    reflexivity || discriminate H.
Qed.

Lemma Index_fetchWithBackoff_from_calls_only (net : nat -> FetchResult) (url : string)
    (options : Payload) (retries : nat) (delay : Q) (k : nat) :
  calls_only url (snd (IndexJsx.fetchWithBackoff_from net url options retries delay k)).
Proof.
  revert delay k. induction retries as [|retries IH]; intros delay k u p;
    cbn [IndexJsx.fetchWithBackoff_from].
  - destruct (net k) as [e|r]; [intros [[= <- _]|[]]; reflexivity|].
    destruct (status r =? 429)%Z, (negb (ok r)); intros [[= <- _]|[]]; reflexivity.
  - specialize (IH (delay * 2)%Q (S k) u p).
    destruct (IndexJsx.fetchWithBackoff_from net url options retries (delay * 2) (S k))
      as [r' t'].
    cbn [snd] in IH.
    assert (Hagain : In (Fetch u p) (Fetch url options :: Sleep delay :: t') -> u = url).
    { intros [[= <- _]|[H|H]]; [reflexivity|discriminate H|exact (IH H)]. }
    destruct (net k) as [e|r].
    + destruct (JS.includes _ _); [exact Hagain|]. intros [[= <- _]|[]]; reflexivity.
    + destruct (status r =? 429)%Z; [exact Hagain|].
      destruct (negb (ok r)); [|intros [[= <- _]|[]]; reflexivity].
      destruct (JS.includes _ _); [exact Hagain|]. intros [[= <- _]|[]]; reflexivity.
Qed.

Lemma Index_runGeneration_calls_only (net : nat -> FetchResult) (prompt : string)
    (base64Image : option string) (systemInstruction : string) (enableSearch : bool)
    (st : IndexJsx.ViewState) :
  calls_only API_URL_TEXT
    (snd (IndexJsx.runGeneration net prompt base64Image systemInstruction enableSearch st)).
Proof.
  unfold IndexJsx.runGeneration. destruct (String.eqb prompt ""); [intros u p []|].
  unfold IndexJsx.generation, IndexJsx.fetchWithBackoff.
  pose proof (Index_fetchWithBackoff_from_calls_only net API_URL_TEXT
                (IndexJsx.request_payload prompt base64Image systemInstruction enableSearch)
                3 1000 0) as H.
  destruct (IndexJsx.fetchWithBackoff_from _ _ _ _ _ _) as [[response|e] t];
    cbn [snd] in *; [|exact H].
  destruct (response_json response) as [v|e]; [|exact H].
  destruct (candidate_text v); exact H.
Qed.

(** X28.  What the user enters leaves the browser for one address only:
    every network call of every tool handler of the three files, first
    attempts and retries alike, goes to the generation endpoint
    [API_URL_TEXT]. *)
Theorem X28_requests_go_to_the_generation_endpoint
    (net : nat -> FetchResult) (random : nat -> Q) (localeDate : string -> string) :
  (forall goal ingredients st,
      calls_only API_URL_TEXT
        (snd (HealthTrackerApp.handlePlanMeal net random goal ingredients st)))
  /\ (forall file st,
      calls_only API_URL_TEXT (snd (HealthTrackerApp.handleAnalyzeFood net random file st)))
  /\ (forall symptom st,
      calls_only API_URL_TEXT
        (snd (HealthTrackerApp.handleAnalyzeSymptom net random symptom st)))
  /\ (forall weightData st,
      calls_only API_URL_TEXT
        (snd (HealthTrackerApp.handleGetAdvice net random weightData st)))
  /\ (forall file notes st,
      calls_only API_URL_TEXT
        (snd (HealthTrackerApp.analyzeSkinImage net random file notes st)))
  /\ (forall currentTool prompt base64Image weightData st,
      calls_only API_URL_TEXT
        (snd (Part000.handleSubmit net localeDate currentTool prompt base64Image
                weightData st)))
  /\ (forall prompt base64Image st,
      calls_only API_URL_TEXT
        (snd (Part000.SkinJournal_handleSubmit net prompt base64Image st)))
  /\ (forall mealDescription base64Image st,
      calls_only API_URL_TEXT (snd (IndexJsx.analyzeMeal net mealDescription base64Image st)))
  /\ (forall notes base64Image st,
      calls_only API_URL_TEXT (snd (IndexJsx.analyzeSkin net notes base64Image st))).
Proof.
  assert (Hnil : calls_only API_URL_TEXT nil) by (intros u p []).
  assert (Hgen : forall label r, calls_only API_URL_TEXT (snd r) ->
                                 calls_only API_URL_TEXT (snd (HealthTrackerApp.settle label r))).
  { intros label r H. rewrite settle_trace. exact H. }
  assert (Hpart : forall p i s e,
             calls_only API_URL_TEXT (snd (Part000.generateAIResponse net p i s e))).
  { intros. rewrite Part000_generateAIResponse_trace.
    apply Part000_fetchWithBackoff_calls_only. }
  repeat apply conj.
  - intros goal ingredients st. unfold HealthTrackerApp.handlePlanMeal.
    destruct (String.eqb goal ""); [exact Hnil|]. apply Hgen, generate_calls_only.
  - intros [file|] st; unfold HealthTrackerApp.handleAnalyzeFood; [|exact Hnil].
    apply Hgen. destruct (HealthTrackerApp.fileToBase64 file);
      [apply generate_calls_only|exact Hnil].
  - intros symptom st. unfold HealthTrackerApp.handleAnalyzeSymptom.
    destruct (String.eqb symptom ""); [exact Hnil|]. apply Hgen, generate_calls_only.
  - intros weightData st. unfold HealthTrackerApp.handleGetAdvice.
    destruct (_ <? 2)%nat; [exact Hnil|]. apply Hgen, generate_calls_only.
  - intros [file|] notes st; unfold HealthTrackerApp.analyzeSkinImage; [|exact Hnil].
    apply Hgen. destruct (HealthTrackerApp.fileToBase64 file);
      [apply generate_calls_only|exact Hnil].
  - intros currentTool prompt base64Image weightData st. unfold Part000.handleSubmit.
    repeat match goal with
           | |- context [if ?b then _ else _] => destruct b
           end; try apply Hpart; exact Hnil.
  - intros prompt base64Image st. unfold Part000.SkinJournal_handleSubmit.
    destruct (blank base64Image); [exact Hnil|apply Hpart].
  - intros mealDescription base64Image st. unfold IndexJsx.analyzeMeal.
    destruct (_ && _); [exact Hnil|].
    match goal with
    | |- context [IndexJsx.runGeneration ?n ?p ?b ?s ?e ?v] =>
        pose proof (Index_runGeneration_calls_only n p b s e v) as H;
        destruct (IndexJsx.runGeneration n p b s e v) as [st' t]
    end. exact H.
  - intros notes base64Image st. unfold IndexJsx.analyzeSkin.
    destruct (blank base64Image); [exact Hnil|].
    match goal with
    | |- context [IndexJsx.runGeneration ?n ?p ?b ?s ?e ?v] =>
        pose proof (Index_runGeneration_calls_only n p b s e v) as H;
        destruct (IndexJsx.runGeneration n p b s e v) as [st' t]
    end. exact H.
Qed.
